(** * Autoscraper: artifact repository and validation sandbox

    A shallow embedding of the storage tier ([shared/storage.py]), the
    artifact writer ([shared/scraper_saver.py]), the repository resolver
    ([scraper_repository/__init__.py]), the execution sandbox
    ([execute_code] in [shared/tools.py]) and the saving tool
    ([save_scraper_to_repository], same file), with the properties the
    specification states about them and further properties of the code.

    Conventions.
    - A Python [str] is a Rocq [string]; one character is one code point
      below 256.  On that domain the string functions below are the Python
      ones ([str.replace], [str.split], [str.strip], [in], ...).
    - A Python exception is a value of [exn]; a function that can raise
      lives in the monad [M], which threads the [World]: the bucket (when
      one is configured), the local files, the log, and which backend calls
      raise.  Files are those of a POSIX system: text is written as it is,
      and read back with universal newlines.
    - The interpreter and the standard-library functions whose behaviour is
      not part of this repository ([json.loads], [json.dumps], [re.match],
      [urlparse], the enumeration order of a [set]) are the fields of the
      class [PyLib]; the development is generic in it, and [py_ref] is a
      reference instance that runs.
    - The time of a call to [datetime.now()] and what the spawned
      interpreter does are arguments of the functions that use them.
    - Loading a module is what [importlib] does with the local file: the
      bytecode cached for it is run when its header carries the file's
      modification time (in seconds) and size, else the file is compiled,
      the bytecode cached and run.  Whether a text compiles and what running
      it raises are given by the world; running a module body is taken not
      to touch the storage or the log. *)

From Stdlib Require Import ZArith Ascii String List Bool Lia DecimalString.
From stdpp Require Import base option list strings gmap.

Local Open Scope string_scope.
Set Warnings "-register-all".
Set Default Proof Using "Type".

(** ** Python string functions *)

Module Py.

Definition nl : string := String "010" "".
Definition dquote : string := String "034" "".

(** [s.replace(a, b)] for one-character [a] and [b]. *)
Fixpoint replace_char (a b : ascii) (s : string) : string :=
  match s with
  | EmptyString => EmptyString
  | String c s' => String (if Ascii.eqb c a then b else c) (replace_char a b s')
  end.

(** [s.startswith(p)]. *)
Fixpoint startswith (s p : string) {struct p} : bool :=
  match p, s with
  | EmptyString, _ => true
  | String _ _, EmptyString => false
  | String a p', String c s' => Ascii.eqb a c && startswith s' p'
  end.

(** [s.endswith(p)]. *)
Definition endswith (s p : string) : bool :=
  let n := String.length s in
  let k := String.length p in
  (k <=? n)%nat && String.eqb (String.substring (n - k) k s) p.

(** [needle in s]. *)
Fixpoint contains (needle s : string) : bool :=
  startswith s needle ||
  match s with
  | EmptyString => false
  | String _ s' => contains needle s'
  end.

(** [s.split('\n')]: never empty, [''.split('\n') = ['']]. *)
Fixpoint split_nl (s : string) : list string :=
  match s with
  | EmptyString => [EmptyString]
  | String c s' =>
      if Ascii.eqb c "010" then EmptyString :: split_nl s'
      else match split_nl s' with
           | l :: ls => String c l :: ls
           | [] => [String c EmptyString]
           end
  end.

(** ['\n'.join(ls)]. *)
Fixpoint join_nl (ls : list string) : string :=
  match ls with
  | [] => EmptyString
  | [l] => l
  | l :: ls' => l +:+ nl +:+ join_nl ls'
  end.

(** [c.isspace()] on code points below 256: TAB..CR, FS..US, space, NEL and
    the no-break space. *)
Definition isspace (c : ascii) : bool :=
  let n := nat_of_ascii c in
  ((9 <=? n) && (n <=? 13) || (28 <=? n) && (n <=? 32)
   || (n =? 133) || (n =? 160))%nat.

(** [s.strip() == ""]. *)
Fixpoint is_blank (s : string) : bool :=
  match s with
  | EmptyString => true
  | String c s' => isspace c && is_blank s'
  end.

(** [c.isalnum()] restricted to ASCII, as [re] uses it for escapes. *)
Definition is_ascii_alnum (c : ascii) : bool :=
  let n := nat_of_ascii c in
  ((48 <=? n) && (n <=? 57) || (65 <=? n) && (n <=? 90)
   || (97 <=? n) && (n <=? 122))%nat.

(** What a file opened with [open(path, 'r')] gives for stored text [s]:
    each CR LF and each lone CR is read as LF (universal newlines). Text
    written with [open(path, 'w')] is stored as it is (POSIX). *)
Fixpoint universal_newlines (s : string) : string :=
  match s with
  | EmptyString => EmptyString
  | String c s' =>
      if Ascii.eqb c "013" then
        String "010" match s' with
                     | String "010" s'' => universal_newlines s''
                     | _ => universal_newlines s'
                     end
      else String c (universal_newlines s')
  end.

(** [re.escape(s)] (Python 3.7 and later): a backslash before each of
    [()[]{}?*+-|^$\.&~#] and before space, TAB, LF, CR, VT and FF. *)
Definition re_special (c : ascii) : bool :=
  existsb (Ascii.eqb c)
    (list_ascii_of_string "()[]{}?*+-|^$\.&~# "
     ++ ["009"; "010"; "013"; "011"; "012"]%char)%list.

Fixpoint re_escape (s : string) : string :=
  match s with
  | EmptyString => EmptyString
  | String c s' =>
      if re_special c then String "\" (String c (re_escape s'))
      else String c (re_escape s')
  end.

End Py.

(** ** Execution sandbox ([execute_code], shared/tools.py) *)

Module Sandbox.
Import Py.

(** What [subprocess.run(..., capture_output=True, timeout=30)] can do:
    return a completed process, raise [TimeoutExpired] (which carries the
    output captured before the deadline), or fail in another way (also the
    temporary file that cannot be written). *)
Inductive run_result :=
  | Completed (returncode : Z) (stdout stderr : string)
  | TimeoutExpired (partial_stdout partial_stderr : string)
  | OtherException (msg : string).

(** The dictionary [execute_code] returns; the two early returns have no
    ['debug_info'] key. *)
Record verdict := Verdict {
  success : bool;
  output : string;
  error : string;
  debug_info : option string
}.

Definition guard_marker : string := "if __name__ ==".

(** [line and line[0] not in (' ', '\t')]. *)
Definition starts_unindented (line : string) : bool :=
  match line with
  | EmptyString => false
  | String c _ => negb (Ascii.eqb c " " || Ascii.eqb c "009")
  end.

(** One iteration of the [for line in code_lines] loop over the pair
    [(skip_main_block, cleaned_code)]. *)
Definition clean_step (st : bool * list string) (line : string)
  : bool * list string :=
  let '(skip_main_block, cleaned_code) := st in
  if contains guard_marker line then (true, cleaned_code)
  else if skip_main_block then
    if is_blank line then (true, cleaned_code)
    else if starts_unindented line then (false, (cleaned_code ++ [line])%list)
    else (true, cleaned_code)
  else (false, (cleaned_code ++ [line])%list).

Definition clean_lines (code_lines : list string) : bool * list string :=
  fold_left clean_step code_lines (false, []).

Definition clean_code (code : string) : string :=
  join_nl (snd (clean_lines (split_nl code))).

(** The harness appended to the cleaned code (the f-string). *)
Definition wrap_code (code_cleaned test_url : string) : string :=
  join_nl
    [ code_cleaned;
      "";
      "# Execute the scraper";
      "if __name__ == '__main__':";
      "    import json";
      "    try:";
      "        result = scrape('" +:+ test_url +:+ "')";
      "        print(json.dumps(result, indent=2, ensure_ascii=False))";
      "    except Exception as e:";
      "        print(f" +:+ dquote +:+ "EXECUTION_ERROR: {str(e)}" +:+ dquote +:+ ")";
      "" ].

Definition wrapped_code (code test_url : string) : string :=
  wrap_code (clean_code code) test_url.

Definition classify (r : run_result) : verdict :=
  match r with
  | Completed returncode stdout stderr =>
      if negb (returncode =? 0)%Z || contains "EXECUTION_ERROR" stdout then
        Verdict false stdout
          (if String.eqb stderr "" then "Code execution failed" else stderr)
          (Some ("STDOUT:" +:+ nl +:+ stdout +:+ nl +:+ nl +:+ "STDERR:" +:+ nl +:+ stderr))
      else
        Verdict true stdout "" (Some ("STDOUT:" +:+ nl +:+ stdout))
  | TimeoutExpired _ _ =>
      Verdict false "" "Code execution timed out (30s limit)" None
  | OtherException msg =>
      Verdict false "" msg None
  end.

(** [run] is the interpreter: the temporary file holding the wrapped code
    is written and executed under the 30 s limit. *)
Definition execute_code (run : string → run_result) (code test_url : string)
  : verdict :=
  classify (run (wrapped_code code test_url)).

(** A member of a self-invocation block: a blank line, or a line that
    starts with a space or a tab. *)
Definition block_line (line : string) : bool :=
  is_blank line || negb (starts_unindented line).

(** Whether a verdict shows the text [s] in any of its fields. *)
Definition carries (v : verdict) (s : string) : bool :=
  contains s (output v) || contains s (error v)
  || match debug_info v with Some d => contains s d | None => false end.

(** A line without a line break in it. *)
Definition one_line (line : string) : Prop := contains nl line = false.

(** A line at which the loop stops skipping a block, or starts skipping
    anew: a line with the guard in it, or a line that is neither blank nor
    indented. *)
Definition resumes (line : string) : bool :=
  contains guard_marker line || negb (block_line line).

End Sandbox.

(** ** Values, exceptions and the standard library *)

(** The values [json.loads] produces and [json.dumps] accepts.  A [dict]
    keeps its keys in insertion order.  A [float] is given by its [repr],
    the shortest decimal text that reads back as it ([0.9], [1e-05], [nan],
    [inf]). *)
Inductive json :=
  | JNull
  | JBool (b : bool)
  | JInt (n : Z)
  | JFloat (repr : string)
  | JStr (s : string)
  | JList (items : list json)
  | JDict (entries : list (string * json)).

(** The exceptions the modelled code raises or lets through;
    [OtherError] is an exception of any other class, by the name of the
    class (what a module body can raise: [NameError], [SyntaxError], ...). *)
Inductive exn :=
  | FileNotFoundError (msg : string)
  | OSError (msg : string)
  | ValueError
  | JSONDecodeError
  | RecursionError
  | AttributeError
  | TypeError
  | KeyError (key : string)
  | ReError
  | OtherError (class_name : string).

(** How [json.loads] fails: the text is not well-formed ([JSONDecodeError]),
    an integer literal has more digits than [int] converts ([ValueError],
    which is not a [JSONDecodeError]), or the nesting exceeds the recursion
    limit ([RecursionError]). *)
Inductive loads_failure :=
  | Malformed
  | DigitLimit
  | TooDeep.

Definition loads_exn (failure : loads_failure) : exn :=
  match failure with
  | Malformed => JSONDecodeError
  | DigitLimit => ValueError
  | TooDeep => RecursionError
  end.

(** The standard-library functions the repository calls.
    - [json_loads s]: [json.loads(s)]; [None] when it raises.
    - [json_error s]: how [json.loads(s)] fails, when it does.
    - [json_dumps v]: [json.dumps(v, indent=2, ensure_ascii=False)].
    - [re_match p s]: whether [re.match(p, s)] is a match; [None] when it
      raises [re.error].
    - [urlparse_netloc u]: [urlparse(u).netloc]; [None] when [urlparse]
      raises [ValueError].
    - [py_repr v]: the text an f-string shows for a value that is not a
      [str].
    - [set_to_list s]: [list(s)] for a set of paths, in the order in which
      the interpreter enumerates the set. *)
Class PyLib := {
  json_loads : string → option json;
  json_error : string → loads_failure;
  json_dumps : json → string;
  re_match : string → string → option bool;
  urlparse_netloc : string → option string;
  py_repr : json → string;
  set_to_list : gset string → list string
}.

Module Value.

(** [d.get(k)] on the entries of a [dict]. *)
Fixpoint dict_get (k : string) (entries : list (string * json)) : option json :=
  match entries with
  | [] => None
  | (k', v) :: rest => if String.eqb k' k then Some v else dict_get k rest
  end.

(** [d[k] = v]: an existing key keeps its place, a new key goes last. *)
Fixpoint dict_set (k : string) (v : json) (entries : list (string * json))
  : list (string * json) :=
  match entries with
  | [] => [(k, v)]
  | (k', v') :: rest =>
      if String.eqb k' k then (k', v) :: rest
      else (k', v') :: dict_set k v rest
  end.

Definition keys (entries : list (string * json)) : list string :=
  map fst entries.

(** [bool(v)]. *)
Definition truthy (v : json) : bool :=
  match v with
  | JNull => false
  | JBool b => b
  | JInt n => negb (n =? 0)%Z
  | JFloat repr => negb (String.eqb repr "0.0" || String.eqb repr "-0.0")
  | JStr s => negb (String.eqb s "")
  | JList items => match items with [] => false | _ => true end
  | JDict entries => match entries with [] => false | _ => true end
  end.

(** [v == s] for a string [s]. *)
Definition is_str (v : json) (s : string) : bool :=
  match v with
  | JStr t => String.eqb t s
  | _ => false
  end.

(** [f"{v}"]. *)
Definition py_format `{PyLib} (v : json) : string :=
  match v with
  | JStr s => s
  | _ => py_repr v
  end.

(** [content] when [if content:] holds, for an [Optional[str]]. *)
Definition nonempty (content : option string) : option string :=
  match content with
  | Some c => if String.eqb c "" then None else Some c
  | None => None
  end.

End Value.

(** ** The world: storage tiers, log, failing backend calls *)

Inductive io_op :=
  | LocalWrite     (* makedirs / open(.., 'w') / write *)
  | LocalRead      (* open(.., 'r') / read *)
  | GcsUpload      (* blob.upload_from_string *)
  | GcsExists      (* blob.exists *)
  | GcsDownload    (* blob.download_as_text *)
  | GcsList        (* client.list_blobs *)
  | CacheRead      (* the loader reading __pycache__/<name>.pyc *)
  | CacheWrite.    (* the loader writing it *)

Inductive level := INFO | WARNING | ERROR.

Record Bucket := mkBucket {
  bucket_name : string;
  blobs : gmap string string
}.

(** [bucket] is [self.bucket] ([None] in local-only mode); [local] is the
    content of the [scraper_repository] directory, by relative path;
    [raises op path] tells whether the backend call [op] on [path] raises;
    [log] is what the loggers have emitted, oldest first, each record
    without the text of the exception it reports. A local write that raises
    leaves the file as it was.

    [clock] is the time, in whole seconds, and [mtimes] the modification
    time of the local files (0 for a file that has none recorded): a write
    stamps the file with the clock, and no modelled call advances the
    clock.  [pycache] is the bytecode cached for the local files: for a
    path, the modification time and the size its header carries (32 bits
    each) and the text it was compiled from.  [compile_error src] is what
    compiling [src] raises, if anything; [exec_error name text] is what
    running, as the module [name], the code compiled from [text] raises, if
    anything. *)
Record World := mkWorld {
  bucket : option Bucket;
  local : gmap string string;
  raises : io_op → string → bool;
  log : list (level * string);
  repo_root : string;
  clock : Z;
  mtimes : gmap string Z;
  pycache : gmap string (Z * Z * string);
  compile_error : string → option exn;
  exec_error : string → string → option exn
}.

Inductive outcome (A : Type) :=
  | Ret (a : A)
  | Raise (e : exn).
Arguments Ret {A} a.
Arguments Raise {A} e.

(** Computations that read and change the world and may raise. *)
Definition M (A : Type) : Type := World → outcome A * World.

Global Instance M_ret : MRet M := λ A a w, (Ret a, w).
Global Instance M_bind : MBind M := λ A B f m w,
  match m w with
  | (Ret a, w') => f a w'
  | (Raise e, w') => (Raise e, w')
  end.

Definition raise {A} (e : exn) : M A := λ w, (Raise e, w).
Definition gets {A} (f : World → A) : M A := λ w, (Ret (f w), w).
Definition modify (f : World → World) : M unit := λ w, (Ret tt, f w).

(** [try: c except FileNotFoundError: h]. *)
Definition except_FileNotFoundError {A} (c : M A) (h : M A) : M A := λ w,
  match c w with
  | (Raise (FileNotFoundError _), w') => h w'
  | r => r
  end.

(** [open(path, 'w')] and [write]: the file holds [content] and is stamped
    with the clock. *)
Definition write_file (path content : string) (w : World) : World :=
  mkWorld (bucket w) (<[path := content]> (local w)) (raises w) (log w)
          (repo_root w) (clock w) (<[path := clock w]> (mtimes w)) (pycache w)
          (compile_error w) (exec_error w).
Definition set_blobs (b : gmap string string) (w : World) : World :=
  mkWorld (option_map (λ bk, mkBucket (bucket_name bk) b) (bucket w))
          (local w) (raises w) (log w) (repo_root w) (clock w) (mtimes w)
          (pycache w) (compile_error w) (exec_error w).
Definition add_log (entry : level * string) (w : World) : World :=
  mkWorld (bucket w) (local w) (raises w) (log w ++ [entry])%list (repo_root w)
          (clock w) (mtimes w) (pycache w) (compile_error w) (exec_error w).
Definition set_pycache (c : gmap string (Z * Z * string)) (w : World) : World :=
  mkWorld (bucket w) (local w) (raises w) (log w) (repo_root w) (clock w)
          (mtimes w) c (compile_error w) (exec_error w).

Definition logger (lvl : level) (msg : string) : M unit :=
  modify (add_log (lvl, msg)).

(** ** Storage tier ([StorageManager], shared/storage.py) *)

Module Storage.
Import Py.

(** The body of a [try] around a local write: [true] when it went through. *)
Definition local_write (path content : string) : M bool := λ w,
  if raises w LocalWrite path then (Ret false, w)
  else (Ret true, write_file path content w).

(** The body of the [try] around [blob.upload_from_string]. *)
Definition gcs_upload (path content : string) : M bool := λ w,
  match bucket w with
  | Some bk =>
      if raises w GcsUpload path then (Ret false, w)
      else (Ret true, set_blobs (<[path := content]> (blobs bk)) w)
  | None => (Ret false, w)
  end.

Definition save_content (path content : string) : M bool :=
  bk ← gets bucket;
  local_ok ← local_write path content;
  fatal ← (if local_ok : bool then mret false
           else logger ERROR ("Failed to save locally to " +:+ path);;
                mret (negb (bool_decide (is_Some bk)))) : M bool;
  if (fatal : bool) then mret false
  else
    match bk with
    | Some b =>
        uploaded ← gcs_upload path content;
        if (uploaded : bool) then
          logger INFO ("Saved to GCS: gs://" +:+ bucket_name b +:+ "/" +:+ path);;
          mret true
        else
          logger ERROR ("Failed to save to GCS " +:+ path);;
          mret false
    | None => mret true
    end.

Definition _save_local_cache (path content : string) : M unit :=
  ok ← local_write path content;
  if (ok : bool) then mret tt
  else logger WARNING ("Failed to update local cache for " +:+ path).

(** The local fallback of [read_content]. *)
Definition read_local (path : string) : M (option string) :=
  l ← gets local;
  match l !! path with
  | Some content =>
      failing ← gets (λ w, raises w LocalRead path);
      if (failing : bool) then
        logger ERROR ("Failed to read local file " +:+ path);; mret None
      else mret (Some (universal_newlines content))
  | None => mret None
  end.

Definition read_content (path : string) : M (option string) :=
  bk ← gets bucket;
  match bk with
  | Some b =>
      exists_raises ← gets (λ w, raises w GcsExists path);
      if (exists_raises : bool) then
        logger WARNING ("Failed to read from GCS " +:+ path);; read_local path
      else
        match blobs b !! path with
        | Some content =>
            download_raises ← gets (λ w, raises w GcsDownload path);
            if (download_raises : bool) then
              logger WARNING ("Failed to read from GCS " +:+ path);;
              read_local path
            else
              _save_local_cache path content;; mret (Some content)
        | None => read_local path
        end
  | None => read_local path
  end.

Definition local_exists (path : string) : M bool :=
  gets (λ w, bool_decide (is_Some (local w !! path))).

Definition exists_ (path : string) : M bool :=
  bk ← gets bucket;
  match bk with
  | Some b =>
      exists_raises ← gets (λ w, raises w GcsExists path);
      if (exists_raises : bool) then local_exists path
      else mret (bool_decide (is_Some (blobs b !! path)))
  | None => local_exists path
  end.

Definition with_prefix (prefix : string) (m : gmap string string) : gset string :=
  filter (λ p, startswith p prefix = true) (dom m).

Section WithLibrary.
Context `{PyLib}.

Definition list_files (prefix : string) : M (list string) :=
  bk ← gets bucket;
  remote ← match bk with
           | Some b =>
               list_raises ← gets (λ w, raises w GcsList prefix);
               if (list_raises : bool) then
                 logger ERROR "Failed to list GCS files";; mret ∅
               else mret (with_prefix prefix (blobs b))
           | None => mret ∅
           end;
  l ← gets local;
  mret (set_to_list (remote ∪ with_prefix prefix l)).

End WithLibrary.
End Storage.

(** ** Artifact writer (shared/scraper_saver.py) *)

Module Saver.
Import Py Value Storage.

Definition domain_to_filename (domain : string) : string :=
  replace_char "." "_" domain.

Record saved := mkSaved {
  scraper_path : string;
  metadata_path : string;
  domain : string
}.

(** [os.path.join(repo_root, rel_path)]. *)
Definition path_join (root rel_path : string) : string :=
  root +:+ "/" +:+ rel_path.

Section WithLibrary.
Context `{PyLib}.

(** [urlparse(url).netloc]. *)
Definition netloc (url : string) : M string :=
  match urlparse_netloc url with
  | Some domain => mret domain
  | None => raise ValueError
  end.

Definition filename_base (domain scraper_type : string) : string :=
  if String.eqb scraper_type "list" || String.eqb scraper_type "content"
  then domain_to_filename domain +:+ "_" +:+ scraper_type
  else domain_to_filename domain.

Definition url_pattern (domain : string) : string :=
  "https?://" +:+ re_escape domain +:+ "/.*".

(** The [metadata] dictionary of [save_scraper]. [created_at] and
    [last_validated] are the two readings of [datetime.now().isoformat()]. *)
Definition metadata_of (domain url : string) (selectors : json)
    (site_name : option string) (scraper_type created_at last_validated : string)
  : json :=
  let fields :=
    match selectors with
    | JDict entries => map JStr (keys entries)
    | _ => []
    end in
  JDict
    [ ("domain", JStr domain);
      ("site_name", JStr (match nonempty site_name with
                          | Some name => name
                          | None => domain
                          end));
      ("scraper_type", JStr scraper_type);
      ("url_pattern", JStr (url_pattern domain));
      ("example_url", JStr url);
      ("fields", JList fields);
      ("selectors", selectors);
      ("created_at", JStr created_at);
      ("last_validated", JStr last_validated);
      ("version", JStr "1.0") ].

Definition save_scraper (code url : string) (selectors : json)
    (site_name : option string) (scraper_type : string)
    (created_at last_validated : string) : M saved :=
  domain ← netloc url;
  let filename_base := filename_base domain scraper_type in
  let scraper_rel_path := "scrapers/" +:+ filename_base +:+ ".py" in
  let metadata_rel_path := "metadata/" +:+ filename_base +:+ ".json" in
  save_content scraper_rel_path code;;
  logger INFO ("Saved scraper code for " +:+ domain +:+ " to " +:+ scraper_rel_path);;
  let metadata :=
    metadata_of domain url selectors site_name scraper_type created_at last_validated in
  save_content metadata_rel_path (json_dumps metadata);;
  logger INFO ("Saved metadata for " +:+ domain +:+ " to " +:+ metadata_rel_path);;
  root ← gets repo_root;
  mret (mkSaved (path_join root scraper_rel_path)
                (path_join root metadata_rel_path) domain).

(** [now] is the reading of [datetime.now().isoformat()]. Every exception
    of the [try] block ends in the same [except Exception] handler. *)
Definition update_scraper_validation (domain now : string) : M unit :=
  let filename_base := domain_to_filename domain in
  let metadata_rel_path := "metadata/" +:+ filename_base +:+ ".json" in
  content ← read_content metadata_rel_path;
  match nonempty content with
  | None =>
      logger WARNING ("Could not find metadata for " +:+ domain +:+ " to update validation")
  | Some content =>
      match json_loads content with
      | Some (JDict entries) =>
          let metadata := JDict (dict_set "last_validated" (JStr now) entries) in
          save_content metadata_rel_path (json_dumps metadata);;
          logger INFO ("Updated validation timestamp for " +:+ domain)
      | _ =>
          logger ERROR ("Failed to update validation timestamp for " +:+ domain)
      end
  end.

End WithLibrary.
End Saver.

(** ** Repository resolver (scraper_repository/__init__.py) *)

Module Repository.
Import Py Value Storage.

(** A loaded module: the name it was loaded under and the text whose code
    it runs. *)
Record module := mkModule {
  module_name : string;
  source : string
}.

(** The size of the file that holds [s], written as UTF-8. *)
Fixpoint utf8_length (s : string) : Z :=
  match s with
  | EmptyString => 0
  | String c s' => (if (nat_of_ascii c <? 128)%nat then 1 else 2) + utf8_length s'
  end.

(** [st.st_mtime] truncated to seconds. *)
Definition mtime_of (w : World) (path : string) : Z :=
  default 0%Z (mtimes w !! path).

(** The two 32-bit fields of the header of a timestamp [.pyc]:
    [mtime & 0xFFFFFFFF] and [size & 0xFFFFFFFF]. *)
Definition pyc_stamp (mtime : Z) (src : string) : Z * Z :=
  (Z.land mtime 4294967295, Z.land (utf8_length src) 4294967295).

(** The text whose bytecode the loader takes from the cache, for a source
    file with the given stamp: the cache is read, and its header carries the
    modification time and the size of the source. *)
Definition cached_code (w : World) (path : string) (stamp : Z * Z) : option string :=
  if raises w CacheRead path then None
  else match pycache w !! path with
       | Some (cached_stamp, text) =>
           if bool_decide (cached_stamp = stamp) then Some text else None
       | None => None
       end.

(** [exec(code, module.__dict__)]. *)
Definition exec_code (name text : string) : M module := λ w,
  match exec_error w name text with
  | Some e => (Raise e, w)
  | None => (Ret (mkModule name text), w)
  end.

(** [_cache_bytecode]: a failure to write is swallowed. *)
Definition cache_bytecode (path : string) (stamp : Z * Z) (src : string) : M unit :=
  λ w,
  if raises w CacheWrite path then (Ret tt, w)
  else (Ret tt, set_pycache (<[path := (stamp, src)]> (pycache w)) w).

(** The returned local path is represented by its path relative to the
    repository root. *)
Definition _ensure_file_available (rel_path : string) : M string :=
  content ← read_content rel_path;
  match content with
  | None => raise (FileNotFoundError ("File not found in storage: " +:+ rel_path))
  | Some _ => mret rel_path
  end.

(** [spec_from_file_location], [module_from_spec], [exec_module], as
    [SourceFileLoader.get_code] goes: the file is looked up ([path_stats]);
    bytecode cached under its stamp is run without reading the source;
    otherwise the source is read and compiled, the bytecode is cached, and
    the code is run. *)
Definition load_module (name filepath : string) : M module :=
  files ← gets local;
  match files !! filepath with
  | None =>
      raise (FileNotFoundError ("[Errno 2] No such file or directory: " +:+ filepath))
  | Some src =>
      stamp ← gets (λ w, pyc_stamp (mtime_of w filepath) src);
      cached ← gets (λ w, cached_code w filepath stamp);
      match cached with
      | Some text => exec_code name text
      | None =>
          unreadable ← gets (λ w, raises w LocalRead filepath);
          if (unreadable : bool) then raise (OSError ("cannot read " +:+ filepath))
          else
            failure ← gets (λ w, compile_error w src);
            match failure with
            | Some e => raise e
            | None => cache_bytecode filepath stamp src;; exec_code name src
            end
      end
  end.

Definition get_scraper (domain : string) : M module :=
  let filename := replace_char "." "_" domain +:+ ".py" in
  let rel_path := "scrapers/" +:+ filename in
  filepath ← except_FileNotFoundError (_ensure_file_available rel_path)
               (raise (FileNotFoundError ("No scraper found for domain: " +:+ domain)));
  module ← load_module ("scraper_" +:+ domain) filepath;
  logger INFO ("Loaded scraper for domain: " +:+ domain);;
  mret module.

Definition get_scraper_pipeline (domain : string) : M (module * module) :=
  let base_name := replace_char "." "_" domain in
  let list_rel := "scrapers/" +:+ base_name +:+ "_list.py" in
  let content_rel := "scrapers/" +:+ base_name +:+ "_content.py" in
  paths ← except_FileNotFoundError
            (list_path ← _ensure_file_available list_rel;
             content_path ← _ensure_file_available content_rel;
             mret (list_path, content_path))
            (raise (FileNotFoundError ("Incomplete pipeline for domain: " +:+ domain)));
  list_module ← load_module ("scraper_" +:+ domain +:+ "_list") (fst paths);
  content_module ← load_module ("scraper_" +:+ domain +:+ "_content") (snd paths);
  logger INFO ("Loaded scraper pipeline for " +:+ domain);;
  mret (list_module, content_module).

Definition has_scraper_pipeline (domain : string) : M bool :=
  let base_name := replace_char "." "_" domain in
  let list_rel := "scrapers/" +:+ base_name +:+ "_list.py" in
  let content_rel := "scrapers/" +:+ base_name +:+ "_content.py" in
  has_list ← exists_ list_rel;
  if (has_list : bool) then exists_ content_rel else mret false.

Section WithLibrary.
Context `{PyLib}.

Definition get_scraper_metadata (domain : string) : M json :=
  let filename := replace_char "." "_" domain +:+ ".json" in
  let rel_path := "metadata/" +:+ filename in
  content ← read_content rel_path;
  match nonempty content with
  | None => mret (JDict [])
  | Some content =>
      match json_loads content with
      | Some metadata => mret metadata
      | None => raise (loads_exn (json_error content))
      end
  end.

(** [metadata.get(key, default)]; a value that is not a [dict] has no
    [get]. *)
Definition py_get (metadata : json) (key : string) (default : json) : M json :=
  match metadata with
  | JDict entries => mret (from_option id default (dict_get key entries))
  | _ => raise AttributeError
  end.

(** [metadata[key]] on a [dict]. *)
Definition py_subscript (metadata : json) (key : string) : M json :=
  match metadata with
  | JDict entries =>
      match dict_get key entries with
      | Some v => mret v
      | None => raise (KeyError key)
      end
  | _ => raise TypeError
  end.

(** [url_pattern and re.match(url_pattern, url)] as a condition. *)
Definition pattern_matches (url_pattern : json) (url : string) : M bool :=
  if truthy url_pattern then
    match url_pattern with
    | JStr pattern =>
        match re_match pattern url with
        | Some b => mret b
        | None => raise ReError
        end
    | _ => raise TypeError
    end
  else mret false.

(** [get_scraper(domain)] for the value read from the metadata. *)
Definition get_scraper_value (domain : json) : M module :=
  match domain with
  | JStr d => get_scraper d
  | _ => raise AttributeError
  end.

(** The [for metadata_file_path in metadata_files] loop of
    [get_scraper_for_url], and the [raise] after it. *)
Fixpoint scan_patterns (url : string) (metadata_files : list string) : M module :=
  match metadata_files with
  | [] => raise (FileNotFoundError ("No scraper found for URL: " +:+ url))
  | metadata_file_path :: rest =>
      if negb (endswith metadata_file_path ".json") then scan_patterns url rest
      else
        content ← read_content metadata_file_path;
        match nonempty content with
        | None => scan_patterns url rest
        | Some content =>
            match json_loads content with
            | None =>
                match json_error content with
                | Malformed =>
                    logger WARNING ("Corrupt metadata file: " +:+ metadata_file_path);;
                    scan_patterns url rest
                | failure => raise (loads_exn failure)
                end
            | Some metadata =>
                url_pattern ← py_get metadata "url_pattern" (JStr "");
                matched ← pattern_matches url_pattern url;
                if (matched : bool) then
                  domain ← py_subscript metadata "domain";
                  logger INFO ("Matched URL " +:+ url +:+ " to scraper for domain "
                               +:+ py_format domain);;
                  get_scraper_value domain
                else scan_patterns url rest
            end
        end
  end.

Definition get_scraper_for_url (url : string) : M module :=
  domain ← Saver.netloc url;
  except_FileNotFoundError (get_scraper domain)
    (metadata_files ← list_files "metadata/";
     scan_patterns url metadata_files).

(** The loop of [list_scrapers] over the accumulator [scrapers]. *)
Fixpoint list_scrapers_loop (metadata_files : list string) (scrapers : list json)
  : M (list json) :=
  match metadata_files with
  | [] => mret scrapers
  | metadata_file_path :: rest =>
      if negb (endswith metadata_file_path ".json") then list_scrapers_loop rest scrapers
      else
        content ← read_content metadata_file_path;
        match nonempty content with
        | Some content =>
            match json_loads content with
            | Some metadata => list_scrapers_loop rest (scrapers ++ [metadata])%list
            | None =>
                match json_error content with
                | Malformed => list_scrapers_loop rest scrapers
                | failure => raise (loads_exn failure)
                end
            end
        | None => list_scrapers_loop rest scrapers
        end
  end.

Definition list_scrapers : M (list json) :=
  metadata_files ← list_files "metadata/";
  list_scrapers_loop metadata_files [].

(** The summary appended for a domain with a complete pipeline. *)
Definition pipeline_summary (domain : string) (metadata content_metadata : json)
  : M json :=
  site_name ← py_get metadata "site_name" (JStr domain);
  list_example_url ← py_get metadata "example_url" (JStr "");
  list_created_at ← py_get metadata "created_at" (JStr "");
  content_example_url ← py_get content_metadata "example_url" (JStr "");
  content_fields ← py_get content_metadata "fields" (JList []);
  content_created_at ← py_get content_metadata "created_at" (JStr "");
  mret (JDict
    [ ("domain", JStr domain);
      ("site_name", site_name);
      ("list_scraper", JDict [ ("example_url", list_example_url);
                               ("created_at", list_created_at) ]);
      ("content_scraper", JDict [ ("example_url", content_example_url);
                                  ("fields", content_fields);
                                  ("created_at", content_created_at) ]) ]).

(** The loop of [list_scraper_pipelines] over [pipelines] and
    [domains_seen]. *)
Fixpoint list_scraper_pipelines_loop (metadata_files : list string)
    (pipelines : list json) (domains_seen : gset string) : M (list json) :=
  match metadata_files with
  | [] => mret pipelines
  | metadata_file_path :: rest =>
      if negb (endswith metadata_file_path ".json")
      then list_scraper_pipelines_loop rest pipelines domains_seen
      else
        content ← read_content metadata_file_path;
        match nonempty content with
        | None => list_scraper_pipelines_loop rest pipelines domains_seen
        | Some content =>
            match json_loads content with
            | None => list_scraper_pipelines_loop rest pipelines domains_seen
            | Some metadata =>
                scraper_type ← py_get metadata "scraper_type" (JStr "single");
                domain ← py_get metadata "domain" (JStr "");
                if is_str scraper_type "list" && truthy domain then
                  match domain with
                  | JStr d =>
                      if bool_decide (d ∈ domains_seen)
                      then list_scraper_pipelines_loop rest pipelines domains_seen
                      else
                        complete ← has_scraper_pipeline d;
                        if (complete : bool) then
                          let content_metadata_file :=
                            "metadata/" +:+ replace_char "." "_" d +:+ "_content.json" in
                          content_str ← read_content content_metadata_file;
                          content_metadata ←
                            match nonempty content_str with
                            | Some c =>
                                match json_loads c with
                                | Some v => mret v
                                | None => raise (loads_exn (json_error c))
                                end
                            | None => mret (JDict [])
                            end;
                          summary ← pipeline_summary d metadata content_metadata;
                          list_scraper_pipelines_loop rest
                            (pipelines ++ [summary])%list ({[d]} ∪ domains_seen)
                        else list_scraper_pipelines_loop rest pipelines domains_seen
                  | JList _ | JDict _ => raise TypeError
                  | _ => raise AttributeError
                  end
                else list_scraper_pipelines_loop rest pipelines domains_seen
            end
        end
  end.

Definition list_scraper_pipelines : M (list json) :=
  metadata_files ← list_files "metadata/";
  list_scraper_pipelines_loop metadata_files [] ∅.

End WithLibrary.
End Repository.

(** ** The saving tool ([save_scraper_to_repository], shared/tools.py) *)

Module Tools.
Import Py Value Storage Saver.

(** [try: c except Exception as e: h e]. *)
Definition except_Exception {A} (c : M A) (h : exn → M A) : M A := λ w,
  match c w with
  | (Raise e, w') => h e w'
  | r => r
  end.

(** The dictionary the tool returns: the one with ['success': True] and
    the four other keys, or the one with ['success': False], whose message
    is [Failed to save scraper: ] followed by the text of the exception. *)
Inductive tool_result :=
  | Saved (message scraper_path metadata_path domain scraper_type : string)
  | Failed (e : exn).

Section WithLibrary.
Context `{PyLib}.

(** [created_at] and [last_validated] are the clock readings of the
    [save_scraper] call. *)
Definition save_scraper_to_repository (code url : string) (selectors : json)
    (site_name : option string) (scraper_type : string)
    (created_at last_validated : string) : M tool_result :=
  domain ← netloc url;
  logger INFO ("Tool invoked: save_scraper_to_repository(domain=" +:+ domain
               +:+ ", type=" +:+ scraper_type +:+ ")");;
  except_Exception
    (result ← save_scraper code url selectors site_name scraper_type
                created_at last_validated;
     mret (Saved ("Scraper saved successfully for domain: " +:+ Saver.domain result
                  +:+ " (type: " +:+ scraper_type +:+ ")")
                 (Saver.scraper_path result) (Saver.metadata_path result)
                 (Saver.domain result) scraper_type))
    (λ e, mret (Failed e)).

End WithLibrary.
End Tools.

(** ** A reference standard library

    An instance of [PyLib] that runs: [re.match] on the fragment of the
    pattern language made of literal characters, escaped characters, [.]
    and the postfix operators [?], [*] and [+]; [urlparse] by the main path
    of CPython's [urlsplit]; JSON text over the values of [json] other than
    [float] (a number with a fraction or an exponent, [NaN] and [Infinity]
    are refused), with no limit on the nesting. *)

Module Ref.
Import Py Value.

(** *** Regular expressions *)

Inductive re_atom :=
  | Lit (c : ascii)
  | AnyChar.          (* [.]: any character but a newline *)

Inductive re_quant := One | Opt | Star | Plus.

Inductive re_tok :=
  | TAtom (a : re_atom)
  | TQuant (q : re_quant).

(** A backslash followed by a letter or a digit is a class or a group
    reference, and [^ $ | ( ) [ {] have a meaning of their own: patterns
    with these are outside the fragment ([None]), as are the patterns that
    [re] rejects. *)
Definition re_reserved (c : ascii) : bool :=
  existsb (Ascii.eqb c) (list_ascii_of_string "^$|()[{").

Fixpoint re_tokens (p : string) : option (list re_tok) :=
  match p with
  | EmptyString => Some []
  | String c p' =>
      if Ascii.eqb c "\" then
        match p' with
        | EmptyString => None
        | String e p'' =>
            if is_ascii_alnum e then None
            else cons (TAtom (Lit e)) <$> re_tokens p''
        end
      else if Ascii.eqb c "." then cons (TAtom AnyChar) <$> re_tokens p'
      else if Ascii.eqb c "?" then cons (TQuant Opt) <$> re_tokens p'
      else if Ascii.eqb c "*" then cons (TQuant Star) <$> re_tokens p'
      else if Ascii.eqb c "+" then cons (TQuant Plus) <$> re_tokens p'
      else if re_reserved c then None
      else cons (TAtom (Lit c)) <$> re_tokens p'
  end.

(** An atom with the operator that follows it; an operator with nothing to
    repeat, or after another operator, is outside the fragment. *)
Fixpoint re_items (ts : list re_tok) : option (list (re_atom * re_quant)) :=
  match ts with
  | [] => Some []
  | TQuant _ :: _ => None
  | TAtom a :: rest =>
      match rest with
      | TQuant q :: rest' => cons (a, q) <$> re_items rest'
      | _ => cons (a, One) <$> re_items rest
      end
  end.

Definition atom_matches (a : re_atom) (c : ascii) : bool :=
  match a with
  | Lit x => Ascii.eqb x c
  | AnyChar => negb (Ascii.eqb c "010")
  end.

(** Whether some prefix of [s] matches the items in sequence. *)
Fixpoint match_items (items : list (re_atom * re_quant)) (s : string) : bool :=
  match items with
  | [] => true
  | (a, q) :: rest =>
      let star :=
        fix star (s : string) : bool :=
          match_items rest s
          || match s with
             | String c s' => atom_matches a c && star s'
             | EmptyString => false
             end in
      match q with
      | One =>
          match s with
          | String c s' => atom_matches a c && match_items rest s'
          | EmptyString => false
          end
      | Opt =>
          match s with
          | String c s' => atom_matches a c && match_items rest s'
          | EmptyString => false
          end
          || match_items rest s
      | Star => star s
      | Plus =>
          match s with
          | String c s' => atom_matches a c && star s'
          | EmptyString => false
          end
      end
  end.

Definition re_match (pattern s : string) : option bool :=
  items ← re_tokens pattern ≫= re_items;
  Some (match_items items s).

(** The items of a literal text. *)
Definition literal (s : string) : list (re_atom * re_quant) :=
  map (λ c, (Lit c, One)) (list_ascii_of_string s).

(** What is left of [s] after the prefix [p]. *)
Fixpoint strip_prefix (p s : string) : option string :=
  match p with
  | EmptyString => Some s
  | String a p' =>
      match s with
      | String c s' => if Ascii.eqb a c then strip_prefix p' s' else None
      | EmptyString => None
      end
  end.

Definition any_path : list (re_atom * re_quant) :=
  [(Lit "/", One); (AnyChar, Star)].

Definition scheme_tokens : list re_tok :=
  [ TAtom (Lit "h"); TAtom (Lit "t"); TAtom (Lit "t"); TAtom (Lit "p");
    TAtom (Lit "s"); TQuant Opt; TAtom (Lit ":"); TAtom (Lit "/"); TAtom (Lit "/") ].

(** *** URLs *)

Definition is_ascii_alpha (c : ascii) : bool :=
  let n := nat_of_ascii c in
  ((65 <=? n) && (n <=? 90) || (97 <=? n) && (n <=? 122))%nat.

Definition scheme_char (c : ascii) : bool :=
  is_ascii_alnum c || existsb (Ascii.eqb c) (list_ascii_of_string "+-.").

(** [url.lstrip(...)] of the C0 control characters and the space. *)
Fixpoint lstrip_c0 (url : string) : string :=
  match url with
  | String c url' => if (nat_of_ascii c <=? 32)%nat then lstrip_c0 url' else url
  | EmptyString => EmptyString
  end.

(** Removal of TAB, LF and CR. *)
Fixpoint remove_unsafe (url : string) : string :=
  match url with
  | String c url' =>
      if existsb (Ascii.eqb c) ["009"; "010"; "013"]%char then remove_unsafe url'
      else String c (remove_unsafe url')
  | EmptyString => EmptyString
  end.

(** What follows [scheme:], when the text up to the first colon is made of
    scheme characters. *)
Fixpoint after_scheme (url : string) : option string :=
  match url with
  | String c url' =>
      if Ascii.eqb c ":" then Some url'
      else if scheme_char c then after_scheme url'
      else None
  | EmptyString => None
  end.

Definition strip_scheme (url : string) : string :=
  match url with
  | String c _ =>
      if is_ascii_alpha c then from_option id url (after_scheme url) else url
  | EmptyString => url
  end.

(** [_splitnetloc]: up to the first of [/], [?] and [#]. *)
Fixpoint take_netloc (s : string) : string :=
  match s with
  | String c s' =>
      if existsb (Ascii.eqb c) (list_ascii_of_string "/?#") then EmptyString
      else String c (take_netloc s')
  | EmptyString => EmptyString
  end.

(** [None] is the [ValueError] for an unmatched bracket; the validation of
    a bracketed host and the check of the normalised form of a host outside
    ASCII are not modelled. *)
Definition urlparse_netloc (url : string) : option string :=
  let rest := strip_scheme (remove_unsafe (lstrip_c0 url)) in
  match rest with
  | String "/" (String "/" after) =>
      let netloc := take_netloc after in
      if xorb (contains "[" netloc) (contains "]" netloc) then None
      else Some netloc
  | _ => Some EmptyString
  end.

(** *** JSON text *)

Definition hex_digit (n : nat) : ascii :=
  match String.get n "0123456789abcdef" with
  | Some c => c
  | None => "0"%char
  end.

Definition hex_value (c : ascii) : option nat :=
  let n := nat_of_ascii c in
  if ((48 <=? n) && (n <=? 57))%nat then Some (n - 48)
  else if ((97 <=? n) && (n <=? 102))%nat then Some (n - 87)
  else if ((65 <=? n) && (n <=? 70))%nat then Some (n - 55)
  else None.

(** The escape [json.dumps(..., ensure_ascii=False)] writes for a
    character, if any. *)
Definition escape_char (c : ascii) : string :=
  let n := nat_of_ascii c in
  if Ascii.eqb c "034" then "\" +:+ dquote
  else if Ascii.eqb c "\" then "\\"
  else if Ascii.eqb c "010" then "\n"
  else if Ascii.eqb c "013" then "\r"
  else if Ascii.eqb c "009" then "\t"
  else if Ascii.eqb c "008" then "\b"
  else if Ascii.eqb c "012" then "\f"
  else if (n <? 32)%nat then
    "\u00" +:+ String (hex_digit (n / 16)) (String (hex_digit (n mod 16)) "")
  else String c "".

Fixpoint escape_string (s : string) : string :=
  match s with
  | EmptyString => EmptyString
  | String c s' => escape_char c +:+ escape_string s'
  end.

Definition quote (s : string) : string := dquote +:+ escape_string s +:+ dquote.

Definition Z_to_string (n : Z) : string :=
  DecimalString.NilZero.string_of_int (Z.to_int n).

Fixpoint spaces (n : nat) : string :=
  match n with
  | O => EmptyString
  | S n' => String " " (spaces n')
  end.

Fixpoint join_with (sep : string) (parts : list string) : string :=
  match parts with
  | [] => EmptyString
  | [x] => x
  | x :: rest => x +:+ sep +:+ join_with sep rest
  end.

(** [json.dumps(v, indent=2, ensure_ascii=False)] at nesting depth
    [depth]. *)
Fixpoint dumps_at (depth : nat) (v : json) {struct v} : string :=
  let inner := nl +:+ spaces (2 * S depth) in
  let outer := nl +:+ spaces (2 * depth) in
  match v with
  | JNull => "null"
  | JBool true => "true"
  | JBool false => "false"
  | JInt n => Z_to_string n
  | JFloat repr =>
      if String.eqb repr "nan" then "NaN"
      else if String.eqb repr "inf" then "Infinity"
      else if String.eqb repr "-inf" then "-Infinity"
      else repr
  | JStr s => quote s
  | JList [] => "[]"
  | JList items =>
      "[" +:+ inner
      +:+ join_with ("," +:+ inner) (map (dumps_at (S depth)) items)
      +:+ outer +:+ "]"
  | JDict [] => "{}"
  | JDict entries =>
      "{" +:+ inner
      +:+ join_with ("," +:+ inner)
            (map (λ kv, quote (fst kv) +:+ ": " +:+ dumps_at (S depth) (snd kv))
                 entries)
      +:+ outer +:+ "}"
  end.

Definition json_dumps (v : json) : string := dumps_at 0 v.

Fixpoint skip_ws (s : string) : string :=
  match s with
  | String c s' =>
      if existsb (Ascii.eqb c) [" "; "009"; "010"; "013"]%char then skip_ws s'
      else s
  | EmptyString => EmptyString
  end.

(** The text of a string literal after its opening quote, and what follows
    the closing quote. A [\uXXXX] escape is read when the code point is
    below 256. *)
Fixpoint parse_string_body (s : string) : option (string * string) :=
  match s with
  | EmptyString => None
  | String c s' =>
      if Ascii.eqb c "034" then Some (EmptyString, s')
      else if (nat_of_ascii c <? 32)%nat then None
      else if Ascii.eqb c "\" then
        match s' with
        | EmptyString => None
        | String e s'' =>
            let simple (x : ascii) :=
              '(body, rest) ← parse_string_body s''; Some (String x body, rest) in
            if Ascii.eqb e "034" then simple "034"%char
            else if Ascii.eqb e "\" then simple "\"%char
            else if Ascii.eqb e "/" then simple "/"%char
            else if Ascii.eqb e "b" then simple "008"%char
            else if Ascii.eqb e "f" then simple "012"%char
            else if Ascii.eqb e "n" then simple "010"%char
            else if Ascii.eqb e "r" then simple "013"%char
            else if Ascii.eqb e "t" then simple "009"%char
            else if Ascii.eqb e "u" then
              match s'' with
              | String h1 (String h2 (String h3 (String h4 s4))) =>
                  match hex_value h1, hex_value h2, hex_value h3, hex_value h4 with
                  | Some 0, Some 0, Some a, Some b =>
                      '(body, rest) ← parse_string_body s4;
                      Some (String (ascii_of_nat (16 * a + b)) body, rest)
                  | _, _, _, _ => None
                  end
              | _ => None
              end
            else None
        end
      else '(body, rest) ← parse_string_body s'; Some (String c body, rest)
  end.

Definition is_digit (c : ascii) : bool :=
  let n := nat_of_ascii c in ((48 <=? n) && (n <=? 57))%nat.

(** The digits at the head of [s] as a number, with their count. *)
Fixpoint parse_digits (acc : Z) (count : nat) (s : string) : Z * nat * string :=
  match s with
  | String c s' =>
      if is_digit c
      then parse_digits (10 * acc + Z.of_nat (nat_of_ascii c - 48)) (S count) s'
      else (acc, count, s)
  | EmptyString => (acc, count, s)
  end.

(** What reading a text gives: a value, or the way [json.loads] fails. *)
Inductive parsed (A : Type) :=
  | Ok (a : A)
  | Err (failure : loads_failure).
Arguments Ok {A} a.
Arguments Err {A} failure.

Global Instance parsed_ret : MRet parsed := λ A a, Ok a.
Global Instance parsed_bind : MBind parsed := λ A B f m,
  match m with
  | Ok a => f a
  | Err failure => Err failure
  end.

Definition well_formed {A} (o : option A) : parsed A :=
  match o with
  | Some a => Ok a
  | None => Err Malformed
  end.

(** [sys.int_max_str_digits]. *)
Definition int_max_str_digits : nat := 4300.

(** An integer literal, which [int] converts when it has no more digits
    than the limit.  A literal with a fraction or an exponent is a [float];
    finding its [repr] is outside this reference, which refuses it. *)
Definition parse_int (s : string) : parsed (json * string) :=
  let '(negative, digits) :=
    match s with
    | String "-" s' => (true, s')
    | _ => (false, s)
    end in
  let '(n, count, rest) := parse_digits 0 0 digits in
  let leading_zero :=
    match digits with
    | String "0" _ => (1 <? count)%nat
    | _ => false
    end in
  let float_follows :=
    match rest with
    | String c _ => existsb (Ascii.eqb c) (list_ascii_of_string ".eE")
    | EmptyString => false
    end in
  if (count =? 0)%nat || leading_zero || float_follows then Err Malformed
  else if (int_max_str_digits <? count)%nat then Err DigitLimit
  else Ok (JInt (if negative then - n else n)%Z, rest).

Definition drop_prefix (p s : string) : option string :=
  if startswith s p then Some (String.substring (String.length p)
                                 (String.length s - String.length p) s)
  else None.

Fixpoint parse_value (fuel : nat) (s : string) : parsed (json * string) :=
  match fuel with
  | O => Err Malformed
  | S fuel =>
      match skip_ws s with
      | EmptyString => Err Malformed
      | String c r as s0 =>
          if Ascii.eqb c "{" then
            match skip_ws r with
            | String "}" r' => Ok (JDict [], r')
            | r0 => parse_members fuel r0 []
            end
          else if Ascii.eqb c "[" then
            match skip_ws r with
            | String "]" r' => Ok (JList [], r')
            | r0 => parse_elements fuel r0 []
            end
          else if Ascii.eqb c "034" then
            '(body, rest) ← well_formed (parse_string_body r); Ok (JStr body, rest)
          else if startswith s0 "null" then
            well_formed (pair JNull <$> drop_prefix "null" s0)
          else if startswith s0 "true" then
            well_formed (pair (JBool true) <$> drop_prefix "true" s0)
          else if startswith s0 "false" then
            well_formed (pair (JBool false) <$> drop_prefix "false" s0)
          else parse_int s0
      end
  end
with parse_members (fuel : nat) (s : string) (acc : list (string * json))
  : parsed (json * string) :=
  match fuel with
  | O => Err Malformed
  | S fuel =>
      match skip_ws s with
      | String "034" r =>
          '(key, r1) ← well_formed (parse_string_body r);
          match skip_ws r1 with
          | String ":" r2 =>
              '(v, r3) ← parse_value fuel r2;
              let acc := dict_set key v acc in
              match skip_ws r3 with
              | String "," r4 => parse_members fuel r4 acc
              | String "}" r4 => Ok (JDict acc, r4)
              | _ => Err Malformed
              end
          | _ => Err Malformed
          end
      | _ => Err Malformed
      end
  end
with parse_elements (fuel : nat) (s : string) (acc : list json)
  : parsed (json * string) :=
  match fuel with
  | O => Err Malformed
  | S fuel =>
      '(v, r1) ← parse_value fuel s;
      let acc := (acc ++ [v])%list in
      match skip_ws r1 with
      | String "," r2 => parse_elements fuel r2 acc
      | String "]" r2 => Ok (JList acc, r2)
      | _ => Err Malformed
      end
  end.

(** [json.loads(s)]: one value, then only white space.  The fuel is enough
    for every text; the recursion limit of the interpreter is not part of
    this reference, which never fails with [TooDeep]. *)
Definition loads (s : string) : parsed json :=
  '(v, rest) ← parse_value (2 * String.length s + 2) s;
  if String.eqb (skip_ws rest) "" then Ok v else Err Malformed.

Definition json_loads (s : string) : option json :=
  match loads s with
  | Ok v => Some v
  | Err _ => None
  end.

Definition json_error (s : string) : loads_failure :=
  match loads s with
  | Ok _ => Malformed
  | Err failure => failure
  end.

(** *** Rendering of values *)

Fixpoint py_repr (v : json) {struct v} : string :=
  match v with
  | JNull => "None"
  | JBool true => "True"
  | JBool false => "False"
  | JInt n => Z_to_string n
  | JFloat repr => repr
  | JStr s => "'" +:+ s +:+ "'"
  | JList items => "[" +:+ join_with ", " (map py_repr items) +:+ "]"
  | JDict entries =>
      "{" +:+ join_with ", "
                (map (λ kv, "'" +:+ fst kv +:+ "': " +:+ py_repr (snd kv)) entries)
      +:+ "}"
  end.

End Ref.

Definition py_ref : PyLib := {|
  json_loads := Ref.json_loads;
  json_error := Ref.json_error;
  json_dumps := Ref.json_dumps;
  re_match := Ref.re_match;
  urlparse_netloc := Ref.urlparse_netloc;
  py_repr := Ref.py_repr;
  set_to_list := elements
|}.

(** ** Observations on the world

    What a read returns and what the tiers hold, as plain functions of the
    world; the properties below are stated with them. *)

Module View.
Import Py Value Storage Repository.

(** The world after the local write of [save_content]. *)
Definition after_local_write (path content : string) (w : World) : World :=
  if raises w LocalWrite path
  then add_log (ERROR, "Failed to save locally to " +:+ path) w
  else write_file path content w.

Definition upload_into (path content : string) (b : Bucket) : Bucket :=
  mkBucket (bucket_name b) (<[path := content]> (blobs b)).

(** What the local tier answers to a read. *)
Definition read_local_value (w : World) (path : string) : option string :=
  if raises w LocalRead path then None else universal_newlines <$> local w !! path.

(** What the remote tier answers to a read: the blob, when there is a
    bucket, the blob exists and neither call raises. *)
Definition remote_hit (w : World) (path : string) : option string :=
  match bucket w with
  | Some b =>
      if raises w GcsExists path then None
      else match blobs b !! path with
           | Some c => if raises w GcsDownload path then None else Some c
           | None => None
           end
  | None => None
  end.

(** The content a read of [path] gives: the remote answer, else the local
    one. *)
Definition peek (w : World) (path : string) : option string :=
  match remote_hit w path with
  | Some c => Some c
  | None => read_local_value w path
  end.

(** The local file at [path] once [path] has been read. *)
Definition local_after_read (w : World) (path : string) : option string :=
  match remote_hit w path with
  | Some c => if raises w LocalWrite path then local w !! path else Some c
  | None => local w !! path
  end.

(** The modification time of the local file at [path] once [path] has been
    read. *)
Definition mtime_after_read (w : World) (path : string) : Z :=
  match remote_hit w path with
  | Some _ => if raises w LocalWrite path then mtime_of w path else clock w
  | None => mtime_of w path
  end.

(** What [exists] answers. *)
Definition visible (w : World) (path : string) : bool :=
  match bucket w with
  | Some b =>
      if raises w GcsExists path then bool_decide (is_Some (local w !! path))
      else bool_decide (is_Some (blobs b !! path))
  | None => bool_decide (is_Some (local w !! path))
  end.

(** [w'] is [w] after some reads and loads: the same bucket, failing
    calls, clock and interpreter, a longer log, local files that differ only
    where the cache now holds the remote answer (stamped with the clock),
    and cached bytecode that differs only where a file, as a read leaves it,
    had none under its stamp and has been compiled since. *)
Record refreshes (w w' : World) : Prop := {
  refreshes_bucket : bucket w' = bucket w;
  refreshes_raises : raises w' = raises w;
  refreshes_root : repo_root w' = repo_root w;
  refreshes_log : log w `prefix_of` log w';
  refreshes_local : ∀ p,
    local w' !! p = local w !! p
    ∨ (raises w LocalWrite p = false
       ∧ ∃ c, remote_hit w p = Some c ∧ local w' !! p = Some c);
  refreshes_clock : clock w' = clock w;
  refreshes_compile : compile_error w' = compile_error w;
  refreshes_exec : exec_error w' = exec_error w;
  refreshes_mtimes : ∀ p,
    mtimes w' !! p = mtimes w !! p
    ∨ (raises w LocalWrite p = false
       ∧ is_Some (remote_hit w p) ∧ mtimes w' !! p = Some (clock w));
  refreshes_pycache : ∀ p,
    pycache w' !! p = pycache w !! p
    ∨ ∃ src,
        local_after_read w p = Some src
        ∧ raises w LocalRead p = false
        ∧ compile_error w src = None
        ∧ cached_code w p (pyc_stamp (mtime_after_read w p) src) = None
        ∧ pycache w' !! p = Some (pyc_stamp (mtime_after_read w p) src, src)
}.

(** The world holds [code] for [path] in every tier it has. *)
Definition holds (w : World) (path code : string) : Prop :=
  local w !! path = Some code
  ∧ ∀ b, bucket w = Some b → blobs b !! path = Some code.

Definition scraper_rel (domain : string) : string :=
  "scrapers/" +:+ replace_char "." "_" domain +:+ ".py".
Definition list_rel (domain : string) : string :=
  "scrapers/" +:+ replace_char "." "_" domain +:+ "_list.py".
Definition content_rel (domain : string) : string :=
  "scrapers/" +:+ replace_char "." "_" domain +:+ "_content.py".

(** What running, as the module [name], the code compiled from [text]
    gives. *)
Definition run_outcome (w : World) (name text : string) : outcome module :=
  match exec_error w name text with
  | Some e => Raise e
  | None => Ret (mkModule name text)
  end.

(** What [load_module] returns for a local file at [path] that holds [src]
    and was last written at [mtime]. *)
Definition load_outcome (w : World) (name path : string) (src : option string)
    (mtime : Z) : outcome module :=
  match src with
  | Some s =>
      match cached_code w path (pyc_stamp mtime s) with
      | Some text => run_outcome w name text
      | None =>
          if raises w LocalRead path then Raise (OSError ("cannot read " +:+ path))
          else match compile_error w s with
               | Some e => Raise e
               | None => run_outcome w name s
               end
      end
  | None => Raise (FileNotFoundError ("[Errno 2] No such file or directory: " +:+ path))
  end.

(** The world once the file at [path] has been loaded: bytecode is cached
    for a file that was read and compiled. *)
Definition after_load (w : World) (path : string) : World :=
  match local w !! path with
  | Some src =>
      let stamp := pyc_stamp (mtime_of w path) src in
      match cached_code w path stamp, compile_error w src with
      | None, None =>
          if raises w LocalRead path || raises w CacheWrite path then w
          else set_pycache (<[path := (stamp, src)]> (pycache w)) w
      | _, _ => w
      end
  | None => w
  end.

(** The local file at [path] is as a read of [path] leaves it. *)
Definition settled (w : World) (path : string) : Prop :=
  local_after_read w path = local w !! path
  ∧ mtime_after_read w path = mtime_of w path.

(** What loading [path] gives once [path] has been read. *)
Definition loading (w : World) (name path : string) : outcome module :=
  load_outcome w name path (local_after_read w path) (mtime_after_read w path).

(** The pair [get_scraper_pipeline] returns once both halves have been
    read: both modules, or the exception of the first load that fails. *)
Definition load_pair (w : World) (d : string) : outcome (module * module) :=
  match loading w ("scraper_" +:+ d +:+ "_list") (list_rel d) with
  | Ret ml =>
      match loading w ("scraper_" +:+ d +:+ "_content") (content_rel d) with
      | Ret mc => Ret (ml, mc)
      | Raise e => Raise e
      end
  | Raise e => Raise e
  end.

(** Loading [path] as the module [name] returns whenever [path] can be
    read. *)
Definition loads_when_read (w : World) (name path : string) : Prop :=
  is_Some (peek w path) → ∃ module, loading w name path = Ret module.

(** The file at [path] holding [code], written at [mtime], loads as the
    module [name] with [code] as its source: no bytecode is cached under its
    stamp, it compiles and it runs. *)
Definition loads_as_written (w : World) (name path code : string) (mtime : Z)
  : Prop :=
  cached_code w path (pyc_stamp mtime code) = None
  ∧ compile_error w code = None
  ∧ exec_error w name code = None.

(** Whether a computation returned a value. *)
Definition returns {A} (r : outcome A * World) : bool :=
  match fst r with Ret _ => true | Raise _ => false end.

(** The paths [list_files] enumerates. *)
Definition listed (w : World) (prefix : string) : gset string :=
  match bucket w with
  | Some b => if raises w GcsList prefix then ∅ else with_prefix prefix (blobs b)
  | None => ∅
  end ∪ with_prefix prefix (local w).

Definition metadata_rel (domain : string) : string :=
  "metadata/" +:+ replace_char "." "_" domain +:+ ".json".

(** The metadata after [metadata['last_validated'] = now]. *)
Definition touched (now : string) (entries : list (string * json)) : json :=
  JDict (dict_set "last_validated" (JStr now) entries).

(** The path of the metadata [save_scraper] writes. *)
Definition metadata_path_of (domain scraper_type : string) : string :=
  "metadata/" +:+ Saver.filename_base domain scraper_type +:+ ".json".

(** No backend call on [path] raises and, with a bucket configured, the
    local cache holds [path] only if the bucket does. *)
Definition in_sync (w : World) (path : string) : Prop :=
  (∀ op, raises w op path = false)
  ∧ match bucket w with
    | Some b => is_Some (local w !! path) → is_Some (blobs b !! path)
    | None => True
    end.

(** No call that a write followed by a read of [path] depends on raises. *)
Definition reliable (w : World) (path : string) : Prop :=
  raises w LocalWrite path = false
  ∧ raises w GcsUpload path = false
  ∧ raises w LocalRead path = false.

(** The world holds [code] for [path] in every tier it has, in a local file
    stamped with the clock. *)
Definition stamped (w : World) (path code : string) : Prop :=
  holds w path code ∧ mtime_of w path = clock w.

(** [w'] has the failing calls, the clock, the cached bytecode and the
    interpreter of [w]: what a save leaves as it was. *)
Record same_loader (w w' : World) : Prop := {
  same_raises : raises w' = raises w;
  same_clock : clock w' = clock w;
  same_pycache : pycache w' = pycache w;
  same_compile : compile_error w' = compile_error w;
  same_exec : exec_error w' = exec_error w
}.

(** The blob the bucket holds at [path]. *)
Definition remote_at (w : World) (path : string) : option string :=
  bucket w ≫= λ b, blobs b !! path.

(** The world while the bucket cannot be reached: every call to it raises. *)
Definition outage (w : World) : World :=
  mkWorld (bucket w) (local w)
    (λ op path, match op with
                | GcsUpload | GcsExists | GcsDownload | GcsList => true
                | _ => raises w op path
                end)
    (log w) (repo_root w) (clock w) (mtimes w) (pycache w)
    (compile_error w) (exec_error w).

(** The domain a pipeline summary is for. *)
Definition summary_domain (summary : json) : option string :=
  match summary with
  | JDict entries =>
      match dict_get "domain" entries with
      | Some (JStr d) => Some d
      | _ => None
      end
  | _ => None
  end.

(** What the loop of [list_scraper_pipelines] keeps true of [pipelines] and
    [domains_seen]: the summaries are for pairwise distinct domains, each
    of them in [domains_seen] and with both halves answered for in [w0]. *)
Definition pipelines_inv (w0 : World) (pipelines : list json)
    (domains_seen : gset string) : Prop :=
  NoDup (omap summary_domain pipelines)
  ∧ Forall (λ summary,
      ∃ d, summary_domain summary = Some d ∧ d ∈ domains_seen
           ∧ fst (has_scraper_pipeline d w0) = Ret true) pipelines.

(** What one entry of the listing contributes to the scan for [url]:
    nothing ([Skipped]: not a [.json] name, no content, content that is not
    well-formed, an empty or missing pattern, a pattern that does not
    match), a match for the stored domain ([Matched]), an exception raised
    on content that parses ([Faulty]), or an exception of [json.loads] that
    is not a [JSONDecodeError] ([Uncaught]). *)
Inductive entry_class :=
  | Skipped
  | Matched (domain : string)
  | Faulty
  | Uncaught (failure : loads_failure).

Section WithLibrary.
Context `{PyLib}.

Definition classify_metadata (url : string) (metadata : json) : entry_class :=
  match metadata with
  | JDict entries =>
      match from_option id (JStr "") (dict_get "url_pattern" entries) with
      | JStr pattern =>
          if String.eqb pattern "" then Skipped
          else match re_match pattern url with
               | Some true =>
                   match dict_get "domain" entries with
                   | Some (JStr d) => Matched d
                   | _ => Faulty
                   end
               | Some false => Skipped
               | None => Faulty
               end
      | other => if truthy other then Faulty else Skipped
      end
  | _ => Faulty
  end.

Definition classify_entry (url : string) (w : World) (path : string) : entry_class :=
  if endswith path ".json" then
    match nonempty (peek w path) with
    | Some content =>
        match json_loads content with
        | Some metadata => classify_metadata url metadata
        | None =>
            match json_error content with
            | Malformed => Skipped
            | failure => Uncaught failure
            end
        end
    | None => Skipped
    end
  else Skipped.

(** An entry whose content is not well-formed JSON: [json.loads] raises
    [JSONDecodeError] on it. *)
Definition corrupt (w : World) (path : string) : bool :=
  endswith path ".json"
  && match nonempty (peek w path) with
     | Some content =>
         match json_loads content, json_error content with
         | None, Malformed => true
         | _, _ => false
         end
     | None => false
     end.

(** An entry on which [json.loads] raises an exception that
    [except json.JSONDecodeError] does not catch. *)
Definition uncaught (w : World) (path : string) : option loads_failure :=
  if endswith path ".json" then
    match nonempty (peek w path) with
    | Some content =>
        match json_loads content, json_error content with
        | None, Malformed => None
        | None, failure => Some failure
        | Some _, _ => None
        end
    | None => None
    end
  else None.

(** The metadata an entry contributes to a listing. *)
Definition entry_metadata (w : World) (path : string) : option json :=
  if endswith path ".json" then nonempty (peek w path) ≫= json_loads else None.

End WithLibrary.

End View.

(** ** Sample inputs *)

Module Samples.
Import Py Sandbox.

Definition sample_scraper : string :=
  join_nl [ "import json"; "def scrape(url):"; "    return {'title': None}" ].

Definition sample_block : string :=
  join_nl [ "if __name__ == '__main__':"; "    print(scrape('x'))"; "" ].

Definition timing_out (_ : string) : run_result :=
  TimeoutExpired "partial output" "partial trace".

(** No backend call raises. *)
Definition healthy (_ : io_op) (_ : string) : bool := false.

(** Only the uploads to the bucket raise. *)
Definition upload_fails (op : io_op) (_ : string) : bool :=
  match op with GcsUpload => true | _ => false end.

Definition root : string := "/srv/scraper_repository".

Definition list_scraper : string :=
  join_nl [ "def scrape(url):"; "    return []" ].

Definition content_scraper : string :=
  join_nl [ "def scrape(url):"; "    return {'title': None}" ].

(** Two versions of a scraper, of the same size. *)
Definition scraper_v1 : string :=
  join_nl [ "def scrape(url):"; "    return {'version': 1}" ].

Definition scraper_v2 : string :=
  join_nl [ "def scrape(url):"; "    return {'version': 2}" ].

Definition sample_scrapers : list string :=
  [ sample_scraper; list_scraper; content_scraper; scraper_v1; scraper_v2 ].

(** A name in capital letters, as [CODE]: a text that compiles and, no such
    name being defined, raises [NameError] when run. *)
Definition is_upper_name (s : string) : bool :=
  negb (String.eqb s "")
  && forallb (λ c, (65 <=? nat_of_ascii c)%nat && (nat_of_ascii c <=? 90)%nat)
       (list_ascii_of_string s).

(** The interpreter on the texts used below: the sample scrapers compile
    and run under any name, and a name in capital letters compiles and
    raises [NameError]; it takes any other text for a syntax error. *)
Definition sample_compile_error (src : string) : option exn :=
  if bool_decide (src ∈ sample_scrapers) || is_upper_name src then None
  else Some (OtherError "SyntaxError").

Definition sample_exec_error (_ text : string) : option exn :=
  if bool_decide (text ∈ sample_scrapers) then None
  else Some (OtherError "NameError").

(** 2026-01-01T00:00:00Z. *)
Definition new_year : Z := 1767225600.

(** A store at [new_year] with nothing loaded yet. *)
Definition store (bk : option Bucket) (files : gmap string string)
    (failing : io_op → string → bool) : World :=
  mkWorld bk files failing [] root new_year ∅ ∅
          sample_compile_error sample_exec_error.

Definition local_only (files : gmap string string) : World :=
  store None files healthy.

Definition with_bucket (remote files : gmap string string) : World :=
  store (Some (mkBucket "scrapers-bucket" remote)) files healthy.

Definition unreachable_bucket : World :=
  store (Some (mkBucket "scrapers-bucket" ∅)) ∅ upload_fails.

Definition cached_pipeline : World :=
  with_bucket ∅
    {[ "scrapers/example_org_list.py" := list_scraper;
       "scrapers/example_org_content.py" := content_scraper ]}.

(** Both halves of a pipeline saved while the uploads to the bucket raise. *)
Definition saved_while_unreachable : World :=
  snd (@Saver.save_scraper py_ref content_scraper "https://example.org/news/1"
         (JDict []) None "content" "t3" "t4"
         (snd (@Saver.save_scraper py_ref list_scraper "https://example.org/news"
                 (JDict []) None "list" "t1" "t2" unreachable_bucket))).


(** Both halves of a pipeline are stored, and neither runs. *)
Definition unloadable_pipeline : World :=
  local_only
    {[ "scrapers/example_org_list.py" := "LIST";
       "scrapers/example_org_content.py" := "CONTENT" ]}.

Definition corrupt_store : World :=
  local_only {[ "metadata/example_org.json" := "{ not json" ]}.

Definition corrupt_content_metadata : World :=
  local_only
    {[ "scrapers/example_org_list.py" := "LIST";
       "scrapers/example_org_content.py" := "CONTENT";
       "metadata/example_org_list.json" :=
         Ref.json_dumps (Saver.metadata_of "example.org" "https://example.org/news" (JDict [])
                       None "list" "2026-01-01T00:00:00" "2026-01-01T00:00:00");
       "metadata/example_org_content.json" := "{ not json" ]}.

Definition fallback_store : World :=
  local_only
    {[ "scrapers/example_org.py" := sample_scraper;
       "metadata/example_org.json" :=
         Ref.json_dumps
           (JDict [ ("domain", JStr "example.org");
                    ("url_pattern", JStr "https?://.*example\.org/.*") ]);
       "metadata/other_net.json" :=
         Ref.json_dumps
           (Saver.metadata_of "other.net" "https://other.net/a" (JDict []) None
              "single" "2026-01-01T00:00:00" "2026-01-01T00:00:00");
       "metadata/broken.json" := "{ not json" ]}.

(** The bucket holds an older version and the uploads raise. *)
Definition stale_bucket : World :=
  store (Some (mkBucket "scrapers-bucket" {[ "scrapers/example_org.py" := "OLD" ]}))
        ∅ upload_fails.

(** The code is in the bucket only. *)
Definition remote_only : World :=
  with_bucket {[ "scrapers/example_org.py" := "CODE" ]} ∅.

(** A scraper that loads, in the bucket only. *)
Definition remote_scraper : World :=
  with_bucket {[ "scrapers/example_org.py" := sample_scraper ]} ∅.

(** [fallback_store] with a metadata file that holds a list. *)
Definition faulty_store : World :=
  local_only
    {[ "scrapers/example_org.py" := "CODE";
       "metadata/example_org.json" :=
         Ref.json_dumps
           (JDict [ ("domain", JStr "example.org");
                    ("url_pattern", JStr "https?://.*example\.org/.*") ]);
       "metadata/other_net.json" := "[]";
       "metadata/broken.json" := "{ not json" ]}.

(** Both halves of a pipeline and their metadata. *)
Definition pipeline_store : World :=
  local_only
    {[ "scrapers/example_org_list.py" := list_scraper;
       "scrapers/example_org_content.py" := content_scraper;
       "metadata/example_org_list.json" :=
         Ref.json_dumps (Saver.metadata_of "example.org" "https://example.org/news" (JDict [])
                       None "list" "2026-01-01T00:00:00" "2026-01-01T00:00:00");
       "metadata/example_org_content.json" :=
         Ref.json_dumps (Saver.metadata_of "example.org" "https://example.org/news/1"
                       (JDict [("title", JStr "h1")])
                       None "content" "2026-01-01T00:00:00" "2026-01-01T00:00:00") ]}.

Definition validated_store : World :=
  local_only
    {[ "metadata/example_org.json" :=
         Ref.json_dumps
           (Saver.metadata_of "example.org" "https://example.org/a"
              (JDict [("title", JStr "h1")]) None "single"
              "2026-01-01T00:00:00" "2026-01-01T00:00:00") ]}.


(** An integer of 4301 digits: well-formed JSON that [json.loads] refuses
    with [ValueError]. *)
Definition long_integer : string :=
  string_of_list_ascii (replicate 4301 "1"%char).

Definition oversized_store : World :=
  local_only {[ "metadata/example_org.json" := long_integer ]}.

(** The metadata stored for [url], a url of host [example.org], holds a
    pattern that does not match [url]. *)
Definition pattern_misses (url : string) : Prop :=
  let w' := snd (@Saver.save_scraper py_ref "CODE" url (JDict []) None "single"
                   "t1" "t2" (local_only ∅)) in
  @urlparse_netloc py_ref url = Some "example.org"
  ∧ (∃ entries pattern,
       (local w' !! "metadata/example_org.json") ≫= @json_loads py_ref
         = Some (JDict entries)
       ∧ Value.dict_get "domain" entries = Some (JStr "example.org")
       ∧ Value.dict_get "example_url" entries = Some (JStr url)
       ∧ Value.dict_get "url_pattern" entries = Some (JStr pattern)
       ∧ @re_match py_ref pattern url = Some false).

End Samples.

(** * Properties *)

(** ** Facts about the string functions *)

Module PyFacts.
Import Py.

Lemma split_nl_nonempty s : split_nl s ≠ [].
Proof.
  induction s as [|c s IH]; simpl; [done|].
  destruct (Ascii.eqb c "010"); [done|].
  by destruct (split_nl s).
Qed.

(** Splitting a text made of two parts joined by a newline gives the lines
    of the first part, then the lines of the second. *)
Lemma split_nl_join a b :
  split_nl (a +:+ nl +:+ b) = (split_nl a ++ split_nl b)%list.
Proof.
  induction a as [|c a IH]; simpl; [done|].
  destruct (Ascii.eqb c "010"); simpl.
  - by rewrite <- IH.
  - change (a +:+ String "010" b) with (a +:+ nl +:+ b). rewrite IH.
    pose proof (split_nl_nonempty a) as Hne.
    by destruct (split_nl a).
Qed.

Lemma startswith_app p s : startswith (p +:+ s) p = true.
Proof.
  induction p as [|c p IH]; simpl; [done|].
  by rewrite Ascii.eqb_refl.
Qed.

Lemma contains_app_r needle a b :
  contains needle b = true → contains needle (a +:+ b) = true.
Proof.
  intros Hb. induction a as [|c a IH]; simpl; [done|].
  rewrite IH. apply orb_true_r.
Qed.

Lemma contains_app_l needle b : contains needle (needle +:+ b) = true.
Proof.
  destruct needle; simpl.
  - by destruct b.
  - by rewrite Ascii.eqb_refl, startswith_app.
Qed.

Lemma startswith_refl s : startswith s s = true.
Proof. induction s; simpl; [done|]. by rewrite Ascii.eqb_refl. Qed.

Lemma contains_refl s : contains s s = true.
Proof. destruct s; simpl; [done|]. by rewrite Ascii.eqb_refl, startswith_refl. Qed.

End PyFacts.

(** ** The sandbox *)

Module SandboxFacts.
Import Py PyFacts Sandbox Samples.

Lemma clean_step_guard st g :
  contains guard_marker g = true → clean_step st g = (true, snd st).
Proof. intros Hg. destruct st as [skip acc]. unfold clean_step. by rewrite Hg. Qed.

Lemma clean_step_block acc b :
  block_line b = true → clean_step (true, acc) b = (true, acc).
Proof.
  unfold block_line, clean_step. intros Hb.
  destruct (contains guard_marker b); [done|].
  destruct (is_blank b); [done|]. simpl in Hb.
  by destruct (starts_unindented b).
Qed.

Lemma clean_block acc block :
  Forall (λ b, block_line b = true) block →
  fold_left clean_step block (true, acc) = (true, acc).
Proof.
  induction 1 as [|b block Hb _ IH]; [done|].
  cbn [fold_left]. by rewrite clean_step_block.
Qed.

Lemma clean_lines_trailing_block lines g block :
  contains guard_marker g = true →
  Forall (λ b, block_line b = true) block →
  snd (clean_lines (lines ++ g :: block)) = snd (clean_lines lines).
Proof.
  intros Hg Hblock. unfold clean_lines.
  rewrite fold_left_app. cbn [fold_left].
  rewrite (clean_step_guard _ _ Hg), clean_block; done.
Qed.

(** C8, amended. Code to which a self-invocation block has been appended on
    a new line (a line break, then a line that contains the guard, followed
    only by blank or indented lines) is wrapped into exactly the text the
    code without the block is wrapped into, so the sandbox returns the same
    verdict for both, whatever the interpreter does. *)
Theorem trailing_guard_block_stripped
    (run : string → run_result) (code tail g test_url : string)
    (block : list string) :
  split_nl tail = g :: block →
  contains guard_marker g = true →
  Forall (λ b, block_line b = true) block →
  wrapped_code (code +:+ nl +:+ tail) test_url = wrapped_code code test_url
  ∧ execute_code run (code +:+ nl +:+ tail) test_url
    = execute_code run code test_url.
Proof.
  intros Htail Hg Hblock.
  assert (clean_code (code +:+ nl +:+ tail) = clean_code code) as Hclean.
  { unfold clean_code. rewrite split_nl_join, Htail.
    by rewrite clean_lines_trailing_block. }
  unfold execute_code, wrapped_code. by rewrite Hclean.
Qed.

Lemma trailing_guard_block_stripped_witness :
  wrapped_code (sample_scraper +:+ nl +:+ sample_block) "https://example.org/b"
  = wrapped_code sample_scraper "https://example.org/b"
  ∧ execute_code (λ _, Completed 0 "{}" "")
      (sample_scraper +:+ nl +:+ sample_block) "https://example.org/b"
    = execute_code (λ _, Completed 0 "{}" "") sample_scraper "https://example.org/b".
Proof.
  apply (trailing_guard_block_stripped _ sample_scraper sample_block
           "if __name__ == '__main__':" "https://example.org/b"
           [ "    print(scrape('x'))"; "" ]).
  - reflexivity.
  - reflexivity.
  - repeat constructor.
Defined.

(** C8, as stated, fails: when the code ends with a line break and the
    block is appended to it directly, the cleaning drops the empty last line
    of the code together with the block, and the two texts are wrapped
    differently. *)
Lemma guard_block_after_final_newline :
  split_nl sample_block
  = [ "if __name__ == '__main__':"; "    print(scrape('x'))"; "" ]
  ∧ clean_code (sample_scraper +:+ nl) = sample_scraper +:+ nl
  ∧ clean_code ((sample_scraper +:+ nl) +:+ sample_block) = sample_scraper
  ∧ wrapped_code ((sample_scraper +:+ nl) +:+ sample_block) "https://example.org/b"
    ≠ wrapped_code (sample_scraper +:+ nl) "https://example.org/b".
Proof. repeat split; vm_compute; (reflexivity || discriminate). Qed.

(** C3, as stated, fails: when the process is killed at the deadline the
    verdict holds neither the partial standard output nor the partial
    standard error. *)
Lemma timeout_drops_partial_output :
  let v := execute_code timing_out sample_scraper "https://example.org/b" in
  v = Verdict false "" "Code execution timed out (30s limit)" None
  ∧ carries v "partial output" = false
  ∧ carries v "partial trace" = false.
Proof. vm_compute. done. Qed.

(** C3, amended. What the verdict holds depends on the outcome.  When the
    process completes, [output] is its standard output; on failure (non-zero
    exit or the marker in the output) [error] is its standard error, or a
    fixed message when that is empty, and [debug_info] shows both streams;
    on success [error] is empty and [debug_info] shows the standard output
    only, so the standard error is dropped.  On timeout, and on any other
    exception, [output] is empty, [error] is the fixed timeout message (or
    the exception text) and there is no [debug_info]: the partial output is
    not in the verdict. *)
Theorem verdict_by_outcome
    (run : string → run_result) (code test_url : string) :
  let v := execute_code run code test_url in
  match run (wrapped_code code test_url) with
  | Completed rc out err =>
      success v = ((rc =? 0)%Z && negb (contains "EXECUTION_ERROR" out))
      ∧ output v = out
      ∧ error v =
          (if success v then ""
           else if String.eqb err "" then "Code execution failed" else err)
      ∧ debug_info v =
          Some (if success v then "STDOUT:" +:+ nl +:+ out
                else "STDOUT:" +:+ nl +:+ out +:+ nl +:+ nl +:+ "STDERR:" +:+ nl +:+ err)
  | TimeoutExpired _ _ =>
      v = Verdict false "" "Code execution timed out (30s limit)" None
  | OtherException msg =>
      v = Verdict false "" msg None
  end.
Proof.
  unfold execute_code. destruct (run _) as [rc out err| |]; [|done..].
  unfold classify.
  destruct (rc =? 0)%Z; [destruct (contains "EXECUTION_ERROR" out)|]; done.
Qed.

End SandboxFacts.

(** ** The storage tier *)

Ltac munfold :=
  unfold logger in *;
  unfold mbind, M_bind, mret, M_ret, gets, modify, raise,
         except_FileNotFoundError in *.

Module StorageFacts.
Import Py Value Storage Repository View Samples.

Lemma save_content_unfold path content w :
  save_content path content w =
    let w1 := after_local_write path content w in
    match bucket w with
    | None => (Ret (negb (raises w LocalWrite path)), w1)
    | Some b =>
        if raises w GcsUpload path
        then (Ret false, add_log (ERROR, "Failed to save to GCS " +:+ path) w1)
        else (Ret true,
              add_log (INFO, "Saved to GCS: gs://" +:+ bucket_name b +:+ "/" +:+ path)
                (set_blobs (<[path := content]> (blobs b)) w1))
    end.
Proof.
  unfold save_content, local_write, gcs_upload, after_local_write. munfold.
  destruct w as [bk l r lg root]; simpl.
  destruct (r LocalWrite path), bk as [b|]; simpl; try done;
    destruct (r GcsUpload path); done.
Qed.

Lemma save_content_returns path content w :
  ∃ ok, fst (save_content path content w) = Ret ok.
Proof.
  rewrite save_content_unfold. simpl.
  destruct (bucket w); [destruct (raises w GcsUpload path)|]; simpl; eauto.
Qed.

Lemma save_content_local path content w :
  local (snd (save_content path content w)) =
    if raises w LocalWrite path then local w else <[path := content]> (local w).
Proof.
  rewrite save_content_unfold. unfold after_local_write. simpl.
  destruct (bucket w), (raises w LocalWrite path), (raises w GcsUpload path); done.
Qed.

Lemma save_content_bucket path content w :
  bucket (snd (save_content path content w)) =
    if raises w GcsUpload path then bucket w
    else upload_into path content <$> bucket w.
Proof.
  rewrite save_content_unfold. unfold after_local_write. simpl.
  destruct (bucket w) eqn:Hb, (raises w LocalWrite path), (raises w GcsUpload path);
    simpl; rewrite ?Hb; done.
Qed.

Lemma save_content_raises path content w :
  raises (snd (save_content path content w)) = raises w.
Proof.
  rewrite save_content_unfold. unfold after_local_write. simpl.
  destruct (bucket w), (raises w LocalWrite path), (raises w GcsUpload path); done.
Qed.

Lemma save_content_root path content w :
  repo_root (snd (save_content path content w)) = repo_root w.
Proof.
  rewrite save_content_unfold. unfold after_local_write. simpl.
  destruct (bucket w), (raises w LocalWrite path), (raises w GcsUpload path); done.
Qed.

Lemma save_content_holds path content w :
  raises w LocalWrite path = false →
  raises w GcsUpload path = false →
  holds (snd (save_content path content w)) path content.
Proof.
  intros Hw Hu. split.
  - rewrite save_content_local, Hw. apply lookup_insert_eq.
  - intros b. rewrite save_content_bucket, Hu.
    destruct (bucket w); [|done]. intros [= <-]. apply lookup_insert_eq.
Qed.

Lemma save_content_holds_other path content w q code :
  path ≠ q → holds w q code → holds (snd (save_content path content w)) q code.
Proof.
  intros Hne [Hl Hb]. split.
  - rewrite save_content_local.
    destruct (raises w LocalWrite path); [done|]. by rewrite lookup_insert_ne.
  - intros b. rewrite save_content_bucket.
    destruct (raises w GcsUpload path); [apply Hb|].
    destruct (bucket w) as [b0|]; [|done]. intros [= <-]. simpl.
    rewrite lookup_insert_ne by done. by apply Hb.
Qed.

(** *** Reads *)

Lemma refreshes_refl w : refreshes w w.
Proof. split; auto. Qed.

Lemma remote_hit_refreshes w w' p : refreshes w w' → remote_hit w' p = remote_hit w p.
Proof.
  intros Hr. unfold remote_hit.
  by rewrite (refreshes_bucket _ _ Hr), (refreshes_raises _ _ Hr).
Qed.

Lemma local_after_read_refreshes w w' p :
  refreshes w w' → local_after_read w' p = local_after_read w p.
Proof.
  intros Hr. unfold local_after_read. rewrite (remote_hit_refreshes _ _ _ Hr).
  rewrite (refreshes_raises _ _ Hr).
  destruct (refreshes_local _ _ Hr p) as [->|(Hw & c & Hc & Hl)]; [done|].
  by rewrite Hc, Hw.
Qed.

Lemma mtime_after_read_refreshes w w' p :
  refreshes w w' → mtime_after_read w' p = mtime_after_read w p.
Proof.
  intros Hr. unfold mtime_after_read, mtime_of.
  rewrite (remote_hit_refreshes _ _ _ Hr), (refreshes_raises _ _ Hr),
    (refreshes_clock _ _ Hr).
  destruct (refreshes_mtimes _ _ Hr p) as [->|(Hw & [c Hc] & Hm)]; [done|].
  by rewrite Hc, Hw.
Qed.

Lemma cached_code_raises w path stamp :
  raises w CacheRead path = true → cached_code w path stamp = None.
Proof. intros Hc. unfold cached_code. by rewrite Hc. Qed.

(** A file compiled since loads as it did when the cache had nothing for
    it. *)
Lemma cached_code_refreshes w w' p src :
  refreshes w w' →
  local_after_read w p = Some src →
  cached_code w' p (pyc_stamp (mtime_after_read w p) src)
  = match cached_code w p (pyc_stamp (mtime_after_read w p) src) with
    | Some text => Some text
    | None =>
        if bool_decide (pycache w' !! p = pycache w !! p) then None
        else if raises w CacheRead p then None else Some src
    end.
Proof.
  intros Hr Hsrc. unfold cached_code at 1. rewrite (refreshes_raises _ _ Hr).
  destruct (refreshes_pycache _ _ Hr p)
    as [Hsame|(src' & Hsrc' & Hlr & Hce & Hcc & Hnew)].
  - rewrite Hsame. rewrite bool_decide_true by done.
    unfold cached_code. destruct (raises w CacheRead p); [done|].
    destruct (pycache w !! p) as [[st text]|]; [|done].
    by destruct (bool_decide (st = _)).
  - assert (src' = src) as -> by congruence. rewrite Hcc, Hnew.
    destruct (raises w CacheRead p) eqn:Hcr.
    { by destruct (bool_decide _). }
    rewrite bool_decide_true by done.
    destruct (bool_decide (Some _ = pycache w !! p)) eqn:Hd; [|done].
    apply bool_decide_eq_true in Hd. unfold cached_code in Hcc.
    rewrite Hcr, <- Hd in Hcc. by rewrite bool_decide_true in Hcc.
Qed.

Lemma refreshes_trans w1 w2 w3 : refreshes w1 w2 → refreshes w2 w3 → refreshes w1 w3.
Proof.
  intros H12 H23. split.
  - rewrite (refreshes_bucket _ _ H23). apply H12.
  - rewrite (refreshes_raises _ _ H23). apply H12.
  - rewrite (refreshes_root _ _ H23). apply H12.
  - etrans; [apply H12|apply H23].
  - intros p. destruct (refreshes_local _ _ H23 p) as [->|(Hw & c & Hhit & Hc)];
      [apply H12|].
    right. rewrite (refreshes_raises _ _ H12) in Hw.
    rewrite (remote_hit_refreshes _ _ _ H12) in Hhit. eauto.
  - rewrite (refreshes_clock _ _ H23). apply H12.
  - rewrite (refreshes_compile _ _ H23). apply H12.
  - rewrite (refreshes_exec _ _ H23). apply H12.
  - intros p. destruct (refreshes_mtimes _ _ H23 p) as [->|(Hw & Hhit & Hm)];
      [apply H12|].
    right. rewrite (refreshes_raises _ _ H12) in Hw.
    rewrite (remote_hit_refreshes _ _ _ H12) in Hhit.
    by rewrite (refreshes_clock _ _ H12) in Hm.
  - intros p. destruct (refreshes_pycache _ _ H23 p)
      as [->|(src & Hsrc & Hlr & Hce & Hcc & Hnew)]; [apply H12|].
    rewrite (local_after_read_refreshes _ _ _ H12) in Hsrc.
    rewrite (refreshes_raises _ _ H12) in Hlr.
    rewrite (refreshes_compile _ _ H12) in Hce.
    rewrite (mtime_after_read_refreshes _ _ _ H12) in Hcc, Hnew.
    rewrite (cached_code_refreshes _ _ _ _ H12 Hsrc) in Hcc.
    destruct (cached_code w1 p _) eqn:Hcc1; [done|].
    right. exists src. eauto 10.
Qed.

Lemma refreshes_add_log entry w : refreshes w (add_log entry w).
Proof. split; simpl; auto. by apply prefix_app_r. Qed.

Lemma peek_refreshes w w' p : refreshes w w' → peek w' p = peek w p.
Proof.
  intros Hr. unfold peek. rewrite (remote_hit_refreshes _ _ _ Hr).
  destruct (remote_hit w p) eqn:Hhit; [done|].
  unfold read_local_value. rewrite (refreshes_raises _ _ Hr).
  destruct (refreshes_local _ _ Hr p) as [->|(_ & c & Hc & _)]; [done|congruence].
Qed.

(** Loading a file that has been read gives the same in a world reached by
    reads and loads. *)
Lemma loading_refreshes w w' name p :
  refreshes w w' → loading w' name p = loading w name p.
Proof.
  intros Hr. unfold loading, load_outcome.
  rewrite (local_after_read_refreshes _ _ _ Hr), (mtime_after_read_refreshes _ _ _ Hr).
  destruct (local_after_read w p) as [src|] eqn:Hsrc; [|done].
  rewrite (cached_code_refreshes _ _ _ _ Hr Hsrc).
  unfold run_outcome.
  rewrite (refreshes_raises _ _ Hr), (refreshes_compile _ _ Hr), (refreshes_exec _ _ Hr).
  destruct (cached_code w p _) eqn:Hcc; [done|].
  destruct (bool_decide (pycache w' !! p = pycache w !! p)) eqn:Hd; [done|].
  apply bool_decide_eq_false in Hd.
  destruct (refreshes_pycache _ _ Hr p)
    as [Hsame|(src' & Hsrc' & Hlr & Hce & _ & _)]; [done|].
  assert (src' = src) as -> by congruence.
  rewrite Hlr, Hce. by destruct (raises w CacheRead p).
Qed.

Lemma read_local_unfold path w :
  read_local path w =
    match local w !! path with
    | Some c =>
        if raises w LocalRead path
        then (Ret None, add_log (ERROR, "Failed to read local file " +:+ path) w)
        else (Ret (Some (universal_newlines c)), w)
    | None => (Ret None, w)
    end.
Proof.
  unfold read_local. munfold. destruct (local w !! path); [|done].
  by destruct (raises w LocalRead path).
Qed.

Lemma read_content_unfold path w :
  read_content path w =
    match remote_hit w path with
    | Some c => (Ret (Some c),
                 if raises w LocalWrite path
                 then add_log (WARNING, "Failed to update local cache for " +:+ path) w
                 else write_file path c w)
    | None =>
        read_local path
          (match bucket w with
           | Some b =>
               if raises w GcsExists path
               then add_log (WARNING, "Failed to read from GCS " +:+ path) w
               else match blobs b !! path with
                    | Some _ => add_log (WARNING, "Failed to read from GCS " +:+ path) w
                    | None => w
                    end
           | None => w
           end)
    end.
Proof.
  unfold read_content, remote_hit, _save_local_cache, local_write. munfold.
  destruct (bucket w) as [b|]; [|done].
  destruct (raises w GcsExists path); [done|].
  destruct (blobs b !! path); [|done].
  destruct (raises w GcsDownload path); [done|].
  by destruct (raises w LocalWrite path).
Qed.

Lemma read_content_fst path w : fst (read_content path w) = Ret (peek w path).
Proof.
  rewrite read_content_unfold. unfold peek.
  destruct (remote_hit w path) eqn:Hhit; [done|].
  rewrite read_local_unfold. unfold read_local_value.
  assert (∀ w0, local w0 = local w → raises w0 = raises w →
    fst match local w0 !! path with
        | Some c => if raises w0 LocalRead path
                    then (Ret None, add_log (ERROR, "Failed to read local file " +:+ path) w0)
                    else (Ret (Some (universal_newlines c)), w0)
        | None => (Ret None, w0)
        end = Ret (if raises w LocalRead path then None
                   else universal_newlines <$> local w !! path)) as Haux.
  { intros w0 -> ->. destruct (local w !! path), (raises w LocalRead path); done. }
  destruct (bucket w) as [b|]; [|by apply Haux].
  destruct (raises w GcsExists path); [by apply Haux|].
  destruct (blobs b !! path); by apply Haux.
Qed.

Lemma read_local_refreshes path w : refreshes w (snd (read_local path w)).
Proof.
  rewrite read_local_unfold.
  destruct (local w !! path); [destruct (raises w LocalRead path)|]; simpl;
    auto using refreshes_refl, refreshes_add_log.
Qed.

Lemma read_content_refreshes path w : refreshes w (snd (read_content path w)).
Proof.
  rewrite read_content_unfold.
  destruct (remote_hit w path) as [c|] eqn:Hhit.
  - simpl. destruct (raises w LocalWrite path) eqn:Hw; [apply refreshes_add_log|].
    split; simpl; auto.
    + intros p. destruct (decide (path = p)) as [->|Hne].
      * right. rewrite lookup_insert_eq. eauto.
      * left. by rewrite lookup_insert_ne.
    + intros p. destruct (decide (path = p)) as [->|Hne].
      * right. rewrite lookup_insert_eq, Hhit. eauto.
      * left. by rewrite lookup_insert_ne.
  - destruct (bucket w) as [b|]; [|apply read_local_refreshes].
    destruct (raises w GcsExists path);
      [eapply refreshes_trans; [apply refreshes_add_log|apply read_local_refreshes]|].
    destruct (blobs b !! path);
      [eapply refreshes_trans; [apply refreshes_add_log|apply read_local_refreshes]|].
    apply read_local_refreshes.
Qed.

Lemma read_local_local path w : local (snd (read_local path w)) = local w.
Proof.
  rewrite read_local_unfold.
  destruct (local w !! path); [destruct (raises w LocalRead path)|]; done.
Qed.

Lemma read_local_mtimes path w : mtimes (snd (read_local path w)) = mtimes w.
Proof.
  rewrite read_local_unfold.
  destruct (local w !! path); [destruct (raises w LocalRead path)|]; done.
Qed.

Lemma read_content_local_at path w :
  local (snd (read_content path w)) !! path = local_after_read w path.
Proof.
  rewrite read_content_unfold. unfold local_after_read.
  destruct (remote_hit w path) as [c|] eqn:Hhit.
  - simpl. destruct (raises w LocalWrite path); simpl; [done|].
    by rewrite lookup_insert_eq.
  - rewrite read_local_local.
    destruct (bucket w) as [b|]; [|done].
    destruct (raises w GcsExists path); [done|].
    by destruct (blobs b !! path).
Qed.

Lemma read_content_mtime_at path w :
  mtime_of (snd (read_content path w)) path = mtime_after_read w path.
Proof.
  rewrite read_content_unfold. unfold mtime_after_read, mtime_of.
  destruct (remote_hit w path) as [c|] eqn:Hhit.
  - simpl. destruct (raises w LocalWrite path); simpl; [done|].
    by rewrite lookup_insert_eq.
  - rewrite read_local_mtimes.
    destruct (bucket w) as [b|]; [|done].
    destruct (raises w GcsExists path); [done|].
    by destruct (blobs b !! path).
Qed.

(** A read leaves the cached bytecode alone. *)
Lemma read_content_pycache path w :
  pycache (snd (read_content path w)) = pycache w.
Proof.
  rewrite read_content_unfold.
  assert (∀ w0, pycache (snd (read_local path w0)) = pycache w0) as Hlocal.
  { intros w0. rewrite read_local_unfold.
    destruct (local w0 !! path); [destruct (raises w0 LocalRead path)|]; done. }
  destruct (remote_hit w path).
  - simpl. by destruct (raises w LocalWrite path).
  - rewrite Hlocal. destruct (bucket w) as [b|]; [|done].
    destruct (raises w GcsExists path); [done|]. by destruct (blobs b !! path).
Qed.

(** A read that finds nothing writes nothing. *)
Lemma read_content_absent path w :
  peek w path = None →
  local (snd (read_content path w)) = local w.
Proof.
  intros Hpeek. rewrite read_content_unfold.
  unfold peek in Hpeek. destruct (remote_hit w path); [done|].
  rewrite read_local_local.
  destruct (bucket w) as [b|]; [|done].
  destruct (raises w GcsExists path); [done|].
  by destruct (blobs b !! path).
Qed.

Lemma exists_unfold path w : exists_ path w = (Ret (visible w path), w).
Proof.
  unfold exists_, local_exists, visible. munfold.
  destruct (bucket w); [|done]. by destruct (raises w GcsExists path).
Qed.

(** C2, as stated, fails: with a bucket configured, the local write going
    through and the upload raising, [save_content] returns [False]. *)
Lemma remote_failure_reports_failure :
  let r := save_content "scrapers/example_org.py" "CODE" unreachable_bucket in
  is_Some (bucket unreachable_bucket)
  ∧ raises unreachable_bucket LocalWrite "scrapers/example_org.py" = false
  ∧ raises unreachable_bucket GcsUpload "scrapers/example_org.py" = true
  ∧ local (snd r) !! "scrapers/example_org.py" = Some "CODE"
  ∧ fst r = Ret false.
Proof. vm_compute. repeat split; eauto. Qed.

(** C2, amended. [save_content] never raises. With a bucket configured its
    result is whether the upload went through, whatever the local write did:
    a failed upload is logged as an error and the call returns [False].
    Without a bucket its result is whether the local write went through.
    The local copy is written whenever the local write does not raise. *)
Theorem save_content_result path content w :
  fst (save_content path content w)
    = Ret (match bucket w with
           | Some _ => negb (raises w GcsUpload path)
           | None => negb (raises w LocalWrite path)
           end)
  ∧ local (snd (save_content path content w))
    = (if raises w LocalWrite path then local w else <[path := content]> (local w))
  ∧ log (snd (save_content path content w))
    = (log w
       ++ (if raises w LocalWrite path
           then [(ERROR, "Failed to save locally to " +:+ path)] else [])
       ++ match bucket w with
          | Some b =>
              if raises w GcsUpload path
              then [(ERROR, "Failed to save to GCS " +:+ path)]
              else [(INFO, "Saved to GCS: gs://" +:+ bucket_name b +:+ "/" +:+ path)]
          | None => []
          end)%list.
Proof.
  split; [|split; [apply save_content_local|]].
  - rewrite save_content_unfold. simpl.
    destruct (bucket w); [destruct (raises w GcsUpload path)|]; done.
  - rewrite save_content_unfold. unfold after_local_write. simpl.
    destruct (bucket w), (raises w LocalWrite path), (raises w GcsUpload path);
      simpl; rewrite <- ?app_assoc, ?app_nil_r; done.
Qed.

End StorageFacts.

(** ** The pattern language *)

Module RegexFacts.
Import Py Value Ref PyFacts.

Lemma re_special_covers c :
  re_special c = false →
  Ascii.eqb c "\" = false ∧ Ascii.eqb c "." = false ∧ Ascii.eqb c "?" = false
  ∧ Ascii.eqb c "*" = false ∧ Ascii.eqb c "+" = false ∧ re_reserved c = false.
Proof.
  destruct c as [[] [] [] [] [] [] [] []]; vm_compute; intros; try discriminate; done.
Qed.

Lemma re_special_not_alnum c : re_special c = true → is_ascii_alnum c = false.
Proof.
  destruct c as [[] [] [] [] [] [] [] []]; vm_compute; intros; try discriminate; done.
Qed.

(** An escaped text is read back as the sequence of its characters. *)
Lemma re_tokens_escape s rest :
  re_tokens (re_escape s +:+ rest)
  = (λ ts, map (λ c, TAtom (Lit c)) (list_ascii_of_string s) ++ ts)%list
      <$> re_tokens rest.
Proof.
  induction s as [|c s IH].
  - change (re_escape "" +:+ rest) with rest. by destruct (re_tokens rest).
  - cbn [re_escape list_ascii_of_string map].
    destruct (re_special c) eqn:Hc.
    + change (String "\" (String c (re_escape s)) +:+ rest)
        with (String "\" (String c (re_escape s +:+ rest))).
      cbn [re_tokens]. rewrite Ascii.eqb_refl, (re_special_not_alnum _ Hc), IH.
      by destruct (re_tokens rest).
    + change (String c (re_escape s) +:+ rest)
        with (String c (re_escape s +:+ rest)).
      cbn [re_tokens].
      destruct (re_special_covers c Hc) as (-> & -> & -> & -> & -> & ->).
      rewrite IH. by destruct (re_tokens rest).
Qed.

Lemma re_items_literal cs ts :
  match ts with TQuant _ :: _ => False | _ => True end →
  re_items (map (λ c, TAtom (Lit c)) cs ++ ts)
  = (λ items, map (λ c, (Lit c, One)) cs ++ items)%list <$> re_items ts.
Proof.
  intros Hts. induction cs as [|c cs IH].
  - simpl. by destruct (re_items ts).
  - cbn [map app re_items].
    destruct (map (λ c, TAtom (Lit c)) cs ++ ts)%list as [|[a|q] l] eqn:Hl.
    + rewrite IH. by destruct (re_items ts).
    + rewrite IH. by destruct (re_items ts).
    + destruct cs; simpl in Hl; [|done]. subst ts. done.
Qed.

Lemma match_items_literal s rest t :
  match_items (literal s ++ rest) t
  = match strip_prefix s t with
    | Some t' => match_items rest t'
    | None => false
    end.
Proof.
  revert t. induction s as [|c s IH]; intros t; [done|].
  cbn [literal list_ascii_of_string map app match_items strip_prefix atom_matches].
  destruct t as [|x t]; [done|].
  destruct (Ascii.eqb c x); simpl; [apply IH|done].
Qed.

Lemma startswith_strip_prefix p q s :
  startswith s (p +:+ q)
  = match strip_prefix p s with
    | Some s' => startswith s' q
    | None => false
    end.
Proof.
  revert s. induction p as [|a p IH]; intros s; [done|].
  change (String a p +:+ q) with (String a (p +:+ q)).
  destruct s as [|c s]; simpl; [done|].
  destruct (Ascii.eqb a c); simpl; [apply IH|done].
Qed.

Lemma literal_app a b : literal (a +:+ b) = (literal a ++ literal b)%list.
Proof.
  unfold literal. induction a as [|c a IH]; [done|].
  change (String c a +:+ b) with (String c (a +:+ b)).
  cbn [list_ascii_of_string map app]. by rewrite IH.
Qed.

Lemma match_any_path v : match_items any_path v = startswith v "/".
Proof.
  destruct v as [|c v]; [done|].
  cbn [any_path match_items atom_matches startswith].
  destruct (Ascii.eqb "/" c); [|done]. by destruct v.
Qed.

Lemma match_literal_then_path p v :
  match_items (literal p ++ any_path) v = startswith v (p +:+ "/").
Proof.
  rewrite match_items_literal, (startswith_strip_prefix p "/" v).
  destruct (strip_prefix p v); [apply match_any_path|done].
Qed.

Lemma re_tokens_scheme r :
  re_tokens ("https?://" +:+ r) = (λ ts, scheme_tokens ++ ts)%list <$> re_tokens r.
Proof.
  change ("https?://" +:+ r)
    with (String "h" (String "t" (String "t" (String "p" (String "s" (String "?"
           (String ":" (String "/" (String "/" r))))))))).
  simpl. by destruct (re_tokens r).
Qed.

Lemma re_items_scheme ts items :
  re_items ts = Some items →
  match ts with TQuant _ :: _ => False | _ => True end →
  re_items (scheme_tokens ++ ts)
  = Some ((literal "http" ++ [(Lit "s", Opt)] ++ literal "://") ++ items)%list.
Proof.
  intros Hitems Hts. simpl.
  destruct ts as [|[a|q] ts]; [..|done].
  - by rewrite Hitems.
  - by rewrite Hitems.
Qed.

(** The pattern [save_scraper] writes for [domain] matches exactly the
    texts that begin with [http://domain/] or [https://domain/]. *)
Lemma url_pattern_matches domain s :
  Ref.re_match (Saver.url_pattern domain) s
  = Some (startswith s ("http://" +:+ domain +:+ "/")
          || startswith s ("https://" +:+ domain +:+ "/")).
Proof.
  unfold Ref.re_match, Saver.url_pattern.
  rewrite re_tokens_scheme, re_tokens_escape.
  change (re_tokens "/.*") with (Some [TAtom (Lit "/"); TAtom AnyChar; TQuant Star]).
  cbn [fmap option_fmap option_map mbind option_bind].
  rewrite (re_items_scheme _ (literal domain ++ any_path)).
  2:{ rewrite re_items_literal by done. done. }
  2:{ by destruct (list_ascii_of_string domain). }
  cbn [mbind option_bind]. f_equal.
  change ("http://" +:+ domain +:+ "/") with ("http" +:+ "://" +:+ domain +:+ "/").
  change ("https://" +:+ domain +:+ "/") with ("http" +:+ "s://" +:+ domain +:+ "/").
  rewrite (startswith_strip_prefix "http" ("://" +:+ domain +:+ "/") s).
  rewrite (startswith_strip_prefix "http" ("s://" +:+ domain +:+ "/") s).
  rewrite <- !app_assoc, match_items_literal.
  destruct (strip_prefix "http" s) as [t|]; [|done].
  change ([(Lit "s", Opt)] ++ literal "://" ++ literal domain ++ any_path)%list
    with ((Lit "s", Opt) :: (literal "://" ++ literal domain ++ any_path))%list.
  rewrite app_assoc, <- literal_app.
  cbn [match_items]. rewrite match_literal_then_path.
  change ("s://" +:+ domain +:+ "/") with (String "s" (("://" +:+ domain) +:+ "/")).
  change ("://" +:+ domain +:+ "/") with (("://" +:+ domain) +:+ "/").
  rewrite orb_comm. f_equal.
  destruct t as [|c t]; [done|].
  cbn [startswith]. f_equal. apply match_literal_then_path.
Qed.
End RegexFacts.

(** ** The writer and the resolver *)

Module RepositoryFacts.
Import Py Value Storage Saver Repository View Samples StorageFacts.

Lemma load_module_unfold name path w :
  load_module name path w
  = (load_outcome w name path (local w !! path) (mtime_of w path), after_load w path).
Proof.
  unfold load_module, load_outcome, after_load, exec_code, cache_bytecode, run_outcome.
  munfold. destruct (local w !! path) as [src|]; [|done].
  destruct (cached_code w path _).
  { by destruct (exec_error w name s). }
  destruct (raises w LocalRead path); [by destruct (compile_error w src)|].
  destruct (compile_error w src); [done|]. simpl.
  destruct (raises w CacheWrite path); simpl; by destruct (exec_error w name src).
Qed.

Lemma after_load_refreshes w path : settled w path → refreshes w (after_load w path).
Proof.
  intros [Hlocal Hmtime]. unfold after_load.
  destruct (local w !! path) as [src|] eqn:Hsrc; [|apply refreshes_refl].
  destruct (cached_code w path _) eqn:Hcc; [apply refreshes_refl|].
  destruct (compile_error w src) eqn:Hce; [apply refreshes_refl|].
  destruct (raises w LocalRead path) eqn:Hlr; [apply refreshes_refl|].
  destruct (raises w CacheWrite path) eqn:Hcw; [apply refreshes_refl|].
  split; simpl; auto.
  intros p. destruct (decide (path = p)) as [<-|Hne].
  - right. exists src. rewrite Hlocal, Hmtime, lookup_insert_eq. eauto 10.
  - left. by rewrite lookup_insert_ne.
Qed.

Lemma after_load_local w path : local (after_load w path) = local w.
Proof.
  unfold after_load. destruct (local w !! path) as [src|]; [|done].
  destruct (cached_code w path _); [done|].
  destruct (compile_error w src); [done|].
  by destruct (raises w LocalRead path || raises w CacheWrite path).
Qed.

Lemma after_load_mtimes w path : mtimes (after_load w path) = mtimes w.
Proof.
  unfold after_load. destruct (local w !! path) as [src|]; [|done].
  destruct (cached_code w path _); [done|].
  destruct (compile_error w src); [done|].
  by destruct (raises w LocalRead path || raises w CacheWrite path).
Qed.

Lemma read_content_settled path w : settled (snd (read_content path w)) path.
Proof.
  pose proof (read_content_refreshes path w) as Hr. split.
  - by rewrite (local_after_read_refreshes _ _ _ Hr), read_content_local_at.
  - by rewrite (mtime_after_read_refreshes _ _ _ Hr), read_content_mtime_at.
Qed.

Lemma read_content_local_other p q w :
  p ≠ q → local (snd (read_content p w)) !! q = local w !! q.
Proof.
  intros Hne. rewrite read_content_unfold.
  destruct (remote_hit w p).
  - simpl. destruct (raises w LocalWrite p); simpl; [done|].
    by rewrite lookup_insert_ne.
  - rewrite read_local_local.
    destruct (bucket w) as [b|]; [|done].
    destruct (raises w GcsExists p); [done|]. by destruct (blobs b !! p).
Qed.

Lemma read_content_mtime_other p q w :
  p ≠ q → mtime_of (snd (read_content p w)) q = mtime_of w q.
Proof.
  intros Hne. rewrite read_content_unfold. unfold mtime_of.
  destruct (remote_hit w p).
  - simpl. destruct (raises w LocalWrite p); simpl; [done|].
    by rewrite lookup_insert_ne.
  - rewrite read_local_mtimes.
    destruct (bucket w) as [b|]; [|done].
    destruct (raises w GcsExists p); [done|]. by destruct (blobs b !! p).
Qed.

(** A file that is as a read left it stays so through reads of other
    paths and through loads. *)
Lemma settled_read_other p q w :
  p ≠ q → settled w q → settled (snd (read_content p w)) q.
Proof.
  intros Hne [Hl Hm]. pose proof (read_content_refreshes p w) as Hr. split.
  - by rewrite (local_after_read_refreshes _ _ _ Hr), read_content_local_other.
  - by rewrite (mtime_after_read_refreshes _ _ _ Hr), read_content_mtime_other.
Qed.

Lemma settled_after_load p q w :
  settled w p → settled w q → settled (after_load w p) q.
Proof.
  intros Hp [Hl Hm]. pose proof (after_load_refreshes w p Hp) as Hr. split.
  - by rewrite (local_after_read_refreshes _ _ _ Hr), after_load_local.
  - rewrite (mtime_after_read_refreshes _ _ _ Hr). unfold mtime_of.
    by rewrite after_load_mtimes.
Qed.

Lemma load_outcome_settled name path w :
  settled w path →
  load_outcome w name path (local w !! path) (mtime_of w path) = loading w name path.
Proof. intros [Hl Hm]. unfold loading. by rewrite Hl, Hm. Qed.

Lemma load_module_fst name path w :
  settled w path → fst (load_module name path w) = loading w name path.
Proof. intros Hs. rewrite load_module_unfold. by apply load_outcome_settled. Qed.

Lemma ensure_unfold path w :
  _ensure_file_available path w =
    (match peek w path with
     | Some _ => Ret path
     | None => Raise (FileNotFoundError ("File not found in storage: " +:+ path))
     end, snd (read_content path w)).
Proof.
  unfold _ensure_file_available. munfold.
  pose proof (read_content_fst path w) as Hfst.
  destruct (read_content path w) as [o w1]. simpl in *. subst o.
  by destruct (peek w path).
Qed.

(** [get_scraper], step by step: the read, then the load and the log
    record. *)
Lemma get_scraper_unfold domain w :
  get_scraper domain w
  = let w1 := snd (read_content (scraper_rel domain) w) in
    match peek w (scraper_rel domain) with
    | None =>
        (Raise (FileNotFoundError ("No scraper found for domain: " +:+ domain)), w1)
    | Some _ =>
        match loading w ("scraper_" +:+ domain) (scraper_rel domain) with
        | Ret module =>
            (Ret module,
             add_log (INFO, "Loaded scraper for domain: " +:+ domain)
               (after_load w1 (scraper_rel domain)))
        | Raise e => (Raise e, after_load w1 (scraper_rel domain))
        end
    end.
Proof.
  unfold get_scraper. fold (scraper_rel domain). cbv zeta. munfold.
  rewrite ensure_unfold.
  destruct (peek w (scraper_rel domain)) eqn:Hpeek; [|done].
  pose proof (load_module_fst ("scraper_" +:+ domain) (scraper_rel domain) _
                (read_content_settled (scraper_rel domain) w)) as Hfst.
  rewrite (loading_refreshes _ _ _ _ (read_content_refreshes _ w)) in Hfst.
  rewrite load_module_unfold in Hfst |- *. simpl in Hfst. rewrite Hfst.
  by destruct (loading w _ _).
Qed.

Lemma get_scraper_fst domain w :
  fst (get_scraper domain w) =
    match peek w (scraper_rel domain) with
    | None => Raise (FileNotFoundError ("No scraper found for domain: " +:+ domain))
    | Some _ => loading w ("scraper_" +:+ domain) (scraper_rel domain)
    end.
Proof.
  rewrite get_scraper_unfold. cbv zeta.
  destruct (peek w (scraper_rel domain)); [|done]. by destruct (loading w _ _).
Qed.

Lemma get_scraper_refreshes domain w : refreshes w (snd (get_scraper domain w)).
Proof.
  rewrite get_scraper_unfold. cbv zeta.
  pose proof (read_content_refreshes (scraper_rel domain) w) as Hr.
  pose proof (after_load_refreshes _ _ (read_content_settled (scraper_rel domain) w))
    as Hl.
  destruct (peek w (scraper_rel domain)); [|done].
  destruct (loading w _ _); simpl; eauto using refreshes_trans, refreshes_add_log.
Qed.


Lemma get_scraper_local domain w :
  local (snd (get_scraper domain w)) = local (snd (read_content (scraper_rel domain) w)).
Proof.
  rewrite get_scraper_unfold. cbv zeta.
  destruct (peek w (scraper_rel domain)); [|done].
  destruct (loading w _ _); simpl; by rewrite after_load_local.
Qed.

Section Writer.
Context `{PyLib}.

Lemma save_scraper_unfold code url selectors site_name scraper_type t1 t2 d w :
  urlparse_netloc url = Some d →
  let base := filename_base d scraper_type in
  let rel := "scrapers/" +:+ base +:+ ".py" in
  let mrel := "metadata/" +:+ base +:+ ".json" in
  let md := metadata_of d url selectors site_name scraper_type t1 t2 in
  save_scraper code url selectors site_name scraper_type t1 t2 w =
    (Ret (mkSaved (path_join (repo_root w) rel) (path_join (repo_root w) mrel) d),
     add_log (INFO, "Saved metadata for " +:+ d +:+ " to " +:+ mrel)
       (snd (save_content mrel (json_dumps md)
          (add_log (INFO, "Saved scraper code for " +:+ d +:+ " to " +:+ rel)
             (snd (save_content rel code w)))))).
Proof.
  intros Hd. cbv zeta. unfold save_scraper, netloc. rewrite Hd. munfold.
  set (rel := "scrapers/" +:+ filename_base d scraper_type +:+ ".py").
  set (mrel := "metadata/" +:+ filename_base d scraper_type +:+ ".json").
  set (md := json_dumps _).
  destruct (save_content_returns rel code w) as [ok1 Hok1].
  pose proof (save_content_root rel code w) as Hroot1.
  destruct (save_content rel code w) as [o1 w1]. simpl in Hok1, Hroot1. subst o1.
  simpl. set (w2 := add_log _ w1).
  destruct (save_content_returns mrel md w2) as [ok2 Hok2].
  pose proof (save_content_root mrel md w2) as Hroot.
  destruct (save_content mrel md w2) as [o2 w3]. simpl in *. subst o2. simpl.
  by rewrite Hroot, Hroot1.
Qed.

Lemma filename_base_single d : filename_base d "single" = domain_to_filename d.
Proof. done. Qed.

Lemma same_loader_refl w : same_loader w w.
Proof. by split. Qed.

Lemma same_loader_trans w1 w2 w3 :
  same_loader w1 w2 → same_loader w2 w3 → same_loader w1 w3.
Proof. intros [] []. split; congruence. Qed.

Lemma same_loader_add_log entry w : same_loader w (add_log entry w).
Proof. by split. Qed.

Lemma save_content_same_loader path content w :
  same_loader w (snd (save_content path content w)).
Proof.
  rewrite save_content_unfold. unfold after_local_write. simpl.
  destruct (bucket w), (raises w LocalWrite path), (raises w GcsUpload path);
    by split.
Qed.

Lemma save_content_mtime path content w :
  raises w LocalWrite path = false →
  mtime_of (snd (save_content path content w)) path = clock w.
Proof.
  intros Hw. rewrite save_content_unfold. unfold after_local_write, mtime_of.
  rewrite Hw. simpl.
  destruct (bucket w); [destruct (raises w GcsUpload path)|]; simpl;
    by rewrite lookup_insert_eq.
Qed.

Lemma save_content_mtime_other path content q w :
  path ≠ q → mtime_of (snd (save_content path content w)) q = mtime_of w q.
Proof.
  intros Hne. rewrite save_content_unfold. unfold after_local_write, mtime_of.
  destruct (bucket w), (raises w LocalWrite path), (raises w GcsUpload path);
    simpl; rewrite ?lookup_insert_ne; done.
Qed.

Lemma save_content_stamped path content w :
  raises w LocalWrite path = false →
  raises w GcsUpload path = false →
  stamped (snd (save_content path content w)) path content.
Proof.
  intros Hw Hu. split; [by apply save_content_holds|].
  rewrite save_content_mtime by done.
  symmetry. apply (same_clock _ _ (save_content_same_loader path content w)).
Qed.

Lemma save_content_stamped_other path content w q code :
  path ≠ q → stamped w q code → stamped (snd (save_content path content w)) q code.
Proof.
  intros Hne [Hholds Hmtime]. split; [by apply save_content_holds_other|].
  rewrite save_content_mtime_other by done.
  by rewrite (same_clock _ _ (save_content_same_loader path content w)).
Qed.

Lemma stamped_add_log entry w q code : stamped w q code → stamped (add_log entry w) q code.
Proof. done. Qed.

Lemma save_scraper_same_loader code url selectors site_name scraper_type t1 t2 d w :
  urlparse_netloc url = Some d →
  same_loader w (snd (save_scraper code url selectors site_name scraper_type t1 t2 w)).
Proof.
  intros Hd. rewrite (save_scraper_unfold _ _ _ _ _ _ _ _ _ Hd). simpl snd.
  eapply same_loader_trans; [|apply same_loader_add_log].
  eapply same_loader_trans; [|apply save_content_same_loader].
  eapply same_loader_trans; [|apply same_loader_add_log].
  apply save_content_same_loader.
Qed.

(** The code path of a save holds the code, stamped with the clock. *)
Lemma save_scraper_stamped code url selectors site_name scraper_type t1 t2 d w :
  urlparse_netloc url = Some d →
  let path := "scrapers/" +:+ filename_base d scraper_type +:+ ".py" in
  raises w LocalWrite path = false →
  raises w GcsUpload path = false →
  stamped (snd (save_scraper code url selectors site_name scraper_type t1 t2 w))
    path code.
Proof.
  intros Hd path Hw Hu.
  rewrite (save_scraper_unfold _ _ _ _ _ _ _ _ _ Hd). simpl snd. fold path.
  apply stamped_add_log.
  apply save_content_stamped_other; [unfold path; simpl; discriminate|].
  apply stamped_add_log. by apply save_content_stamped.
Qed.

Lemma save_scraper_stamped_other code url selectors site_name scraper_type t1 t2 d w
    q c :
  urlparse_netloc url = Some d →
  q ≠ "scrapers/" +:+ filename_base d scraper_type +:+ ".py" →
  q ≠ "metadata/" +:+ filename_base d scraper_type +:+ ".json" →
  stamped w q c →
  stamped (snd (save_scraper code url selectors site_name scraper_type t1 t2 w)) q c.
Proof.
  intros Hd Hq1 Hq2 Hstamped.
  rewrite (save_scraper_unfold _ _ _ _ _ _ _ _ _ Hd). simpl snd.
  apply stamped_add_log.
  apply save_content_stamped_other; [done|].
  apply stamped_add_log. by apply save_content_stamped_other.
Qed.

Lemma load_outcome_same_loader w w' name path src mtime :
  same_loader w w' →
  load_outcome w' name path src mtime = load_outcome w name path src mtime.
Proof.
  intros [Hr Hc Hp Hce Hee]. unfold load_outcome, cached_code, run_outcome.
  by rewrite Hr, Hp, Hce, Hee.
Qed.

Lemma load_outcome_written w name path code mtime :
  raises w LocalRead path = false →
  loads_as_written w name path code mtime →
  load_outcome w name path (Some code) mtime = Ret (mkModule name code).
Proof.
  intros Hr (Hcache & Hcompile & Hexec). unfold load_outcome, run_outcome.
  by rewrite Hcache, Hr, Hcompile, Hexec.
Qed.

(** What a read of a stamped file finds and leaves. *)
Lemma stamped_after_read w path code :
  raises w LocalWrite path = false →
  raises w LocalRead path = false →
  stamped w path code →
  is_Some (peek w path)
  ∧ local_after_read w path = Some code
  ∧ mtime_after_read w path = clock w.
Proof.
  intros Hw Hr [[Hl Hb] Hm].
  unfold peek, local_after_read, mtime_after_read, remote_hit, read_local_value.
  rewrite Hw, Hr, Hl, Hm. simpl.
  destruct (bucket w) as [b|]; [|eauto].
  rewrite (Hb b eq_refl).
  destruct (raises w GcsExists _); [eauto|].
  destruct (raises w GcsDownload _); eauto.
Qed.

Lemma get_scraper_stamped d d' code w :
  scraper_rel d' = scraper_rel d →
  raises w LocalWrite (scraper_rel d) = false →
  raises w LocalRead (scraper_rel d) = false →
  stamped w (scraper_rel d) code →
  fst (get_scraper d' w)
  = load_outcome w ("scraper_" +:+ d') (scraper_rel d) (Some code) (clock w).
Proof.
  intros Hrel Hw Hr Hstamped. rewrite get_scraper_fst, Hrel. unfold loading.
  destruct (stamped_after_read w _ _ Hw Hr Hstamped) as ([c ->] & -> & ->). done.
Qed.

Lemma loading_stamped w name path code :
  raises w LocalWrite path = false →
  raises w LocalRead path = false →
  stamped w path code →
  is_Some (peek w path)
  ∧ loading w name path = load_outcome w name path (Some code) (clock w).
Proof.
  intros Hw Hr Hstamped. unfold loading.
  destruct (stamped_after_read w _ _ Hw Hr Hstamped) as (Hsome & -> & ->). done.
Qed.

(** C1, amended. Saving [code] for [url] with the default type and then
    asking for the scraper of the url's domain loads a module whose source
    is exactly [code], in local-only mode and with a bucket, whenever
    [urlparse] accepts the url, the writes and the local read of the code
    path do not raise, the code compiles and runs as the module of the
    domain, and no bytecode is cached for the file under the time of the
    save and the size of the code. *)
Theorem save_then_get code url selectors site_name t1 t2 d w :
  urlparse_netloc url = Some d →
  reliable w (scraper_rel d) →
  loads_as_written w ("scraper_" +:+ d) (scraper_rel d) code (clock w) →
  let saved := save_scraper code url selectors site_name "single" t1 t2 w in
  (∃ r, fst saved = Ret r ∧ domain r = d)
  ∧ fst (get_scraper d (snd saved)) = Ret (mkModule ("scraper_" +:+ d) code).
Proof.
  intros Hd (Hw & Hu & Hr) Hloads saved. subst saved. split.
  - rewrite (save_scraper_unfold _ _ _ _ _ _ _ _ _ Hd). simpl. eauto.
  - pose proof (save_scraper_same_loader code url selectors site_name "single"
                  t1 t2 d w Hd) as Hsame.
    pose proof (save_scraper_stamped code url selectors site_name "single"
                  t1 t2 d w Hd Hw Hu) as Hstamped.
    rewrite (get_scraper_stamped d d code); rewrite ?(same_raises _ _ Hsame); try done.
    rewrite (load_outcome_same_loader _ _ _ _ _ _ Hsame), (same_clock _ _ Hsame).
    by apply load_outcome_written.
Qed.

Lemma replace_char_length a b s :
  String.length (replace_char a b s) = String.length s.
Proof. induction s; simpl; congruence. Qed.

Lemma replace_char_get a b s i :
  String.get i (replace_char a b s)
  = (λ c, if Ascii.eqb c a then b else c) <$> String.get i s.
Proof.
  revert i. induction s as [|c s IH]; intros i; simpl; [done|].
  destruct i; [done|]. apply IH.
Qed.

(** C10, amended. [domain_to_filename] replaces each dot by an underscore
    and leaves every other character (and the length) as it is, so it is not
    injective: [a.b] and [a_b] have the same key.  Two domains with the
    same key are saved under the same code path and the same metadata path,
    and after both have been saved [get_scraper] returns the code saved last
    for either domain, when that code compiles and runs as the module of
    each domain and no bytecode is cached for the file under the time of the
    save and the size of that code. *)
Theorem domain_key_collision code1 code2 url1 url2 sel1 sel2 name1 name2 t1 t2 t3 t4
    d1 d2 w :
  urlparse_netloc url1 = Some d1 →
  urlparse_netloc url2 = Some d2 →
  domain_to_filename d1 = domain_to_filename d2 →
  reliable w (scraper_rel d1) →
  loads_as_written w ("scraper_" +:+ d1) (scraper_rel d1) code2 (clock w) →
  loads_as_written w ("scraper_" +:+ d2) (scraper_rel d1) code2 (clock w) →
  let first := save_scraper code1 url1 sel1 name1 "single" t1 t2 w in
  let second := save_scraper code2 url2 sel2 name2 "single" t3 t4 (snd first) in
  (∀ d i, String.length (domain_to_filename d) = String.length d
          ∧ String.get i (domain_to_filename d)
            = (λ c, if Ascii.eqb c "." then "_"%char else c) <$> String.get i d)
  ∧ ("a.b" ≠ "a_b" ∧ domain_to_filename "a.b" = domain_to_filename "a_b")
  ∧ (∃ r1 r2, fst first = Ret r1 ∧ fst second = Ret r2
              ∧ scraper_path r1 = scraper_path r2
              ∧ metadata_path r1 = metadata_path r2)
  ∧ fst (get_scraper d1 (snd second)) = Ret (mkModule ("scraper_" +:+ d1) code2)
  ∧ fst (get_scraper d2 (snd second)) = Ret (mkModule ("scraper_" +:+ d2) code2).
Proof.
  intros Hd1 Hd2 Hkey (Hw & Hu & Hr) Hloads1 Hloads2 first second.
  assert (scraper_rel d1 = scraper_rel d2) as Hrel.
  { unfold scraper_rel. unfold domain_to_filename in Hkey. by rewrite Hkey. }
  pose proof (save_scraper_same_loader code1 url1 sel1 name1 "single" t1 t2 d1 w Hd1)
    as Hsame1. fold first in Hsame1.
  pose proof (save_scraper_same_loader code2 url2 sel2 name2 "single" t3 t4 d2
                (snd first) Hd2) as Hsame2. fold second in Hsame2.
  pose proof (same_loader_trans _ _ _ Hsame1 Hsame2) as Hsame.
  assert (stamped (snd second) (scraper_rel d1) code2) as Hstamped.
  { rewrite Hrel.
    apply (save_scraper_stamped code2 url2 sel2 name2 "single" t3 t4 d2 (snd first) Hd2);
      change ("scrapers/" +:+ filename_base d2 "single" +:+ ".py")
        with (scraper_rel d2);
      rewrite <- Hrel, (same_raises _ _ Hsame1); done. }
  split; [|split; [|split; [|split]]].
  - intros d i. split; [apply replace_char_length|apply replace_char_get].
  - split; [discriminate|reflexivity].
  - subst first second.
    rewrite (save_scraper_unfold _ _ _ _ _ _ _ _ _ Hd2).
    rewrite (save_scraper_unfold _ _ _ _ _ _ _ _ _ Hd1). simpl.
    do 2 eexists. split; [done|]. split; [done|]. simpl.
    rewrite !filename_base_single, Hkey.
    rewrite save_content_root. simpl. rewrite save_content_root. done.
  - rewrite (get_scraper_stamped d1 d1 code2); rewrite ?(same_raises _ _ Hsame);
      try done.
    rewrite (load_outcome_same_loader _ _ _ _ _ _ Hsame), (same_clock _ _ Hsame).
    by apply load_outcome_written.
  - rewrite (get_scraper_stamped d1 d2 code2); rewrite ?(same_raises _ _ Hsame);
      try done.
    rewrite (load_outcome_same_loader _ _ _ _ _ _ Hsame), (same_clock _ _ Hsame).
    by apply load_outcome_written.
Qed.

End Writer.

Lemma append_inv_l (a b c : string) : a +:+ b = a +:+ c → b = c.
Proof. apply String.app_inj. Qed.

Lemma list_rel_ne_content_rel d : list_rel d ≠ content_rel d.
Proof.
  unfold list_rel, content_rel. intros Heq.
  apply append_inv_l, append_inv_l in Heq. discriminate.
Qed.

Lemma has_scraper_pipeline_unfold d w :
  has_scraper_pipeline d w
  = (Ret (visible w (list_rel d) && visible w (content_rel d)), w).
Proof.
  unfold has_scraper_pipeline. fold (list_rel d) (content_rel d). munfold.
  rewrite exists_unfold. destruct (visible w (list_rel d)); [|done].
  by rewrite exists_unfold.
Qed.

Lemma get_scraper_pipeline_fst d w :
  fst (get_scraper_pipeline d w) =
    match peek w (list_rel d), peek w (content_rel d) with
    | Some _, Some _ => load_pair w d
    | _, _ => Raise (FileNotFoundError ("Incomplete pipeline for domain: " +:+ d))
    end.
Proof.
  unfold get_scraper_pipeline. fold (list_rel d) (content_rel d). munfold.
  rewrite ensure_unfold.
  pose proof (read_content_refreshes (list_rel d) w) as Hr1.
  pose proof (read_content_settled (list_rel d) w) as Hs1.
  set (w1 := snd (read_content (list_rel d) w)) in *.
  destruct (peek w (list_rel d)) as [cl|]; [|done].
  rewrite ensure_unfold, (peek_refreshes _ _ _ Hr1).
  pose proof (read_content_refreshes (content_rel d) w1) as Hr2.
  pose proof (read_content_settled (content_rel d) w1) as Hsc.
  pose proof (settled_read_other (content_rel d) (list_rel d) w1
                ltac:(intros Heq; by apply (list_rel_ne_content_rel d)) Hs1) as Hsl.
  set (w2 := snd (read_content (content_rel d) w1)) in *.
  destruct (peek w (content_rel d)) as [cc|]; [|done].
  assert (refreshes w w2) as Hr by eauto using refreshes_trans.
  simpl. rewrite load_module_unfold, (load_outcome_settled _ _ _ Hsl).
  rewrite (loading_refreshes _ _ _ _ Hr).
  pose proof (after_load_refreshes _ _ Hsl) as Hr3.
  pose proof (settled_after_load _ _ _ Hsl Hsc) as Hsc3.
  unfold load_pair.
  destruct (loading w _ (list_rel d)) as [ml|e]; [|done].
  rewrite load_module_unfold, (load_outcome_settled _ _ _ Hsc3).
  rewrite (loading_refreshes _ _ _ _ (refreshes_trans _ _ _ Hr Hr3)).
  by destruct (loading w _ (content_rel d)).
Qed.

(** C4, as stated, fails.  With a bucket configured and both halves present
    in the local tier only (as after two saves during which the uploads
    raised), both artifacts load and [get_scraper_pipeline] returns the
    pair, yet [has_scraper_pipeline] answers [False].  With both halves
    stored and neither running, [has_scraper_pipeline] answers [True], yet
    neither [get_scraper] call returns. *)
Lemma local_pipeline_not_reported :
  (fst (get_scraper "example.org_list" cached_pipeline)
     = Ret (mkModule "scraper_example.org_list" list_scraper)
   ∧ fst (get_scraper "example.org_content" cached_pipeline)
     = Ret (mkModule "scraper_example.org_content" content_scraper)
   ∧ fst (get_scraper_pipeline "example.org" cached_pipeline)
     = Ret (mkModule "scraper_example.org_list" list_scraper,
            mkModule "scraper_example.org_content" content_scraper)
   ∧ fst (has_scraper_pipeline "example.org" cached_pipeline) = Ret false)
  ∧ (fst (get_scraper_pipeline "example.org" saved_while_unreachable)
     = Ret (mkModule "scraper_example.org_list" list_scraper,
            mkModule "scraper_example.org_content" content_scraper)
     ∧ fst (has_scraper_pipeline "example.org" saved_while_unreachable) = Ret false)
  ∧ (fst (has_scraper_pipeline "example.org" unloadable_pipeline) = Ret true
     ∧ fst (get_scraper "example.org_list" unloadable_pipeline)
       = Raise (OtherError "NameError")
     ∧ fst (get_scraper "example.org_content" unloadable_pipeline)
       = Raise (OtherError "NameError")).
Proof. vm_compute. done. Qed.

Lemma replace_char_app a b s t :
  replace_char a b (s +:+ t) = replace_char a b s +:+ replace_char a b t.
Proof. induction s as [|c s IH]; simpl; [done|]. by rewrite IH. Qed.

Lemma string_app_assoc (a b c : string) : (a +:+ b) +:+ c = a +:+ b +:+ c.
Proof.
  induction a as [|x a IH]; [done|].
  change (String x ((a +:+ b) +:+ c) = String x (a +:+ b +:+ c)). by rewrite IH.
Qed.

Lemma scraper_rel_list d : scraper_rel (d +:+ "_list") = list_rel d.
Proof.
  unfold scraper_rel, list_rel. rewrite replace_char_app. simpl.
  by rewrite string_app_assoc.
Qed.

Lemma scraper_rel_content d : scraper_rel (d +:+ "_content") = content_rel d.
Proof.
  unfold scraper_rel, content_rel. rewrite replace_char_app. simpl.
  by rewrite string_app_assoc.
Qed.

Lemma visible_in_sync w path :
  in_sync w path → visible w path = bool_decide (is_Some (peek w path)).
Proof.
  intros [Hop Hsync].
  unfold visible, peek, remote_hit, read_local_value. rewrite !Hop.
  destruct (bucket w) as [b|].
  - destruct (blobs b !! path) eqn:Hb; simpl; [done|].
    destruct (local w !! path) eqn:Hl; simpl; [|done].
    destruct Hsync as [? ?]; [eauto|done].
  - by destruct (local w !! path).
Qed.

Lemma returns_get_scraper d w :
  loads_when_read w ("scraper_" +:+ d) (scraper_rel d) →
  returns (get_scraper d w) = bool_decide (is_Some (peek w (scraper_rel d))).
Proof.
  intros Hloads. unfold returns. rewrite get_scraper_fst.
  destruct (peek w (scraper_rel d)) eqn:Hpeek; [|done].
  destruct Hloads as [module ->]; [by rewrite Hpeek|]. done.
Qed.

(** C4, amended. [get_scraper_pipeline] returns both modules or raises, never
    one half: when a half cannot be read from either tier it raises
    [FileNotFoundError] with the message [Incomplete pipeline for domain: d],
    which is never the message of [get_scraper]; the exception class is the
    same.  When no backend call on the two code paths raises and, with a
    bucket configured, neither half is in the local cache alone,
    [has_scraper_pipeline] answers whether both halves can be read; when
    moreover each half that can be read loads, that is whether both
    [get_scraper] calls on the [_list] and [_content] names return, which is
    whether [get_scraper_pipeline] returns. *)
Theorem pipeline_all_or_nothing d w :
  fst (get_scraper_pipeline d w)
    = (if bool_decide (is_Some (peek w (list_rel d)))
          && bool_decide (is_Some (peek w (content_rel d)))
       then load_pair w d
       else Raise (FileNotFoundError ("Incomplete pipeline for domain: " +:+ d)))
  ∧ (∀ d', "Incomplete pipeline for domain: " +:+ d
           ≠ "No scraper found for domain: " +:+ d')
  ∧ (in_sync w (list_rel d) → in_sync w (content_rel d) →
     fst (has_scraper_pipeline d w)
       = Ret (bool_decide (is_Some (peek w (list_rel d)))
              && bool_decide (is_Some (peek w (content_rel d))))
     ∧ (loads_when_read w ("scraper_" +:+ d +:+ "_list") (list_rel d) →
        loads_when_read w ("scraper_" +:+ d +:+ "_content") (content_rel d) →
        fst (has_scraper_pipeline d w)
          = Ret (returns (get_scraper (d +:+ "_list") w)
                 && returns (get_scraper (d +:+ "_content") w))
        ∧ fst (has_scraper_pipeline d w) = Ret (returns (get_scraper_pipeline d w)))).
Proof.
  split; [|split].
  - rewrite get_scraper_pipeline_fst.
    destruct (peek w (list_rel d)), (peek w (content_rel d)); done.
  - intros d'. simpl. discriminate.
  - intros Hl Hc.
    assert (fst (has_scraper_pipeline d w)
            = Ret (bool_decide (is_Some (peek w (list_rel d)))
                   && bool_decide (is_Some (peek w (content_rel d))))) as Hhas.
    { rewrite has_scraper_pipeline_unfold. simpl.
      by rewrite (visible_in_sync _ _ Hl), (visible_in_sync _ _ Hc). }
    split; [done|]. intros Hll Hlc. rewrite Hhas. split.
    + rewrite !returns_get_scraper;
        rewrite ?scraper_rel_list, ?scraper_rel_content; done.
    + unfold returns. rewrite get_scraper_pipeline_fst. unfold load_pair.
      destruct (peek w (list_rel d)) eqn:Hpl; [|done].
      destruct (peek w (content_rel d)) eqn:Hpc; [|done].
      destruct Hll as [ml ->]; [by rewrite Hpl|].
      destruct Hlc as [mc ->]; [by rewrite Hpc|]. done.
Qed.

Lemma list_files_unfold `{PyLib} prefix w :
  list_files prefix w =
    (Ret (set_to_list (listed w prefix)),
     match bucket w with
     | Some _ => if raises w GcsList prefix
                 then add_log (ERROR, "Failed to list GCS files") w else w
     | None => w
     end).
Proof.
  unfold list_files, listed. munfold.
  destruct (bucket w); [|done]. by destruct (raises w GcsList prefix).
Qed.

Lemma list_files_refreshes `{PyLib} prefix w :
  refreshes w (snd (list_files prefix w)).
Proof.
  rewrite list_files_unfold. simpl.
  destruct (bucket w); [destruct (raises w GcsList prefix)|];
    auto using refreshes_refl, refreshes_add_log.
Qed.

Lemma elem_of_with_prefix prefix (m : gmap string string) q :
  q ∈ with_prefix prefix m ↔ startswith q prefix = true ∧ is_Some (m !! q).
Proof. unfold with_prefix. rewrite elem_of_filter, elem_of_dom. done. Qed.

Lemma elem_of_listed w prefix q :
  q ∈ listed w prefix ↔
    startswith q prefix = true
    ∧ (is_Some (local w !! q)
       ∨ ∃ b, bucket w = Some b ∧ raises w GcsList prefix = false
              ∧ is_Some (blobs b !! q)).
Proof.
  unfold listed. rewrite elem_of_union, elem_of_with_prefix.
  destruct (bucket w) as [b|]; [destruct (raises w GcsList prefix) eqn:Hl|].
  - rewrite elem_of_empty. split.
    + intros [[]|[? ?]]; auto.
    + intros [? [?|(? & ? & ? & ?)]]; [auto|done].
  - rewrite elem_of_with_prefix. split.
    + intros [[? ?]|[? ?]]; eauto 7.
    + intros [? [?|(? & [= <-] & ? & ?)]]; auto.
  - rewrite elem_of_empty. split.
    + intros [[]|[? ?]]; auto.
    + intros [? [?|(? & ? & ? & ?)]]; [auto|done].
Qed.

(** [get_scraper] writes to the code path only: the listing under a prefix
    that the code path does not have is as it was. *)
Lemma get_scraper_listed d w prefix :
  startswith (scraper_rel d) prefix = false →
  listed (snd (get_scraper d w)) prefix = listed w prefix.
Proof.
  intros Hprefix. pose proof (get_scraper_refreshes d w) as Hr.
  unfold listed. rewrite (refreshes_bucket _ _ Hr), (refreshes_raises _ _ Hr).
  f_equal. apply set_eq. intros q. rewrite !elem_of_with_prefix.
  rewrite get_scraper_local.
  destruct (decide (scraper_rel d = q)) as [<-|Hne].
  - rewrite Hprefix. by split; intros [? _].
  - by rewrite read_content_local_other.
Qed.

Section ResolverFacts.
Context `{PyLib}.

Lemma classify_entry_refreshes url w w' path :
  refreshes w w' → classify_entry url w' path = classify_entry url w path.
Proof. intros Hr. unfold classify_entry. by rewrite (peek_refreshes _ _ _ Hr). Qed.

Lemma scan_patterns_skipped url w path rest :
  classify_entry url w path = Skipped →
  ∃ w', refreshes w w' ∧ scan_patterns url (path :: rest) w = scan_patterns url rest w'.
Proof.
  unfold classify_entry. simpl scan_patterns.
  destruct (endswith path ".json"); simpl; [|eauto using refreshes_refl].
  munfold.
  pose proof (read_content_fst path w) as Hfst.
  pose proof (read_content_refreshes path w) as Hr.
  destruct (read_content path w) as [o w1]. simpl in *. subst o.
  destruct (nonempty (peek w path)) as [content|]; [|eauto].
  destruct (json_loads content) as [metadata|]; simpl.
  2:{ destruct (json_error content); [|done..].
      intros _. eexists. split; [|done].
      eapply refreshes_trans; [done|apply refreshes_add_log]. }
  unfold classify_metadata, py_get, pattern_matches. munfold.
  destruct metadata as [| | | | | |entries]; try done.
  destruct (from_option id (JStr "") (dict_get "url_pattern" entries))
    as [|b|n|r|pattern|items|kvs] eqn:Hpat; simpl.
  - eauto.
  - destruct b; [done|eauto].
  - destruct (n =? 0)%Z; simpl; [eauto|done].
  - destruct (String.eqb r "0.0" || String.eqb r "-0.0"); simpl; [eauto|done].
  - destruct (String.eqb pattern ""); simpl; [eauto|].
    destruct (re_match pattern url) as [[|]|]; [|eauto|done].
    by destruct (dict_get "domain" entries) as [[]|].
  - destruct items; [eauto|done].
  - destruct kvs; [eauto|done].
Qed.




Lemma get_scraper_for_url_fallback url host m w :
  urlparse_netloc url = Some host →
  fst (get_scraper host w) = Raise (FileNotFoundError m) →
  ∃ w1, refreshes w w1
        ∧ get_scraper_for_url url w
          = scan_patterns url (set_to_list (listed w "metadata/")) w1.
Proof.
  intros Hhost Hnf.
  exists (snd (list_files "metadata/" (snd (get_scraper host w)))). split.
  { eapply refreshes_trans; [apply get_scraper_refreshes|apply list_files_refreshes]. }
  unfold get_scraper_for_url, netloc. rewrite Hhost. munfold.
  pose proof (get_scraper_listed host w "metadata/" eq_refl) as Hlisted.
  destruct (get_scraper host w) as [o w0]. simpl in *. subst o.
  rewrite list_files_unfold. simpl. by rewrite Hlisted.
Qed.


Lemma entry_metadata_refreshes w w' path :
  refreshes w w' → entry_metadata w' path = entry_metadata w path.
Proof. intros Hr. unfold entry_metadata. by rewrite (peek_refreshes _ _ _ Hr). Qed.

Lemma omap_entry_metadata_refreshes w w' (files : list string) :
  refreshes w w' → omap (entry_metadata w') files = omap (entry_metadata w) files.
Proof.
  intros Hr. induction files as [|path files IH]; [done|].
  csimpl. by rewrite IH, (entry_metadata_refreshes _ _ _ Hr).
Qed.

Lemma uncaught_refreshes w w' path :
  refreshes w w' → uncaught w' path = uncaught w path.
Proof. intros Hr. unfold uncaught. by rewrite (peek_refreshes _ _ _ Hr). Qed.

Lemma list_scrapers_loop_fst files scrapers w :
  Forall (λ q, uncaught w q = None) files →
  fst (list_scrapers_loop files scrapers w)
  = Ret (scrapers ++ omap (entry_metadata w) files)%list.
Proof.
  revert scrapers w. induction files as [|path files IH]; intros scrapers w Hall.
  { simpl. by rewrite app_nil_r. }
  inversion_clear Hall as [|?? Hpath Hfiles].
  simpl. unfold entry_metadata at 1. unfold uncaught in Hpath.
  destruct (endswith path ".json"); simpl; [|by apply IH].
  munfold.
  pose proof (read_content_fst path w) as Hfst.
  pose proof (read_content_refreshes path w) as Hr.
  destruct (read_content path w) as [o w1]. simpl in *. subst o.
  pose proof (omap_entry_metadata_refreshes w w1 files Hr) as Hsame.
  assert (Forall (λ q, uncaught w1 q = None) files) as Hfiles1.
  { eapply Forall_impl; [done|]. intros q Hq. simpl in *.
    by rewrite (uncaught_refreshes _ _ _ Hr). }
  destruct (nonempty (peek w path)) as [content|]; simpl.
  - destruct (json_loads content) as [metadata|]; simpl.
    + by rewrite IH, Hsame, <- app_assoc.
    + destruct (json_error content); [|done..]. by rewrite IH, Hsame.
  - by rewrite IH, Hsame.
Qed.

Lemma list_scrapers_fst w :
  Forall (λ q, uncaught w q = None) (set_to_list (listed w "metadata/")) →
  fst (list_scrapers w)
  = Ret (omap (entry_metadata w) (set_to_list (listed w "metadata/"))).
Proof.
  intros Hall. unfold list_scrapers. munfold. rewrite list_files_unfold.
  assert (refreshes w (match bucket w with
                       | Some _ => if raises w GcsList "metadata/"
                                   then add_log (ERROR, "Failed to list GCS files") w
                                   else w
                       | None => w
                       end)) as Hr.
  { destruct (bucket w); [destruct (raises w GcsList _)|];
      auto using refreshes_refl, refreshes_add_log. }
  rewrite list_scrapers_loop_fst.
  - simpl. f_equal. by apply omap_entry_metadata_refreshes.
  - eapply Forall_impl; [done|]. intros q Hq. simpl in *.
    by rewrite (uncaught_refreshes _ _ _ Hr).
Qed.

Lemma corrupt_inv w path :
  corrupt w path = true →
  endswith path ".json" = true
  ∧ ∃ content, nonempty (peek w path) = Some content
               ∧ json_loads content = None ∧ json_error content = Malformed.
Proof.
  unfold corrupt. destruct (endswith path ".json"); [|done]. simpl.
  destruct (nonempty (peek w path)) as [content|]; [|done].
  destruct (json_loads content) eqn:Hl; [done|].
  destruct (json_error content) eqn:He; [|done..]. eauto.
Qed.

(** C6, amended. An entry of the listing whose content is not well-formed
    JSON is skipped by the three scans: each loop goes on with the rest of
    the listing and the same accumulated results.  Only the scan of
    [get_scraper_for_url] logs it (one warning); [list_scrapers] and
    [list_scraper_pipelines] log nothing for it.  When [json.loads] raises
    nothing but [JSONDecodeError] on the entries listed, [list_scrapers]
    returns the metadata of exactly the entries that parse, in listing
    order. *)
Theorem corrupt_metadata_skipped url w path rest scrapers pipelines domains_seen :
  corrupt w path = true →
  let w' := snd (read_content path w) in
  list_scrapers_loop (path :: rest) scrapers w = list_scrapers_loop rest scrapers w'
  ∧ list_scraper_pipelines_loop (path :: rest) pipelines domains_seen w
    = list_scraper_pipelines_loop rest pipelines domains_seen w'
  ∧ scan_patterns url (path :: rest) w
    = scan_patterns url rest
        (add_log (WARNING, "Corrupt metadata file: " +:+ path) w')
  ∧ entry_metadata w path = None
  ∧ (Forall (λ q, uncaught w q = None) (set_to_list (listed w "metadata/")) →
     fst (list_scrapers w)
     = Ret (omap (entry_metadata w) (set_to_list (listed w "metadata/")))).
Proof.
  intros (Hjson & content & Hcontent & Hloads & Hkind)%corrupt_inv w'. subst w'.
  pose proof (read_content_fst path w) as Hfst.
  simpl. rewrite Hjson. simpl. munfold.
  destruct (read_content path w) as [o w1]. simpl in *. subst o.
  rewrite Hcontent, Hloads, Hkind. repeat split; try done.
  - unfold entry_metadata. by rewrite Hjson, Hcontent.
  - apply list_scrapers_fst.
Qed.

End ResolverFacts.

#[local] Existing Instance py_ref.

(** C1, as stated, fails: a scraper saved again within one second of mtime,
    with code of the same size, after the first version has been loaded, is
    loaded from the bytecode cached for the first version. *)
Lemma resave_loads_cached_bytecode :
  scraper_v1 ≠ scraper_v2
  ∧ urlparse_netloc "https://example.org/a" = Some "example.org"
  ∧ fst (get_scraper "example.org"
           (snd (save_scraper scraper_v1 "https://example.org/a" (JDict []) None
                   "single" "t1" "t2" (local_only ∅))))
    = Ret (mkModule "scraper_example.org" scraper_v1)
  ∧ fst (get_scraper "example.org"
           (snd (save_scraper scraper_v2 "https://example.org/a" (JDict []) None
                   "single" "t3" "t4"
              (snd (get_scraper "example.org"
                 (snd (save_scraper scraper_v1 "https://example.org/a" (JDict [])
                         None "single" "t1" "t2" (local_only ∅))))))))
    = Ret (mkModule "scraper_example.org" scraper_v1).
Proof. repeat split; vm_compute; (reflexivity || discriminate). Qed.

(** C10, as stated, fails: after the code saved for [a.b] has been loaded,
    code of the same size saved for [a_b] within one second of mtime
    overwrites the file, and [get_scraper] for either domain still returns
    the code saved first, from the cached bytecode. *)
Lemma collision_loads_cached_bytecode :
  local (snd (save_scraper scraper_v2 "https://a_b/y" (JDict []) None "single" "t3" "t4"
            (snd (get_scraper "a.b"
               (snd (save_scraper scraper_v1 "https://a.b/x" (JDict []) None
                       "single" "t1" "t2" (local_only ∅))))))) !! "scrapers/a_b.py"
  = Some scraper_v2
  ∧ fst (get_scraper "a.b"
           (snd (save_scraper scraper_v2 "https://a_b/y" (JDict []) None "single"
                   "t3" "t4"
              (snd (get_scraper "a.b"
                 (snd (save_scraper scraper_v1 "https://a.b/x" (JDict []) None
                         "single" "t1" "t2" (local_only ∅))))))))
    = Ret (mkModule "scraper_a.b" scraper_v1)
  ∧ fst (get_scraper "a_b"
           (snd (save_scraper scraper_v2 "https://a_b/y" (JDict []) None "single"
                   "t3" "t4"
              (snd (get_scraper "a.b"
                 (snd (save_scraper scraper_v1 "https://a.b/x" (JDict []) None
                         "single" "t1" "t2" (local_only ∅))))))))
    = Ret (mkModule "scraper_a_b" scraper_v1).
Proof. repeat split; vm_compute; reflexivity. Qed.


(** An entry on which [json.loads] raises [ValueError] is not skipped by
    [list_scrapers] or by the pattern scan. *)
Lemma oversized_integer_is_fatal :
  uncaught oversized_store "metadata/example_org.json" = Some DigitLimit
  ∧ fst (list_scrapers oversized_store) = Raise ValueError
  ∧ fst (get_scraper_for_url "https://www.example.org/news/1" oversized_store)
    = Raise ValueError
  ∧ fst (list_scraper_pipelines oversized_store) = Ret [].
Proof. repeat split; vm_compute; reflexivity. Qed.

(** C6, as stated, fails: [list_scrapers] and [list_scraper_pipelines] skip
    an entry that is not well-formed JSON without logging anything. *)
Lemma corrupt_metadata_not_logged :
  corrupt corrupt_store "metadata/example_org.json" = true
  ∧ list_scrapers corrupt_store = (Ret [], corrupt_store)
  ∧ list_scraper_pipelines corrupt_store = (Ret [], corrupt_store)
  ∧ log corrupt_store = [].
Proof. vm_compute. done. Qed.

Lemma corrupt_content_metadata_is_fatal :
  corrupt corrupt_content_metadata "metadata/example_org_content.json" = true
  ∧ fst (list_scraper_pipelines corrupt_content_metadata) = Raise JSONDecodeError.
Proof. vm_compute. done. Qed.

End RepositoryFacts.

(** ** Dictionaries *)

Module ValueFacts.
Import Value.

Lemma dict_get_set_eq k v entries : dict_get k (dict_set k v entries) = Some v.
Proof.
  induction entries as [|[k' v'] entries IH]; simpl.
  - by rewrite String.eqb_refl.
  - destruct (String.eqb k' k) eqn:Hk; simpl; by rewrite Hk.
Qed.

Lemma dict_get_set_ne k k' v entries :
  k' ≠ k → dict_get k' (dict_set k v entries) = dict_get k' entries.
Proof.
  intros Hne.
  assert (String.eqb k k' = false) as Hkk by (apply String.eqb_neq; congruence).
  induction entries as [|[k0 v0] entries IH]; simpl.
  - by rewrite Hkk.
  - destruct (String.eqb k0 k) eqn:Hk; simpl; [|by rewrite IH].
    apply String.eqb_eq in Hk as ->. by rewrite Hkk.
Qed.

Lemma dict_set_set k v1 v2 entries :
  dict_set k v2 (dict_set k v1 entries) = dict_set k v2 entries.
Proof.
  induction entries as [|[k' v'] entries IH]; simpl.
  - by rewrite String.eqb_refl.
  - destruct (String.eqb k' k) eqn:Hk; simpl; rewrite Hk; [done|by rewrite IH].
Qed.

(** Assigning to a key keeps the other keys where they are: an existing
    key keeps its place, a new key is added last. *)
Lemma keys_dict_set k v entries :
  keys (dict_set k v entries)
  = (if bool_decide (k ∈ keys entries) then keys entries else keys entries ++ [k])%list.
Proof.
  unfold keys. induction entries as [|[k' v'] entries IH]; simpl; [done|].
  destruct (String.eqb k' k) eqn:Hk; simpl.
  - apply String.eqb_eq in Hk as ->. rewrite bool_decide_true; [done|]. left.
  - apply String.eqb_neq in Hk. rewrite IH.
    destruct (bool_decide (k ∈ map fst entries)) eqn:Hin.
    + apply bool_decide_eq_true in Hin. rewrite bool_decide_true; [done|]. by right.
    + apply bool_decide_eq_false in Hin. rewrite bool_decide_false; [done|].
      intros [->|?]%elem_of_cons; done.
Qed.

End ValueFacts.

Module WriterFacts.
Import Py Value Storage Saver Repository View Samples PyFacts StorageFacts ValueFacts.

Lemma peek_holds w path content :
  raises w LocalRead path = false →
  universal_newlines content = content →
  holds w path content → peek w path = Some content.
Proof.
  intros Hr Hnl [Hl Hb]. unfold peek, remote_hit, read_local_value.
  rewrite Hr, Hl. simpl. rewrite Hnl.
  destruct (bucket w) as [b|]; [|done]. rewrite (Hb b eq_refl).
  destruct (raises w GcsExists path); [done|]. by destruct (raises w GcsDownload path).
Qed.

Section WithLibrary.
Context `{PyLib}.

Lemma update_unfold domain now w :
  update_scraper_validation domain now w =
    let path := metadata_rel domain in
    let w1 := snd (read_content path w) in
    match nonempty (peek w path) with
    | None =>
        (Ret tt, add_log (WARNING, "Could not find metadata for " +:+ domain
                                    +:+ " to update validation") w1)
    | Some content =>
        match json_loads content with
        | Some (JDict entries) =>
            (Ret tt, add_log (INFO, "Updated validation timestamp for " +:+ domain)
                       (snd (save_content path (json_dumps (touched now entries)) w1)))
        | _ =>
            (Ret tt, add_log (ERROR, "Failed to update validation timestamp for "
                                     +:+ domain) w1)
        end
    end.
Proof.
  unfold update_scraper_validation, domain_to_filename. fold (metadata_rel domain).
  cbv zeta. munfold.
  pose proof (read_content_fst (metadata_rel domain) w) as Hfst.
  destruct (read_content (metadata_rel domain) w) as [o w1]. simpl in *. subst o.
  destruct (nonempty (peek w (metadata_rel domain))) as [content|]; [|done].
  destruct (json_loads content) as [[| | | | | |entries]|]; try done.
  unfold touched.
  destruct (save_content_returns (metadata_rel domain)
              (json_dumps (JDict (dict_set "last_validated" (JStr now) entries))) w1)
    as [ok Hok].
  destruct (save_content _ _ w1) as [o w2]. simpl in *. by subst o.
Qed.

Lemma update_once domain now w content entries :
  reliable w (metadata_rel domain) →
  nonempty (peek w (metadata_rel domain)) = Some content →
  json_loads content = Some (JDict entries) →
  let w' := snd (update_scraper_validation domain now w) in
  raises w' = raises w
  ∧ holds w' (metadata_rel domain) (json_dumps (touched now entries))
  ∧ (universal_newlines (json_dumps (touched now entries))
       = json_dumps (touched now entries) →
     peek w' (metadata_rel domain) = Some (json_dumps (touched now entries))).
Proof.
  intros (Hw & Hu & Hr) Hcontent Hloads. cbv zeta.
  rewrite update_unfold. cbv zeta. rewrite Hcontent, Hloads. simpl snd.
  pose proof (read_content_refreshes (metadata_rel domain) w) as Hrf.
  set (w1 := snd (read_content (metadata_rel domain) w)) in *.
  assert (raises w1 = raises w) as Hraises by apply (refreshes_raises _ _ Hrf).
  assert (holds (snd (save_content (metadata_rel domain)
                        (json_dumps (touched now entries)) w1))
            (metadata_rel domain) (json_dumps (touched now entries))) as Hholds.
  { apply save_content_holds; by rewrite Hraises. }
  split; [|split].
  - simpl. by rewrite save_content_raises.
  - done.
  - intros Hnl. apply peek_holds; [|done..]. simpl.
    by rewrite save_content_raises, Hraises.
Qed.

(** C9. When the metadata of the domain cannot be read,
    [update_scraper_validation] returns, writes to neither tier and logs the
    warning last.  When it is read and parses as an object, and the calls on
    its path do not raise, the object written back is the one read with
    [last_validated] set: that key holds the new timestamp, every other key
    holds the value it had, and the keys keep their order (a missing
    [last_validated] is added last).  A second call, which reads what the
    first wrote ([json.loads] giving back the object [json.dumps] was given),
    leaves the object read at first with [last_validated] set to the second
    timestamp. *)
Theorem touch_validated_frame domain t1 t2 w :
  let path := metadata_rel domain in
  (peek w path = None →
     let r := update_scraper_validation domain t1 w in
     fst r = Ret tt
     ∧ local (snd r) = local w ∧ bucket (snd r) = bucket w
     ∧ ∃ earlier, log (snd r)
         = (earlier ++ [(WARNING, "Could not find metadata for " +:+ domain
                                  +:+ " to update validation")])%list)
  ∧ (∀ content entries,
       reliable w path →
       nonempty (peek w path) = Some content →
       json_loads content = Some (JDict entries) →
       let w1 := snd (update_scraper_validation domain t1 w) in
       let w2 := snd (update_scraper_validation domain t2 w1) in
       holds w1 path (json_dumps (touched t1 entries))
       ∧ (∀ t, dict_get "last_validated" (dict_set "last_validated" (JStr t) entries)
               = Some (JStr t))
       ∧ (∀ t k, k ≠ "last_validated" →
                 dict_get k (dict_set "last_validated" (JStr t) entries)
                 = dict_get k entries)
       ∧ (∀ t, keys (dict_set "last_validated" (JStr t) entries)
               = if bool_decide ("last_validated" ∈ keys entries)
                 then keys entries else (keys entries ++ ["last_validated"])%list)
       ∧ (json_loads (json_dumps (touched t1 entries)) = Some (touched t1 entries) →
          json_dumps (touched t1 entries) ≠ "" →
          universal_newlines (json_dumps (touched t1 entries))
            = json_dumps (touched t1 entries) →
          peek w1 path = Some (json_dumps (touched t1 entries))
          ∧ holds w2 path (json_dumps (touched t2 entries)))).
Proof.
  intros path. split.
  - intros Hpeek r. subst r. rewrite update_unfold. cbv zeta.
    fold path. rewrite Hpeek. simpl.
    rewrite (read_content_absent _ _ Hpeek).
    rewrite (refreshes_bucket _ _ (read_content_refreshes path w)). eauto.
  - intros content entries Hrel Hcontent Hloads w1 w2.
    destruct (update_once domain t1 w content entries Hrel Hcontent Hloads)
      as (Hraises1 & Hholds1 & Hpeek1). fold w1 path in Hraises1, Hholds1, Hpeek1.
    split; [done|].
    split; [intros t; apply dict_get_set_eq|].
    split; [intros t k Hk; by apply dict_get_set_ne|].
    split; [intros t; apply keys_dict_set|].
    intros Hround Hne Hnl. specialize (Hpeek1 Hnl). split; [done|].
    assert (reliable w1 path) as Hrel1.
    { unfold reliable. by rewrite Hraises1. }
    assert (nonempty (peek w1 path) = Some (json_dumps (touched t1 entries))) as Hc1.
    { rewrite Hpeek1. simpl. by apply String.eqb_neq in Hne as ->. }
    destruct (update_once domain t2 w1 _ _ Hrel1 Hc1 Hround)
      as (Hraises2 & Hholds2 & _). fold w2 path in Hraises2, Hholds2.
    unfold touched in Hholds2 at 1. by rewrite dict_set_set in Hholds2.
Qed.

(** C7, amended. The metadata [save_scraper] stores holds, as [domain], the
    [netloc] of the example url, and that url as [example_url]; when the url
    begins with [http://] or [https://], that domain and a slash, the stored
    [url_pattern] matches it. *)
Theorem stored_pattern_matches_example code url selectors site_name scraper_type
    t1 t2 d w :
  urlparse_netloc url = Some d →
  raises w LocalWrite (metadata_path_of d scraper_type) = false →
  startswith url ("http://" +:+ d +:+ "/") || startswith url ("https://" +:+ d +:+ "/")
    = true →
  let w' := snd (save_scraper code url selectors site_name scraper_type t1 t2 w) in
  ∃ entries pattern,
    local w' !! metadata_path_of d scraper_type = Some (json_dumps (JDict entries))
    ∧ dict_get "domain" entries = Some (JStr d)
    ∧ dict_get "example_url" entries = Some (JStr url)
    ∧ dict_get "url_pattern" entries = Some (JStr pattern)
    ∧ Ref.re_match pattern url = Some true.
Proof.
  intros Hd Hw Hprefix w'. subst w'.
  rewrite (RepositoryFacts.save_scraper_unfold _ _ _ _ _ _ _ _ _ Hd). simpl snd.
  fold (metadata_path_of d scraper_type).
  eexists _, (url_pattern d). split; [|split; [|split; [|split]]].
  - simpl. rewrite save_content_local. simpl.
    rewrite save_content_raises, Hw. apply lookup_insert_eq.
  - done.
  - done.
  - done.
  - by rewrite RegexFacts.url_pattern_matches, Hprefix.
Qed.

End WithLibrary.

#[local] Existing Instance py_ref.

(** C7, as stated, fails: for a url with another scheme, and for a url
    that ends with the host, the stored pattern does not match the stored
    example url. *)
Lemma stored_pattern_misses_example :
  pattern_misses "ftp://example.org/a" ∧ pattern_misses "https://example.org".
Proof.
  split; vm_compute; (split; [done|]); do 2 eexists; repeat split.
Qed.

End WriterFacts.

(** ** The properties at sample inputs *)

Module Witnesses.
Import Py Value Storage Saver Repository View Samples.
Import SandboxFacts StorageFacts RepositoryFacts WriterFacts.
#[local] Existing Instance py_ref.

Lemma save_then_get_witness :
  urlparse_netloc "https://example.org/a" = Some "example.org"
  ∧ reliable (local_only ∅) (scraper_rel "example.org")
  ∧ loads_as_written (local_only ∅) "scraper_example.org"
      (scraper_rel "example.org") sample_scraper (clock (local_only ∅))
  ∧ fst (get_scraper "example.org"
           (snd (save_scraper sample_scraper "https://example.org/a"
                   (JDict [("title", JStr "h1")]) None "single" "t1" "t2"
                   (local_only ∅))))
    = Ret (mkModule "scraper_example.org" sample_scraper).
Proof.
  assert (urlparse_netloc "https://example.org/a" = Some "example.org") as Hd
    by reflexivity.
  assert (reliable (local_only ∅) (scraper_rel "example.org")) as Hrel
    by (repeat split).
  assert (loads_as_written (local_only ∅) "scraper_example.org"
            (scraper_rel "example.org") sample_scraper (clock (local_only ∅)))
    as Hload by (repeat split).
  split; [exact Hd|]. split; [exact Hrel|]. split; [exact Hload|].
  exact (proj2 (save_then_get sample_scraper "https://example.org/a"
                  (JDict [("title", JStr "h1")]) None "t1" "t2" "example.org"
                  (local_only ∅) Hd Hrel Hload)).
Defined.

Lemma domain_key_collision_witness :
  fst (get_scraper "a.b"
         (snd (save_scraper scraper_v2 "https://a_b/y" (JDict []) None "single" "t3" "t4"
            (snd (save_scraper scraper_v1 "https://a.b/x" (JDict []) None "single" "t1" "t2"
               (local_only ∅))))))
  = Ret (mkModule "scraper_a.b" scraper_v2).
Proof.
  refine (proj1 (proj2 (proj2 (proj2
    (domain_key_collision scraper_v1 scraper_v2 "https://a.b/x" "https://a_b/y"
       (JDict []) (JDict []) None None "t1" "t2" "t3" "t4" "a.b" "a_b"
       (local_only ∅) _ _ _ _ _ _))))).
  - reflexivity.
  - reflexivity.
  - reflexivity.
  - repeat split.
  - repeat split.
  - repeat split.
Defined.

Lemma pipeline_all_or_nothing_witness :
  fst (has_scraper_pipeline "example.org" pipeline_store) = Ret true
  ∧ fst (has_scraper_pipeline "example.org" pipeline_store)
    = Ret (returns (get_scraper_pipeline "example.org" pipeline_store)).
Proof.
  split; [vm_compute; reflexivity|].
  refine (proj2 (proj2 (proj2 (proj2
    (pipeline_all_or_nothing "example.org" pipeline_store)) _ _) _ _)).
  - split; [intros op; reflexivity|exact I].
  - split; [intros op; reflexivity|exact I].
  - intros _. eexists. vm_compute. reflexivity.
  - intros _. eexists. vm_compute. reflexivity.
Defined.


Lemma corrupt_metadata_skipped_witness :
  scan_patterns "https://example.org/a" ["metadata/example_org.json"] corrupt_store
  = scan_patterns "https://example.org/a" []
      (add_log (WARNING, "Corrupt metadata file: metadata/example_org.json")
         (snd (read_content "metadata/example_org.json" corrupt_store))).
Proof.
  refine (proj1 (proj2 (proj2
    (corrupt_metadata_skipped "https://example.org/a" corrupt_store
       "metadata/example_org.json" [] [] [] ∅ _)))).
  vm_compute. reflexivity.
Defined.

Lemma stored_pattern_matches_example_witness :
  ∃ entries pattern,
    local (snd (save_scraper "CODE" "https://example.org/a" (JDict []) None "single"
                  "t1" "t2" (local_only ∅)))
      !! metadata_path_of "example.org" "single" = Some (json_dumps (JDict entries))
    ∧ dict_get "domain" entries = Some (JStr "example.org")
    ∧ dict_get "example_url" entries = Some (JStr "https://example.org/a")
    ∧ dict_get "url_pattern" entries = Some (JStr pattern)
    ∧ Ref.re_match pattern "https://example.org/a" = Some true.
Proof.
  refine (stored_pattern_matches_example "CODE" "https://example.org/a" (JDict [])
            None "single" "t1" "t2" "example.org" (local_only ∅) _ _ _);
    reflexivity.
Defined.

Lemma touch_validated_frame_witness :
  let entries :=
    [ ("domain", JStr "example.org"); ("site_name", JStr "example.org");
      ("scraper_type", JStr "single");
      ("url_pattern", JStr (url_pattern "example.org"));
      ("example_url", JStr "https://example.org/a");
      ("fields", JList [JStr "title"]);
      ("selectors", JDict [("title", JStr "h1")]);
      ("created_at", JStr "2026-01-01T00:00:00");
      ("last_validated", JStr "2026-01-01T00:00:00");
      ("version", JStr "1.0") ] in
  let w1 := snd (update_scraper_validation "example.org" "2026-02-02T00:00:00"
                   validated_store) in
  let w2 := snd (update_scraper_validation "example.org" "2026-03-03T00:00:00" w1) in
  holds w1 (metadata_rel "example.org")
    (json_dumps (touched "2026-02-02T00:00:00" entries))
  ∧ holds w2 (metadata_rel "example.org")
      (json_dumps (touched "2026-03-03T00:00:00" entries)).
Proof.
  intros entries w1 w2.
  pose proof (proj2 (touch_validated_frame "example.org" "2026-02-02T00:00:00"
                       "2026-03-03T00:00:00" validated_store)
                (json_dumps (JDict entries)) entries) as Hframe.
  cbv zeta in Hframe.
  destruct Hframe as (Honce & _ & _ & _ & Htwice).
  - repeat split.
  - vm_compute. reflexivity.
  - vm_compute. reflexivity.
  - split; [exact Honce|].
    refine (proj2 (Htwice _ _ _)).
    + vm_compute. reflexivity.
    + vm_compute. discriminate.
    + vm_compute. reflexivity.
Defined.

End Witnesses.

(** ** The cleaning of submitted code *)

Module CleaningFacts.
Import Py PyFacts Sandbox Samples SandboxFacts.

Lemma join_nl_String c l ls :
  join_nl (String c l :: ls) = String c (join_nl (l :: ls)).
Proof. by destruct ls. Qed.

Lemma join_split s : join_nl (split_nl s) = s.
Proof.
  induction s as [|c s IH]; [done|]. cbn [split_nl].
  destruct (Ascii.eqb c "010") eqn:Hc.
  - apply Ascii.eqb_eq in Hc as ->.
    pose proof (split_nl_nonempty s) as Hne.
    destruct (split_nl s) as [|l ls] eqn:Hs; [done|].
    cbn [join_nl]. by rewrite <- IH.
  - pose proof (split_nl_nonempty s) as Hne.
    destruct (split_nl s) as [|l ls] eqn:Hs; [done|].
    by rewrite join_nl_String, IH.
Qed.

Lemma contains_nl_String c l :
  contains nl (String c l) = Ascii.eqb "010" c || contains nl l.
Proof. cbn [contains startswith nl]. by destruct (Ascii.eqb "010" c). Qed.

Lemma split_nl_one_line s : Forall one_line (split_nl s).
Proof.
  induction s as [|c s IH]; [by repeat constructor|]. cbn [split_nl].
  destruct (Ascii.eqb c "010") eqn:Hc; [by constructor|].
  pose proof (split_nl_nonempty s) as Hne.
  destruct (split_nl s) as [|l ls]; [done|].
  inversion_clear IH as [|?? Hl Hls]. constructor; [|done].
  unfold one_line in *. rewrite contains_nl_String, Hl.
  rewrite Ascii.eqb_sym, Hc. done.
Qed.

Lemma split_join ls :
  ls ≠ [] → Forall one_line ls → split_nl (join_nl ls) = ls.
Proof.
  intros Hne Hall. induction Hall as [|l ls Hl Hls IH]; [done|].
  clear Hne. destruct ls as [|l' ls].
  - clear IH Hls. cbn [join_nl]. induction l as [|c l IHl]; [done|].
    unfold one_line in *. rewrite contains_nl_String in Hl.
    apply orb_false_iff in Hl as [Hc Hl]. cbn [split_nl].
    rewrite Ascii.eqb_sym, Hc, (IHl Hl). done.
  - specialize (IH ltac:(done)).
    change (join_nl (l :: l' :: ls)) with (l +:+ nl +:+ join_nl (l' :: ls)).
    rewrite split_nl_join, IH.
    assert (split_nl l = [l]) as ->; [|done].
    clear -Hl. induction l as [|c l IHl]; [done|].
    unfold one_line in *. rewrite contains_nl_String in Hl.
    apply orb_false_iff in Hl as [Hc Hl]. cbn [split_nl].
    rewrite Ascii.eqb_sym, Hc, (IHl Hl). done.
Qed.

Lemma clean_step_eq b acc l :
  clean_step (b, acc) l
  = if contains guard_marker l then (true, acc)
    else if b then
      if is_blank l then (true, acc)
      else if starts_unindented l then (false, (acc ++ [l])%list)
      else (true, acc)
    else (false, (acc ++ [l])%list).
Proof. done. Qed.

Lemma clean_fold_acc ls b acc :
  fold_left clean_step ls (b, acc)
  = (fst (fold_left clean_step ls (b, [])),
     (acc ++ snd (fold_left clean_step ls (b, [])))%list).
Proof.
  revert b acc. induction ls as [|l ls IH]; intros b acc.
  { simpl. by rewrite app_nil_r. }
  cbn [fold_left]. rewrite 2!clean_step_eq.
  destruct (contains guard_marker l); [apply IH|].
  destruct b.
  - destruct (is_blank l); [apply IH|].
    destruct (starts_unindented l); [|apply IH].
    rewrite (IH false (acc ++ [l])%list), (IH false ([] ++ [l])%list).
    simpl. by rewrite <- app_assoc.
  - rewrite (IH false (acc ++ [l])%list), (IH false ([] ++ [l])%list).
    simpl. by rewrite <- app_assoc.
Qed.

Lemma clean_fold_kept ls b :
  sublist (snd (fold_left clean_step ls (b, []))) ls
  ∧ Forall (λ l, contains guard_marker l = false)
      (snd (fold_left clean_step ls (b, []))).
Proof.
  revert b. induction ls as [|l ls IH]; intros b; [by split; constructor|].
  cbn [fold_left]. rewrite clean_step_eq.
  destruct (contains guard_marker l) eqn:Hg.
  { destruct (IH true). split; [by apply sublist_cons|done]. }
  assert (sublist (snd (fold_left clean_step ls (false, ([] ++ [l])%list))) (l :: ls)
          ∧ Forall (λ l0, contains guard_marker l0 = false)
              (snd (fold_left clean_step ls (false, ([] ++ [l])%list)))) as Hkeep.
  { rewrite clean_fold_acc. cbn [snd app]. destruct (IH false).
    split; [by apply sublist_skip|by constructor]. }
  destruct b; [|done].
  destruct (is_blank l); [destruct (IH true); split; [by apply sublist_cons|done]|].
  destruct (starts_unindented l); [done|].
  destruct (IH true). split; [by apply sublist_cons|done].
Qed.

Lemma clean_fold_one_line code :
  Forall one_line (snd (fold_left clean_step (split_nl code) (false, []))).
Proof.
  destruct (clean_fold_kept (split_nl code) false) as [Hsub _].
  apply Forall_forall. intros l Hl.
  exact (proj1 (Forall_forall _ _) (split_nl_one_line code) l
           (elem_of_sublist _ _ _ Hl Hsub)).
Qed.

Lemma clean_fold_plain ls :
  Forall (λ l, contains guard_marker l = false) ls →
  fold_left clean_step ls (false, []) = (false, ls).
Proof.
  intros Hall. induction Hall as [|l ls Hl Hls IH]; [done|].
  cbn [fold_left]. rewrite clean_step_eq, Hl.
  rewrite clean_fold_acc, IH. done.
Qed.

Lemma clean_fold_resume rest :
  match rest with [] => True | u :: _ => resumes u = true end →
  snd (fold_left clean_step rest (true, [])) = snd (fold_left clean_step rest (false, [])).
Proof.
  destruct rest as [|u rest]; [done|]. intros Hu.
  cbn [fold_left]. rewrite 2!clean_step_eq. unfold resumes, block_line in Hu.
  destruct (contains guard_marker u); [done|]. simpl in Hu.
  apply negb_true_iff, orb_false_iff in Hu as [-> Hu].
  apply negb_false_iff in Hu as ->. done.
Qed.

(** X1. The cleaning loop of [execute_code] only removes lines: the lines
    it keeps are lines of the submitted code, in their order, and none of
    them contains the guard text [if __name__ ==]. *)
Theorem cleaning_only_removes_lines code :
  let cleaned := snd (clean_lines (split_nl code)) in
  sublist cleaned (split_nl code)
  ∧ Forall (λ l, contains guard_marker l = false) cleaned.
Proof. apply clean_fold_kept. Qed.

Lemma first_line_prefix s l ls p :
  split_nl s = l :: ls → startswith l p = true → startswith s p = true.
Proof.
  revert l ls p. induction s as [|c s IH]; intros l ls p; cbn [split_nl].
  { by intros [= <- <-]. }
  destruct (Ascii.eqb c "010").
  { intros [= <- <-]. by destruct p. }
  pose proof (split_nl_nonempty s) as Hne.
  destruct (split_nl s) as [|l' ls'] eqn:Hs; [done|].
  intros [= <- <-]. destruct p as [|a p]; [done|]. cbn [startswith].
  intros [-> Hp]%andb_true_iff. by rewrite (IH l' ls' p eq_refl Hp).
Qed.

(** A text that does not contain [needle] has no line that does. *)
Lemma contains_false_lines needle s :
  contains needle s = false →
  Forall (λ l, contains needle l = false) (split_nl s).
Proof.
  induction s as [|c s IH]; [by repeat constructor|].
  cbn [contains]. intros [Hstart Hrest]%orb_false_iff.
  specialize (IH Hrest). cbn [split_nl].
  destruct (Ascii.eqb c "010").
  { constructor; [|done]. destruct needle; [done|]. reflexivity. }
  pose proof (split_nl_nonempty s) as Hne.
  destruct (split_nl s) as [|l ls] eqn:Hs; [done|].
  inversion_clear IH as [|?? Hl Hls]. constructor; [|done].
  cbn [contains]. rewrite Hl, orb_false_r.
  destruct needle as [|a needle]; [done|].
  cbn [startswith] in *. destruct (Ascii.eqb a c); [|done]. simpl in *.
  destruct (startswith l needle) eqn:Hp; [|done].
  by rewrite (first_line_prefix s l ls needle Hs Hp) in Hstart.
Qed.

(** X2. Code in which the guard text does not occur is run as submitted:
    cleaning gives back the same text, so the wrapped program is the
    submitted code followed by the harness. *)
Theorem code_without_guard_unchanged code test_url :
  contains guard_marker code = false →
  clean_code code = code
  ∧ wrapped_code code test_url = wrap_code code test_url.
Proof.
  intros Hall%contains_false_lines.
  assert (clean_code code = code) as Hclean.
  { unfold clean_code, clean_lines. rewrite (clean_fold_plain _ Hall). apply join_split. }
  unfold wrapped_code. by rewrite Hclean.
Qed.

(** X3. A guard block is removed with its body wherever it stands: the
    guard line, then the blank or indented lines after it.  What is kept is
    what is kept of the lines before it, then what is kept of the lines after
    the block, when these begin with a line that is neither blank nor
    indented, or with another guard line. *)
Theorem guard_block_in_the_middle pre g block rest :
  contains guard_marker g = true →
  Forall (λ b, block_line b = true) block →
  match rest with [] => True | u :: _ => resumes u = true end →
  snd (clean_lines (pre ++ g :: block ++ rest))
  = (snd (clean_lines pre) ++ snd (clean_lines rest))%list.
Proof.
  intros Hg Hblock Hrest. unfold clean_lines.
  rewrite fold_left_app. cbn [fold_left].
  rewrite (clean_step_guard _ _ Hg), fold_left_app, (clean_block _ _ Hblock).
  rewrite clean_fold_acc. cbn [snd]. by rewrite (clean_fold_resume _ Hrest).
Qed.

(** X4. Cleaning cleaned code changes nothing. *)
Theorem clean_code_idempotent code : clean_code (clean_code code) = clean_code code.
Proof.
  destruct (clean_fold_kept (split_nl code) false) as [Hsub Hplain].
  unfold clean_code at 2 3. unfold clean_lines.
  pose proof (clean_fold_one_line code) as Hone.
  destruct (snd (fold_left clean_step (split_nl code) (false, []))) as [|l ls];
    [by vm_compute|].
  unfold clean_code, clean_lines.
  by rewrite split_join, (clean_fold_plain _ Hplain).
Qed.

Lemma filter_guard_none ls :
  Forall (λ l, contains guard_marker l = false) ls →
  List.filter (contains guard_marker) ls = [].
Proof.
  intros Hall. induction Hall as [|l ls Hl Hls IH]; [done|].
  cbn [List.filter]. by rewrite Hl.
Qed.

Lemma split_nl_join_cons a l ls :
  split_nl (join_nl (a :: l :: ls))
  = (split_nl a ++ split_nl (join_nl (l :: ls)))%list.
Proof.
  change (join_nl (a :: l :: ls)) with (a +:+ nl +:+ join_nl (l :: ls)).
  apply split_nl_join.
Qed.

Lemma clean_code_no_guard code :
  List.filter (contains guard_marker) (split_nl (clean_code code)) = [].
Proof.
  destruct (clean_fold_kept (split_nl code) false) as [Hsub Hplain].
  pose proof (clean_fold_one_line code) as Hone.
  unfold clean_code, clean_lines.
  destruct (snd (fold_left clean_step (split_nl code) (false, []))) as [|l ls];
    [done|].
  rewrite split_join by done. by apply filter_guard_none.
Qed.

(** X5. The program that is run has one guard line, the one of the
    harness, whatever the submitted code holds, as long as the line that
    calls [scrape] on the test url does not itself spell the guard text. *)
Theorem harness_guard_is_the_only_guard code test_url :
  contains guard_marker ("        result = scrape('" +:+ test_url +:+ "')") = false →
  List.filter (contains guard_marker) (split_nl (wrapped_code code test_url))
  = ["if __name__ == '__main__':"].
Proof.
  intros Hline%contains_false_lines%filter_guard_none.
  unfold wrapped_code, wrap_code.
  do 10 rewrite split_nl_join_cons.
  do 10 rewrite List.filter_app.
  rewrite clean_code_no_guard, Hline. reflexivity.
Qed.

End CleaningFacts.

(** ** Saves and reads across the two tiers *)

Module TierFacts.
Import Py Value Storage View Samples StorageFacts.

Lemma holds_remote_hit w path content :
  holds w path content →
  remote_hit w path
  = if bool_decide (is_Some (bucket w)) && negb (raises w GcsExists path)
       && negb (raises w GcsDownload path)
    then Some content else None.
Proof.
  intros [_ Hb]. unfold remote_hit. destruct (bucket w) as [b|]; [|done].
  rewrite (Hb b eq_refl). simpl.
  destruct (raises w GcsExists path); [done|].
  by destruct (raises w GcsDownload path).
Qed.

Lemma save_content_fst path content w :
  fst (save_content path content w)
  = Ret (match bucket w with
         | Some _ => negb (raises w GcsUpload path)
         | None => negb (raises w LocalWrite path)
         end).
Proof.
  rewrite save_content_unfold. simpl.
  destruct (bucket w); [destruct (raises w GcsUpload path)|]; done.
Qed.

Lemma save_content_bucket_is_Some path content w :
  is_Some (bucket (snd (save_content path content w))) ↔ is_Some (bucket w).
Proof.
  rewrite save_content_bucket. destruct (raises w GcsUpload path); [done|].
  by rewrite fmap_is_Some.
Qed.

(** X6. A save followed by a read of the same path, when the local write,
    the upload and the local read of that path do not raise.  The read
    returns the saved content as it is when it comes from the bucket, and
    with universal newlines when it comes from the local file (no bucket, or
    [exists] or the download raising); the local copy holds the content and
    [exists] answers [True]. *)
Theorem saved_content_reads_back path content w :
  reliable w path →
  let w' := snd (save_content path content w) in
  fst (read_content path w')
  = Ret (Some (if bool_decide (is_Some (bucket w))
                  && negb (raises w GcsExists path)
                  && negb (raises w GcsDownload path)
               then content else universal_newlines content))
  ∧ local (snd (read_content path w')) !! path = Some content
  ∧ fst (exists_ path w') = Ret true.
Proof.
  intros (Hw & Hu & Hr) w'.
  pose proof (save_content_holds path content w Hw Hu) as Hholds. fold w' in Hholds.
  pose proof (save_content_raises path content w) as Hraises. fold w' in Hraises.
  pose proof (holds_remote_hit _ _ _ Hholds) as Hhit.
  rewrite Hraises in Hhit.
  assert (bool_decide (is_Some (bucket w')) = bool_decide (is_Some (bucket w))) as Hbk.
  { apply bool_decide_ext, save_content_bucket_is_Some. }
  rewrite Hbk in Hhit. destruct Hholds as [Hl Hb].
  split; [|split].
  - rewrite read_content_fst. unfold peek, read_local_value.
    rewrite Hhit, Hraises, Hr, Hl.
    by destruct (_ && _ && _).
  - rewrite read_content_local_at. unfold local_after_read.
    rewrite Hhit, Hraises, Hw. by destruct (_ && _ && _).
  - rewrite exists_unfold. unfold visible. rewrite Hl, Hraises. simpl.
    destruct (bucket w') as [b|] eqn:Hb'; [|done].
    rewrite (Hb b eq_refl). by destruct (raises w GcsExists path).
Qed.

(** X7. A save whose upload raises while the bucket holds an older version
    returns [False] and leaves the new content in the local file only; the
    next read returns the older version from the bucket and overwrites the
    local file with it. *)
Theorem stale_remote_copy_wins path old new b w :
  bucket w = Some b →
  blobs b !! path = Some old →
  raises w GcsUpload path = true →
  raises w LocalWrite path = false →
  raises w GcsExists path = false →
  raises w GcsDownload path = false →
  let saved := save_content path new w in
  let read := read_content path (snd saved) in
  fst saved = Ret false
  ∧ local (snd saved) !! path = Some new
  ∧ fst read = Ret (Some old)
  ∧ local (snd read) !! path = Some old.
Proof.
  intros Hb Hold Hu Hw He Hd saved read. subst saved read.
  pose proof (save_content_raises path new w) as Hraises.
  pose proof (save_content_bucket path new w) as Hbucket.
  rewrite Hu, Hb in Hbucket.
  assert (remote_hit (snd (save_content path new w)) path = Some old) as Hhit.
  { unfold remote_hit. by rewrite Hbucket, Hraises, He, Hold, Hd. }
  split; [|split; [|split]].
  - by rewrite save_content_fst, Hb, Hu.
  - rewrite save_content_local, Hw. apply lookup_insert_eq.
  - rewrite read_content_fst. unfold peek. by rewrite Hhit.
  - rewrite read_content_local_at. unfold local_after_read.
    by rewrite Hhit, Hraises, Hw.
Qed.

(** X8. A read changes nothing a later read depends on: after a read of [p],
    a read of any path returns what it would have returned before.  The
    bucket is unchanged, no local file other than [p] is touched, and a read
    that returns [None] writes nothing. *)
Theorem reads_are_repeatable p q w :
  let w' := snd (read_content p w) in
  fst (read_content q w') = fst (read_content q w)
  ∧ bucket w' = bucket w
  ∧ (∀ r, r ≠ p → local w' !! r = local w !! r)
  ∧ (fst (read_content p w) = Ret None → local w' = local w).
Proof.
  intros w'. pose proof (read_content_refreshes p w) as Hr. fold w' in Hr.
  split; [|split; [|split]].
  - by rewrite !read_content_fst, (peek_refreshes _ _ _ Hr).
  - apply (refreshes_bucket _ _ Hr).
  - intros r Hne. by apply RepositoryFacts.read_content_local_other.
  - rewrite read_content_fst. intros [= Hpeek]. by apply read_content_absent.
Qed.

Lemma save_content_local_other path content q w :
  q ≠ path → local (snd (save_content path content w)) !! q = local w !! q.
Proof.
  intros Hne. rewrite save_content_local.
  destruct (raises w LocalWrite path); [done|]. by rewrite lookup_insert_ne.
Qed.

Lemma save_content_remote_other path content q w :
  q ≠ path → remote_at (snd (save_content path content w)) q = remote_at w q.
Proof.
  intros Hne. unfold remote_at. rewrite save_content_bucket.
  destruct (raises w GcsUpload path); [done|].
  destruct (bucket w) as [b|]; [|done]. simpl. by rewrite lookup_insert_ne.
Qed.

Lemma remote_hit_remote_at w q :
  remote_hit w q
  = if raises w GcsExists q then None
    else match remote_at w q with
         | Some c => if raises w GcsDownload q then None else Some c
         | None => None
         end.
Proof.
  unfold remote_hit, remote_at. destruct (bucket w); [done|].
  by destruct (raises w GcsExists q).
Qed.

Lemma visible_remote_at w q :
  visible w q
  = if bool_decide (is_Some (bucket w)) && negb (raises w GcsExists q)
    then bool_decide (is_Some (remote_at w q))
    else bool_decide (is_Some (local w !! q)).
Proof.
  unfold visible, remote_at. destruct (bucket w); [|done].
  by destruct (raises w GcsExists q).
Qed.

Lemma save_content_peek_other path content q w :
  q ≠ path → peek (snd (save_content path content w)) q = peek w q.
Proof.
  intros Hne. unfold peek, read_local_value.
  rewrite !remote_hit_remote_at, save_content_raises.
  by rewrite save_content_remote_other, save_content_local_other.
Qed.

(** X9. A save to [path] leaves every other path as it was in both tiers:
    the same local file, the same blob, the same answers from [read_content]
    and [exists]. *)
Theorem save_leaves_other_paths path content q w :
  q ≠ path →
  let w' := snd (save_content path content w) in
  local w' !! q = local w !! q
  ∧ remote_at w' q = remote_at w q
  ∧ fst (read_content q w') = fst (read_content q w)
  ∧ fst (exists_ q w') = fst (exists_ q w).
Proof.
  intros Hne w'. subst w'.
  split; [by apply save_content_local_other|].
  split; [by apply save_content_remote_other|]. split.
  - by rewrite !read_content_fst, save_content_peek_other.
  - rewrite !exists_unfold. simpl. rewrite !visible_remote_at.
    rewrite save_content_raises, save_content_remote_other,
      save_content_local_other by done.
    by rewrite (bool_decide_ext _ _ (save_content_bucket_is_Some path content w)).
Qed.

(** X10. Read-through caching: content read from the bucket, with the cache
    write and the local read not raising, is still returned (with universal
    newlines) by a read made while every call to the bucket raises.  Without
    the earlier read, such a read returns only what the local file held. *)
Theorem cached_copy_served_in_outage path c w :
  remote_hit w path = Some c →
  raises w LocalWrite path = false →
  raises w LocalRead path = false →
  fst (read_content path w) = Ret (Some c)
  ∧ fst (read_content path (outage (snd (read_content path w))))
    = Ret (Some (universal_newlines c))
  ∧ fst (read_content path (outage w)) = Ret (universal_newlines <$> local w !! path).
Proof.
  intros Hhit Hw Hr.
  assert (∀ w0, remote_hit (outage w0) path = None) as Hout.
  { intros w0. unfold remote_hit, outage. simpl. by destruct (bucket w0). }
  split; [|split].
  - rewrite read_content_fst. unfold peek. by rewrite Hhit.
  - rewrite read_content_fst. unfold peek, read_local_value. rewrite Hout.
    change (raises (outage ?w0) LocalRead path) with (raises w0 LocalRead path).
    change (local (outage ?w0)) with (local w0).
    rewrite (refreshes_raises _ _ (read_content_refreshes path w)), Hr.
    rewrite read_content_local_at. unfold local_after_read. by rewrite Hhit, Hw.
  - rewrite read_content_fst. unfold peek, read_local_value. rewrite Hout.
    change (raises (outage ?w0) LocalRead path) with (raises w0 LocalRead path).
    change (local (outage ?w0)) with (local w0). by rewrite Hr.
Qed.

End TierFacts.

(** ** The writer, the saving tool and the metadata *)

Module ToolFacts.
Import Py Value Storage Saver Repository Tools View Samples.
Import PyFacts StorageFacts RepositoryFacts WriterFacts TierFacts.

Lemma startswith_longer s c t : startswith s (s +:+ String c t) = false.
Proof.
  induction s as [|x s IH]; [done|].
  change (String x s +:+ String c t) with (String x (s +:+ String c t)).
  cbn [startswith]. by rewrite Ascii.eqb_refl, IH.
Qed.

Section WithLibrary.
Context `{PyLib}.

Lemma save_scraper_frame code url selectors site_name scraper_type t1 t2 d w :
  urlparse_netloc url = Some d →
  let w' := snd (save_scraper code url selectors site_name scraper_type t1 t2 w) in
  raises w' = raises w
  ∧ ((∀ p, raises w LocalWrite p = true) → local w' = local w)
  ∧ ((∀ p, raises w GcsUpload p = true) → bucket w' = bucket w).
Proof.
  intros Hd. cbv zeta.
  rewrite (save_scraper_unfold _ _ _ _ _ _ _ _ _ Hd). simpl snd.
  split; [|split].
  - simpl. rewrite save_content_raises. simpl. by rewrite save_content_raises.
  - intros Hw. simpl. rewrite save_content_local. simpl.
    by rewrite save_content_raises, Hw, save_content_local, Hw.
  - intros Hu. simpl. rewrite save_content_bucket. simpl.
    by rewrite save_content_raises, Hu, save_content_bucket, Hu.
Qed.


(** X12. [save_scraper_to_repository] reports success, with the message
    naming the domain and the type, for every url [urlparse] accepts and
    every state of the storage, also when nothing could be written.  For a
    url [urlparse] rejects, the [ValueError] comes from the log line before
    the [try] and leaves the function. *)
Theorem tool_save_outcome code url selectors site_name scraper_type t1 t2 w :
  fst (save_scraper_to_repository code url selectors site_name scraper_type t1 t2 w)
  = match urlparse_netloc url with
    | Some d =>
        let base := filename_base d scraper_type in
        Ret (Saved ("Scraper saved successfully for domain: " +:+ d
                    +:+ " (type: " +:+ scraper_type +:+ ")")
                   (path_join (repo_root w) ("scrapers/" +:+ base +:+ ".py"))
                   (path_join (repo_root w) ("metadata/" +:+ base +:+ ".json"))
                   d scraper_type)
    | None => Raise ValueError
    end.
Proof.
  unfold save_scraper_to_repository, except_Exception, netloc.
  destruct (urlparse_netloc url) as [d|] eqn:Hd; [|done]. munfold.
  rewrite (save_scraper_unfold _ _ _ _ _ _ _ _ _ Hd). done.
Qed.

Lemma get_scraper_metadata_fst d w :
  fst (get_scraper_metadata d w)
  = match nonempty (peek w (metadata_rel d)) with
    | None => Ret (JDict [])
    | Some content =>
        match json_loads content with
        | Some metadata => Ret metadata
        | None => Raise (loads_exn (json_error content))
        end
    end.
Proof.
  unfold get_scraper_metadata. fold (metadata_rel d). cbv zeta. munfold.
  pose proof (read_content_fst (metadata_rel d) w) as Hfst.
  destruct (read_content (metadata_rel d) w) as [o w1]. simpl in *. subst o.
  destruct (nonempty (peek w (metadata_rel d))) as [content|]; [|done].
  by destruct (json_loads content).
Qed.

Lemma get_scraper_metadata_snd d w :
  snd (get_scraper_metadata d w) = snd (read_content (metadata_rel d) w).
Proof.
  unfold get_scraper_metadata. fold (metadata_rel d). cbv zeta. munfold.
  pose proof (read_content_fst (metadata_rel d) w) as Hfst.
  destruct (read_content (metadata_rel d) w) as [o w1]. simpl in *. subst o.
  destruct (nonempty (peek w (metadata_rel d))) as [content|]; [|done].
  by destruct (json_loads content).
Qed.

Lemma save_scraper_metadata_holds code url selectors site_name scraper_type t1 t2 d w :
  urlparse_netloc url = Some d →
  let path := metadata_path_of d scraper_type in
  raises w LocalWrite path = false →
  raises w GcsUpload path = false →
  let w' := snd (save_scraper code url selectors site_name scraper_type t1 t2 w) in
  raises w' = raises w
  ∧ holds w' path
      (json_dumps (metadata_of d url selectors site_name scraper_type t1 t2)).
Proof.
  intros Hd path Hw Hu w'. subst w'.
  split;
    [exact (proj1 (save_scraper_frame code url selectors site_name scraper_type
                     t1 t2 d w Hd))|].
  rewrite (save_scraper_unfold _ _ _ _ _ _ _ _ _ Hd). simpl snd.
  fold (metadata_path_of d scraper_type). fold path.
  destruct (save_content_holds path
    (json_dumps (metadata_of d url selectors site_name scraper_type t1 t2))
    (add_log (INFO, "Saved scraper code for " +:+ d +:+ " to "
                    +:+ "scrapers/" +:+ filename_base d scraper_type +:+ ".py")
       (snd (save_content ("scrapers/" +:+ filename_base d scraper_type +:+ ".py")
               code w)))) as [Hl Hb].
  - simpl. by rewrite save_content_raises.
  - simpl. by rewrite save_content_raises.
  - split; [exact Hl|exact Hb].
Qed.

(** X13. The metadata of a scraper saved with the default type is what
    [get_scraper_metadata] returns for the domain of the url, when the calls
    on the metadata path do not raise and [json.loads] gives back the object
    [json.dumps] was given. *)
Theorem saved_metadata_reads_back code url selectors site_name t1 t2 d w :
  urlparse_netloc url = Some d →
  reliable w (metadata_rel d) →
  let metadata := metadata_of d url selectors site_name "single" t1 t2 in
  json_loads (json_dumps metadata) = Some metadata →
  json_dumps metadata ≠ "" →
  universal_newlines (json_dumps metadata) = json_dumps metadata →
  fst (get_scraper_metadata d
         (snd (save_scraper code url selectors site_name "single" t1 t2 w)))
  = Ret metadata.
Proof.
  intros Hd (Hw & Hu & Hr) metadata Hround Hne Hnl.
  destruct (save_scraper_metadata_holds code url selectors site_name "single" t1 t2 d w Hd)
    as [Hraises Hholds]; [done..|].
  rewrite get_scraper_metadata_fst.
  change (metadata_path_of d "single") with (metadata_rel d) in Hholds.
  rewrite (peek_holds _ _ _ ltac:(by rewrite Hraises) Hnl Hholds).
  simpl. apply String.eqb_neq in Hne as ->. by rewrite Hround.
Qed.

(** X14. [get_scraper_metadata] never raises [FileNotFoundError]: a domain
    with no metadata, or with an empty metadata file, gives the empty
    dictionary, and content that does not parse raises what [json.loads]
    raised ([JSONDecodeError] for text that is not well-formed JSON,
    [ValueError] for an integer over the digit limit, [RecursionError] for
    nesting too deep).  For a domain with nothing stored the lookup writes
    nothing, while [get_scraper] raises [FileNotFoundError]. *)
Theorem metadata_lookup_outcome d w :
  let r := get_scraper_metadata d w in
  (∀ m, fst r ≠ Raise (FileNotFoundError m))
  ∧ (peek w (metadata_rel d) = None ∨ peek w (metadata_rel d) = Some "" →
     fst r = Ret (JDict []))
  ∧ (∀ content, peek w (metadata_rel d) = Some content → content ≠ "" →
       fst r = match json_loads content with
               | Some metadata => Ret metadata
               | None => Raise (loads_exn (json_error content))
               end)
  ∧ (peek w (metadata_rel d) = None → peek w (scraper_rel d) = None →
     local (snd r) = local w ∧ bucket (snd r) = bucket w
     ∧ fst (get_scraper d w)
       = Raise (FileNotFoundError ("No scraper found for domain: " +:+ d))).
Proof.
  intros r. subst r. rewrite get_scraper_metadata_fst, get_scraper_metadata_snd.
  split; [|split; [|split]].
  - intros m. destruct (nonempty _) as [c|]; [|done].
    destruct (json_loads c); [done|]. by destruct (json_error c).
  - by intros [->| ->].
  - intros content -> Hne. simpl. by apply String.eqb_neq in Hne as ->.
  - intros Hm Hs. split; [by apply read_content_absent|]. split.
    + apply (refreshes_bucket _ _ (read_content_refreshes _ _)).
    + by rewrite get_scraper_fst, Hs.
Qed.

(** X15. [update_scraper_validation] never raises and touches one file:
    every other path keeps its local file and its blob.  When what is read
    is not a JSON object (it does not parse, or parses to another value),
    nothing is saved: the bucket is unchanged, the local file is what the
    read left, and the error is logged last. *)
Theorem touch_writes_one_file_only domain now w :
  let path := metadata_rel domain in
  let r := update_scraper_validation domain now w in
  fst r = Ret tt
  ∧ raises (snd r) = raises w
  ∧ (∀ q, q ≠ path →
       local (snd r) !! q = local w !! q ∧ remote_at (snd r) q = remote_at w q)
  ∧ (∀ content,
       nonempty (peek w path) = Some content →
       (∀ entries, json_loads content ≠ Some (JDict entries)) →
       bucket (snd r) = bucket w
       ∧ local (snd r) !! path = local_after_read w path
       ∧ ∃ earlier, log (snd r)
           = (earlier ++ [(ERROR, "Failed to update validation timestamp for "
                                  +:+ domain)])%list).
Proof.
  intros path r. subst r. rewrite update_unfold. cbv zeta. fold path.
  pose proof (read_content_refreshes path w) as Hr.
  pose proof (RepositoryFacts.read_content_local_other path) as Hother.
  pose proof (read_content_local_at path w) as Hat.
  set (w1 := snd (read_content path w)) in *.
  assert (∀ q, remote_at w1 q = remote_at w q) as Hremote.
  { intros q. unfold remote_at. by rewrite (refreshes_bucket _ _ Hr). }
  destruct (nonempty (peek w path)) as [content|] eqn:Hc.
  2:{ split; [done|]. split; [apply (refreshes_raises _ _ Hr)|].
      split; [|done]. intros q Hq. split; [by apply Hother|apply Hremote]. }
  destruct (json_loads content) as [[| | | | | |entries]|] eqn:Hl.
  7:{ split; [done|]. split.
      { simpl. rewrite save_content_raises. apply (refreshes_raises _ _ Hr). }
      split.
      - intros q Hq. simpl. split.
        + rewrite save_content_local_other by done. by apply Hother.
        + change (remote_at (add_log ?e ?w0) q) with (remote_at w0 q).
          rewrite save_content_remote_other by done. apply Hremote.
      - intros c [= <-] Hno. by destruct (Hno entries). }
  all: split; [done|]; split; [apply (refreshes_raises _ _ Hr)|]; split;
    [intros q Hq; split; [by apply Hother|apply Hremote]|];
    intros c [= <-] _; split; [apply (refreshes_bucket _ _ Hr)|];
    split; [exact Hat|eauto].
Qed.

(** X16. After [save_scraper] and then [update_scraper_validation] for the
    domain of the url, [get_scraper_metadata] returns the saved metadata with
    [last_validated] replaced by the time of the update and every other
    field, [created_at] included, as saved. *)
Theorem validation_touch_after_save code url selectors site_name t1 t2 now d w :
  urlparse_netloc url = Some d →
  reliable w (metadata_rel d) →
  let saved := metadata_of d url selectors site_name "single" t1 t2 in
  let touched := metadata_of d url selectors site_name "single" t1 now in
  json_loads (json_dumps saved) = Some saved →
  json_loads (json_dumps touched) = Some touched →
  json_dumps saved ≠ "" →
  json_dumps touched ≠ "" →
  universal_newlines (json_dumps saved) = json_dumps saved →
  universal_newlines (json_dumps touched) = json_dumps touched →
  let w1 := snd (save_scraper code url selectors site_name "single" t1 t2 w) in
  let w2 := snd (update_scraper_validation d now w1) in
  fst (get_scraper_metadata d w1) = Ret saved
  ∧ fst (get_scraper_metadata d w2) = Ret touched.
Proof.
  intros Hd Hrel saved touched Hround1 Hround2 Hne1 Hne2 Hnl1 Hnl2 w1 w2.
  pose proof Hrel as (Hw & Hu & Hr).
  destruct (save_scraper_metadata_holds code url selectors site_name "single" t1 t2 d w Hd)
    as [Hraises Hholds]; [done..|].
  fold w1 in Hraises, Hholds.
  change (metadata_path_of d "single") with (metadata_rel d) in Hholds.
  fold saved in Hholds.
  assert (peek w1 (metadata_rel d) = Some (json_dumps saved)) as Hpeek1.
  { apply peek_holds; [by rewrite Hraises|done..]. }
  assert (nonempty (Some (json_dumps saved)) = Some (json_dumps saved)) as Hnon1.
  { simpl. by apply String.eqb_neq in Hne1 as ->. }
  split.
  { by rewrite get_scraper_metadata_fst, Hpeek1, Hnon1, Hround1. }
  destruct (update_once d now w1 (json_dumps saved)
              [ ("domain", JStr d);
                ("site_name", JStr (match nonempty site_name with
                                    | Some name => name
                                    | None => d
                                    end));
                ("scraper_type", JStr "single");
                ("url_pattern", JStr (url_pattern d));
                ("example_url", JStr url);
                ("fields", JList match selectors with
                                 | JDict entries => map JStr (keys entries)
                                 | _ => []
                                 end);
                ("selectors", selectors);
                ("created_at", JStr t1);
                ("last_validated", JStr t2);
                ("version", JStr "1.0") ])
    as (_ & _ & Hpeek2).
  - unfold reliable. by rewrite Hraises.
  - by rewrite Hpeek1.
  - exact Hround1.
  - fold w2 in Hpeek2.
    change (View.touched now _) with touched in Hpeek2.
    rewrite get_scraper_metadata_fst, (Hpeek2 Hnl2). simpl.
    apply String.eqb_neq in Hne2 as ->. by rewrite Hround2.
Qed.

End WithLibrary.

(** X17. The pattern [save_scraper] generates for a domain matches exactly
    the texts that begin with [http://] or [https://], the domain and a
    slash.  It matches neither [http://<domain>] nor [https://<domain>]
    without a path. *)
Theorem generated_pattern_language domain s :
  Ref.re_match (url_pattern domain) s
  = Some (startswith s ("http://" +:+ domain +:+ "/")
          || startswith s ("https://" +:+ domain +:+ "/"))
  ∧ Ref.re_match (url_pattern domain) ("https://" +:+ domain) = Some false
  ∧ Ref.re_match (url_pattern domain) ("http://" +:+ domain) = Some false.
Proof.
  split; [apply RegexFacts.url_pattern_matches|].
  split.
  - rewrite RegexFacts.url_pattern_matches. f_equal.
    change ("https://" +:+ domain +:+ "/") with (("https://" +:+ domain) +:+ "/").
    rewrite startswith_longer, orb_false_r. reflexivity.
  - rewrite RegexFacts.url_pattern_matches. f_equal.
    change ("http://" +:+ domain +:+ "/") with (("http://" +:+ domain) +:+ "/").
    rewrite startswith_longer. reflexivity.
Qed.

End ToolFacts.

(** ** Pipelines, the cache and the scans of the resolver *)

Module ScanFacts.
Import Py Value Storage Saver Repository Tools View Samples.
Import PyFacts StorageFacts RepositoryFacts WriterFacts TierFacts ToolFacts.

Lemma length_app (s p : string) :
  String.length (s +:+ p) = String.length s + String.length p.
Proof.
  induction s as [|c s IH]; [done|].
  change (String c s +:+ p) with (String c (s +:+ p)). simpl. by rewrite IH.
Qed.

Lemma substring_all p : String.substring 0 (String.length p) p = p.
Proof. induction p as [|c p IH]; [done|]. simpl. by rewrite IH. Qed.

Lemma substring_app s p :
  String.substring (String.length s) (String.length p) (s +:+ p) = p.
Proof.
  induction s as [|c s IH]; [apply substring_all|].
  change (String c s +:+ p) with (String c (s +:+ p)). simpl. apply IH.
Qed.

Lemma endswith_app s p : endswith (s +:+ p) p = true.
Proof.
  unfold endswith. rewrite length_app.
  replace (String.length s + String.length p - String.length p)
    with (String.length s) by lia.
  rewrite substring_app, String.eqb_refl, andb_true_r.
  apply Nat.leb_le. lia.
Qed.

Lemma visible_refreshes w w' p : refreshes w w' → visible w' p = visible w p.
Proof.
  intros Hr. unfold visible.
  rewrite (refreshes_bucket _ _ Hr), (refreshes_raises _ _ Hr).
  destruct (refreshes_local _ _ Hr p) as [->|(_ & c & Hhit & _)]; [done|].
  unfold remote_hit in Hhit. destruct (bucket w) as [b|]; [|done].
  by destruct (raises w GcsExists p).
Qed.

Lemma holds_visible w path code : holds w path code → visible w path = true.
Proof.
  intros [Hl Hb]. unfold visible. rewrite Hl.
  destruct (bucket w) as [b|]; [|done]. rewrite (Hb b eq_refl).
  by destruct (raises w GcsExists path).
Qed.

Section WithLibrary.
Context `{PyLib}.

Lemma code_path_list d : "scrapers/" +:+ filename_base d "list" +:+ ".py" = list_rel d.
Proof.
  unfold filename_base, domain_to_filename, list_rel. simpl.
  by rewrite !string_app_assoc.
Qed.

Lemma code_path_content d :
  "scrapers/" +:+ filename_base d "content" +:+ ".py" = content_rel d.
Proof.
  unfold filename_base, domain_to_filename, content_rel. simpl.
  by rewrite !string_app_assoc.
Qed.

(** X18. After a list scraper and a content scraper have been saved for
    urls of one domain, [get_scraper_pipeline] returns the two modules with
    the saved sources and [has_scraper_pipeline] answers [True], when the
    writes and the local reads of the two code paths do not raise, each code
    compiles and runs as its module, and no bytecode is cached for either
    file under the time of the save and the size of the code. *)
Theorem saved_pipeline_loads list_code content_code list_url content_url
    sel1 sel2 name1 name2 t1 t2 t3 t4 d w :
  urlparse_netloc list_url = Some d →
  urlparse_netloc content_url = Some d →
  reliable w (list_rel d) →
  reliable w (content_rel d) →
  loads_as_written w ("scraper_" +:+ d +:+ "_list") (list_rel d) list_code (clock w) →
  loads_as_written w ("scraper_" +:+ d +:+ "_content") (content_rel d) content_code
    (clock w) →
  let w1 := snd (save_scraper list_code list_url sel1 name1 "list" t1 t2 w) in
  let w2 := snd (save_scraper content_code content_url sel2 name2 "content" t3 t4 w1) in
  fst (get_scraper_pipeline d w2)
  = Ret (mkModule ("scraper_" +:+ d +:+ "_list") list_code,
         mkModule ("scraper_" +:+ d +:+ "_content") content_code)
  ∧ fst (has_scraper_pipeline d w2) = Ret true.
Proof.
  intros Hl Hc (Hlw & Hlu & Hlr) (Hcw & Hcu & Hcr) Hload_l Hload_c w1 w2.
  pose proof (save_scraper_same_loader list_code list_url sel1 name1 "list"
                t1 t2 d w Hl) as Hs1.
  pose proof (save_scraper_same_loader content_code content_url sel2 name2 "content"
                t3 t4 d w1 Hc) as Hs2.
  fold w1 in Hs1. fold w2 in Hs2.
  pose proof (same_loader_trans _ _ _ Hs1 Hs2) as Hs.
  assert (stamped w1 (list_rel d) list_code) as Hh1.
  { rewrite <- code_path_list.
    apply save_scraper_stamped; rewrite ?code_path_list; done. }
  assert (stamped w2 (list_rel d) list_code) as Hhl.
  { apply (save_scraper_stamped_other _ _ _ _ _ _ _ d); [done| | |done].
    - rewrite code_path_content. apply list_rel_ne_content_rel.
    - unfold list_rel. simpl. discriminate. }
  assert (stamped w2 (content_rel d) content_code) as Hhc.
  { rewrite <- code_path_content.
    apply save_scraper_stamped;
      rewrite ?code_path_content, ?(same_raises _ _ Hs1); done. }
  destruct (loading_stamped w2 ("scraper_" +:+ d +:+ "_list") (list_rel d) list_code)
    as [[cl Hpl] Hal]; [by rewrite (same_raises _ _ Hs)..|done|].
  destruct (loading_stamped w2 ("scraper_" +:+ d +:+ "_content") (content_rel d)
              content_code)
    as [[cc Hpc] Hac]; [by rewrite (same_raises _ _ Hs)..|done|].
  split.
  - rewrite get_scraper_pipeline_fst, Hpl, Hpc.
    unfold load_pair. rewrite Hal, Hac.
    rewrite !(load_outcome_same_loader _ _ _ _ _ _ Hs), (same_clock _ _ Hs).
    by rewrite !load_outcome_written.
  - rewrite has_scraper_pipeline_unfold. simpl.
    by rewrite (holds_visible _ _ _ (proj1 Hhl)), (holds_visible _ _ _ (proj1 Hhc)).
Qed.

(** X19. [get_scraper] loads the local file that the read has refreshed.
    For code held by the bucket, when the cache write and the local read do
    not raise, the code compiles and runs as the module of the domain and no
    bytecode is cached for the file under the time of the read and the size
    of the code: the module has the code of the bucket, whatever the local
    file held before, and afterwards the local file holds that code. *)
Theorem remote_scraper_loads_through_cache d code w :
  let path := scraper_rel d in
  remote_hit w path = Some code →
  raises w LocalRead path = false →
  raises w LocalWrite path = false →
  loads_as_written w ("scraper_" +:+ d) path code (clock w) →
  fst (get_scraper d w) = Ret (mkModule ("scraper_" +:+ d) code)
  ∧ local (snd (get_scraper d w)) !! path = Some code.
Proof.
  intros path Hhit Hr Hw Hloads. subst path. split.
  - rewrite get_scraper_fst. unfold peek, loading, local_after_read, mtime_after_read.
    rewrite Hhit, Hw. by apply load_outcome_written.
  - rewrite get_scraper_local, read_content_local_at. unfold local_after_read.
    by rewrite Hhit, Hw.
Qed.

(** X20. [get_scraper_for_url] looks at the metadata only after
    [get_scraper] on the host of the url has raised [FileNotFoundError]: in
    every other case (a module, or another exception) it is [get_scraper] on
    the host, result and effects. *)
Theorem exact_domain_first url host w :
  urlparse_netloc url = Some host →
  (∀ m, fst (get_scraper host w) ≠ Raise (FileNotFoundError m)) →
  get_scraper_for_url url w = get_scraper host w.
Proof.
  intros Hhost Hfound. unfold get_scraper_for_url, netloc. rewrite Hhost. munfold.
  destruct (get_scraper host w) as [[module|e] w']; [done|].
  destruct e; try done. by destruct (Hfound msg).
Qed.

Lemma scan_patterns_faulty url w path rest :
  classify_entry url w path = Faulty →
  ∃ e, fst (scan_patterns url (path :: rest) w) = Raise e
       ∧ e ∈ [AttributeError; TypeError; KeyError "domain"; ReError].
Proof.
  unfold classify_entry. simpl scan_patterns.
  destruct (endswith path ".json"); simpl; [|done].
  munfold.
  pose proof (read_content_fst path w) as Hfst.
  destruct (read_content path w) as [o w1]. simpl in *. subst o.
  destruct (nonempty (peek w path)) as [content|]; [|done].
  destruct (json_loads content) as [metadata|]; simpl;
    [|by destruct (json_error content)].
  unfold classify_metadata, py_get, pattern_matches, py_subscript, get_scraper_value.
  munfold.
  destruct metadata as [| | | | | |entries];
    try (intros _; eexists; split; [done|set_solver]).
  destruct (from_option id (JStr "") (dict_get "url_pattern" entries))
    as [|b|n|r|pattern|items|kvs] eqn:Hpat; simpl.
  - done.
  - destruct b; [|done]. intros _; eexists; split; [done|set_solver].
  - destruct (n =? 0)%Z; simpl; [done|]. intros _; eexists; split; [done|set_solver].
  - destruct (String.eqb r "0.0" || String.eqb r "-0.0"); simpl; [done|].
    intros _; eexists; split; [done|set_solver].
  - destruct (String.eqb pattern ""); simpl; [done|].
    destruct (re_match pattern url) as [[|]|]; [|done|].
    + destruct (dict_get "domain" entries) as [[| | | |d'| |]|]; try done;
        intros _; simpl; eexists; (split; [done|set_solver]).
    + intros _; eexists; split; [done|set_solver].
  - destruct items; [done|]. intros _; eexists; split; [done|set_solver].
  - destruct kvs; [done|]. intros _; eexists; split; [done|set_solver].
Qed.

(** X21. In the pattern scan a metadata file that parses but cannot be used
    (not an object, a pattern that is not a string or not a valid expression,
    a matching entry without a string [domain]) is not skipped: when the
    entries listed before it contribute nothing, [get_scraper_for_url] raises
    [AttributeError], [TypeError], [KeyError] or [re.error], whatever the
    entries after it hold. *)
Theorem faulty_metadata_stops_resolution url host m w pre p post :
  urlparse_netloc url = Some host →
  fst (get_scraper host w) = Raise (FileNotFoundError m) →
  set_to_list (listed w "metadata/") = (pre ++ p :: post)%list →
  Forall (λ q, classify_entry url w q = Skipped) pre →
  classify_entry url w p = Faulty →
  ∃ e, fst (get_scraper_for_url url w) = Raise e
       ∧ e ∈ [AttributeError; TypeError; KeyError "domain"; ReError].
Proof.
  intros Hhost Hnf Hfiles Hpre Hp.
  destruct (get_scraper_for_url_fallback url host m w Hhost Hnf) as (w1 & Hr & ->).
  rewrite Hfiles. clear Hfiles Hnf.
  revert w1 Hr. induction pre as [|q pre IH]; intros w1 Hr.
  - apply scan_patterns_faulty. by rewrite (classify_entry_refreshes _ _ _ _ Hr).
  - inversion_clear Hpre as [|?? Hq Hpre'].
    rewrite <- app_comm_cons.
    destruct (scan_patterns_skipped url w1 q (pre ++ p :: post)) as (w2 & Hr2 & ->).
    { by rewrite (classify_entry_refreshes _ _ _ _ Hr). }
    apply IH; [done|]. eauto using refreshes_trans.
Qed.

Lemma startswith_metadata_path d scraper_type :
  startswith (metadata_path_of d scraper_type) "metadata/" = true.
Proof. unfold metadata_path_of. apply startswith_app. Qed.

Lemma endswith_metadata_path d scraper_type :
  endswith (metadata_path_of d scraper_type) ".json" = true.
Proof.
  unfold metadata_path_of. rewrite <- !string_app_assoc. apply endswith_app.
Qed.

Lemma uncaught_local w q :
  bucket w = None →
  map_Forall (λ _ content,
                is_Some (json_loads (universal_newlines content))
                ∨ json_error (universal_newlines content) = Malformed) (local w) →
  uncaught w q = None.
Proof.
  intros Hb Hall. unfold uncaught, peek, remote_hit, read_local_value. rewrite Hb.
  destruct (endswith q ".json"); [|done].
  destruct (local w !! q) as [content|] eqn:Hq; [|by destruct (raises _ _ _)].
  destruct (raises w LocalRead q); [done|]. simpl.
  destruct (String.eqb _ ""); [done|].
  destruct (Hall q content Hq) as [[v ->]| ->]; [done|].
  by destruct (json_loads _).
Qed.

Lemma save_scraper_peek_other code url selectors site_name scraper_type t1 t2 d w q :
  urlparse_netloc url = Some d →
  startswith q "metadata/" = true →
  q ≠ metadata_path_of d scraper_type →
  peek (snd (save_scraper code url selectors site_name scraper_type t1 t2 w)) q
  = peek w q.
Proof.
  intros Hd Hq Hne.
  rewrite (save_scraper_unfold _ _ _ _ _ _ _ _ _ Hd). simpl snd.
  change (peek (add_log ?e ?w0) q) with (peek w0 q).
  rewrite save_content_peek_other by done.
  change (peek (add_log ?e ?w0) q) with (peek w0 q).
  apply save_content_peek_other. intros ->. by simpl in Hq.
Qed.

(** X22. The metadata of a saved scraper is among what [list_scrapers]
    returns afterwards, for every scraper type, when the calls on the
    metadata path do not raise, [json.loads] gives back the object
    [json.dumps] was given, raises nothing but [JSONDecodeError] on the
    other metadata files, and [list] of a set holds the elements of the
    set. *)
Theorem saved_scraper_is_listed code url selectors site_name scraper_type t1 t2 d w :
  urlparse_netloc url = Some d →
  (∀ X q, q ∈ set_to_list X ↔ q ∈ X) →
  reliable w (metadata_path_of d scraper_type) →
  (∀ q, q ≠ metadata_path_of d scraper_type → uncaught w q = None) →
  let metadata := metadata_of d url selectors site_name scraper_type t1 t2 in
  json_loads (json_dumps metadata) = Some metadata →
  json_dumps metadata ≠ "" →
  universal_newlines (json_dumps metadata) = json_dumps metadata →
  ∃ scrapers,
    fst (list_scrapers (snd (save_scraper code url selectors site_name scraper_type
                               t1 t2 w)))
      = Ret scrapers
    ∧ metadata ∈ scrapers.
Proof.
  intros Hd Hlist (Hw & Hu & Hr) Hothers metadata Hround Hne Hnl.
  destruct (save_scraper_metadata_holds code url selectors site_name scraper_type
              t1 t2 d w Hd Hw Hu) as [Hraises Hholds].
  pose proof (λ q, save_scraper_peek_other code url selectors site_name scraper_type
                     t1 t2 d w q Hd) as Hpeek.
  set (w' := snd (save_scraper _ _ _ _ _ _ _ w)) in *.
  assert (peek w' (metadata_path_of d scraper_type) = Some (json_dumps metadata))
    as Hsaved by (apply peek_holds; [by rewrite Hraises|done..]).
  eexists. split.
  - apply list_scrapers_fst, Forall_forall. intros q Hq%Hlist%elem_of_listed.
    destruct (decide (q = metadata_path_of d scraper_type)) as [->|Hne'].
    + unfold uncaught. rewrite endswith_metadata_path, Hsaved. simpl.
      apply String.eqb_neq in Hne as ->. by rewrite Hround.
    + specialize (Hothers q Hne'). unfold uncaught in *.
      by rewrite Hpeek by tauto.
  - apply list_elem_of_omap. exists (metadata_path_of d scraper_type). split.
    + apply Hlist, elem_of_listed. split; [apply startswith_metadata_path|].
      left. destruct Hholds as [-> _]. eauto.
    + unfold entry_metadata. rewrite endswith_metadata_path, Hsaved. simpl.
      apply String.eqb_neq in Hne as ->. exact Hround.
Qed.

Lemma pipeline_summary_domain d metadata content_metadata w summary w' :
  pipeline_summary d metadata content_metadata w = (Ret summary, w') →
  summary_domain summary = Some d ∧ w' = w.
Proof.
  unfold pipeline_summary, py_get. munfold.
  destruct metadata; try done. destruct content_metadata; try done.
  by intros [= <- <-].
Qed.

Lemma pipelines_inv_add w0 pipelines seen summary d :
  pipelines_inv w0 pipelines seen →
  summary_domain summary = Some d →
  d ∉ seen →
  fst (has_scraper_pipeline d w0) = Ret true →
  pipelines_inv w0 (pipelines ++ [summary]) ({[d]} ∪ seen).
Proof.
  intros [Hnd Hall] Hd Hnew Hcomplete. split.
  - rewrite omap_app. simpl. rewrite Hd. simpl.
    apply NoDup_app. split; [done|]. split; [|apply NoDup_singleton].
    intros x Hx ->%list_elem_of_singleton.
    apply list_elem_of_omap in Hx as (s & Hs & Hsd).
    rewrite Forall_forall in Hall. destruct (Hall s Hs) as (d' & Hd' & Hin & _).
    congruence.
  - apply Forall_app. split.
    + eapply Forall_impl; [done|]. intros s (d' & ? & ? & ?). exists d'.
      split; [done|]. split; [set_solver|done].
    + constructor; [|done]. exists d. split; [done|]. split; [set_solver|done].
Qed.

Lemma list_scraper_pipelines_loop_inv w0 files pipelines seen w ps :
  refreshes w0 w →
  pipelines_inv w0 pipelines seen →
  fst (list_scraper_pipelines_loop files pipelines seen w) = Ret ps →
  ∃ seen', pipelines_inv w0 ps seen'.
Proof.
  revert pipelines seen w.
  induction files as [|path files IH]; intros pipelines seen w Hr Hinv.
  { simpl. intros [= <-]. eauto. }
  simpl. destruct (endswith path ".json"); simpl; [|by apply IH].
  munfold.
  pose proof (read_content_refreshes path w) as Hr1.
  destruct (read_content path w) as [[content|e] w1]; simpl in *; [|done].
  assert (refreshes w0 w1) as Hr01 by eauto using refreshes_trans.
  destruct (nonempty content) as [c|]; [|by apply IH].
  destruct (json_loads c) as [metadata|]; [|by apply IH].
  unfold py_get at 1 2. munfold.
  destruct metadata as [| | | | | |entries]; try done.
  destruct (is_str _ "list" && truthy _) eqn:Hcond; [|by apply IH].
  destruct (from_option id (JStr "") (dict_get "domain" entries))
    as [| | | |d| |] eqn:Hdom; try done.
  destruct (bool_decide (d ∈ seen)) eqn:Hseen; [by apply IH|].
  apply bool_decide_eq_false in Hseen.
  rewrite has_scraper_pipeline_unfold.
  destruct (visible w1 (list_rel d) && visible w1 (content_rel d)) eqn:Hvis;
    [|by apply IH].
  pose proof (read_content_refreshes
                ("metadata/" +:+ replace_char "." "_" d +:+ "_content.json") w1) as Hr2.
  destruct (read_content _ w1) as [[content_str|e] w2]; simpl in *; [|done].
  assert (refreshes w0 w2) as Hr02 by eauto using refreshes_trans.
  assert (fst (has_scraper_pipeline d w0) = Ret true) as Hcomplete.
  { rewrite has_scraper_pipeline_unfold. simpl.
    by rewrite <- !(visible_refreshes _ _ _ Hr01), Hvis. }
  assert (∀ content_metadata,
    fst (match pipeline_summary d (JDict entries) content_metadata w2 with
         | (Ret a, w') =>
             list_scraper_pipelines_loop files (pipelines ++ [a]) ({[d]} ∪ seen) w'
         | (Raise e, w') => (Raise e, w')
         end) = Ret ps → ∃ seen', pipelines_inv w0 ps seen') as Hstep.
  { intros content_metadata.
    destruct (pipeline_summary d (JDict entries) content_metadata w2)
      as [[summary|e] w3] eqn:Hsum; [|done].
    apply pipeline_summary_domain in Hsum as [Hsd ->].
    apply IH; [done|]. by apply pipelines_inv_add. }
  destruct (nonempty content_str) as [c'|]; [|apply Hstep].
  destruct (json_loads c') as [content_metadata|]; [apply Hstep|done].
Qed.

(** X23. What [list_scraper_pipelines] returns holds at most one summary
    per domain, and each summary is for a domain for which
    [has_scraper_pipeline] answers [True]. *)
Theorem listed_pipelines_are_distinct_and_complete w ps :
  fst (list_scraper_pipelines w) = Ret ps →
  NoDup (omap summary_domain ps)
  ∧ Forall (λ s, ∃ d, summary_domain s = Some d
                      ∧ fst (has_scraper_pipeline d w) = Ret true) ps.
Proof.
  unfold list_scraper_pipelines. munfold.
  pose proof (list_files_refreshes "metadata/" w) as Hr.
  destruct (list_files "metadata/" w) as [[files|e] w1]; simpl in *; [|done].
  intros Hret.
  destruct (list_scraper_pipelines_loop_inv w files [] ∅ w1 ps Hr) as (seen' & Hnd & Hall).
  - split; simpl; constructor.
  - done.
  - split; [done|]. eapply Forall_impl; [done|].
    intros s (d & ? & _ & ?). eauto.
Qed.

End WithLibrary.
End ScanFacts.

(** ** These properties at sample inputs *)

Module Instances.
Import Py Value Sandbox Storage Saver Repository Tools View Samples.
Import CleaningFacts TierFacts ToolFacts ScanFacts.
#[local] Existing Instance py_ref.

Lemma code_without_guard_unchanged_witness :
  clean_code sample_scraper = sample_scraper
  ∧ wrapped_code sample_scraper "https://example.org/b"
    = wrap_code sample_scraper "https://example.org/b".
Proof.
  apply (code_without_guard_unchanged sample_scraper "https://example.org/b").
  reflexivity.
Defined.

Lemma harness_guard_is_the_only_guard_witness :
  List.filter (contains guard_marker)
    (split_nl (wrapped_code (sample_scraper +:+ nl +:+ sample_block)
                 "https://example.org/b"))
  = ["if __name__ == '__main__':"].
Proof.
  apply (harness_guard_is_the_only_guard (sample_scraper +:+ nl +:+ sample_block)
           "https://example.org/b").
  reflexivity.
Defined.

Lemma guard_block_in_the_middle_witness :
  snd (clean_lines [ "import json"; "if __name__ == '__main__':"; "    main()"; "";
                     "def scrape(url):"; "    return {}" ])
  = (snd (clean_lines ["import json"])
     ++ snd (clean_lines ["def scrape(url):"; "    return {}"]))%list.
Proof.
  apply (guard_block_in_the_middle ["import json"] "if __name__ == '__main__':"
           ["    main()"; ""] ["def scrape(url):"; "    return {}"]).
  - reflexivity.
  - repeat constructor.
  - reflexivity.
Defined.

Lemma saved_content_reads_back_witness :
  let w' := snd (save_content "scrapers/example_org.py" "CODE" (local_only ∅)) in
  fst (read_content "scrapers/example_org.py" w') = Ret (Some "CODE")
  ∧ fst (exists_ "scrapers/example_org.py" w') = Ret true.
Proof.
  destruct (saved_content_reads_back "scrapers/example_org.py" "CODE" (local_only ∅))
    as (Hread & _ & Hexists); [repeat split|].
  split; [exact Hread|exact Hexists].
Defined.

Lemma stale_remote_copy_wins_witness :
  let saved := save_content "scrapers/example_org.py" "NEW" stale_bucket in
  let read := read_content "scrapers/example_org.py" (snd saved) in
  fst saved = Ret false
  ∧ local (snd saved) !! "scrapers/example_org.py" = Some "NEW"
  ∧ fst read = Ret (Some "OLD")
  ∧ local (snd read) !! "scrapers/example_org.py" = Some "OLD".
Proof.
  refine (stale_remote_copy_wins "scrapers/example_org.py" "OLD" "NEW"
            (mkBucket "scrapers-bucket" {[ "scrapers/example_org.py" := "OLD" ]})
            stale_bucket _ _ _ _ _ _); reflexivity.
Defined.

Lemma save_leaves_other_paths_witness :
  fst (read_content "scrapers/example_org.py"
         (snd (save_content "metadata/example_org.json" "{}" remote_only)))
  = fst (read_content "scrapers/example_org.py" remote_only).
Proof.
  refine (proj1 (proj2 (proj2
    (save_leaves_other_paths "metadata/example_org.json" "{}"
       "scrapers/example_org.py" remote_only _)))).
  discriminate.
Defined.

Lemma cached_copy_served_in_outage_witness :
  fst (read_content "scrapers/example_org.py"
         (outage (snd (read_content "scrapers/example_org.py" remote_only))))
  = Ret (Some "CODE")
  ∧ fst (read_content "scrapers/example_org.py" (outage remote_only)) = Ret None.
Proof.
  destruct (cached_copy_served_in_outage "scrapers/example_org.py" "CODE" remote_only)
    as (_ & Hafter & Hbefore); [reflexivity..|].
  split; [exact Hafter|exact Hbefore].
Defined.


Lemma saved_metadata_reads_back_witness :
  fst (get_scraper_metadata "example.org"
         (snd (save_scraper "CODE" "https://example.org/a" (JDict [("title", JStr "h1")])
                 None "single" "t1" "t2" (local_only ∅))))
  = Ret (metadata_of "example.org" "https://example.org/a" (JDict [("title", JStr "h1")])
           None "single" "t1" "t2").
Proof.
  refine (saved_metadata_reads_back "CODE" "https://example.org/a"
            (JDict [("title", JStr "h1")]) None "t1" "t2" "example.org"
            (local_only ∅) _ _ _ _ _).
  - reflexivity.
  - repeat split.
  - vm_compute. reflexivity.
  - vm_compute. discriminate.
  - vm_compute. reflexivity.
Defined.

Lemma metadata_lookup_outcome_witness :
  fst (get_scraper_metadata "example.org" (local_only ∅)) = Ret (JDict [])
  ∧ fst (get_scraper "example.org" (local_only ∅))
    = Raise (FileNotFoundError "No scraper found for domain: example.org")
  ∧ fst (get_scraper_metadata "example.org" corrupt_store) = Raise JSONDecodeError.
Proof.
  destruct (metadata_lookup_outcome "example.org" (local_only ∅))
    as (_ & Hempty & _ & Hunknown).
  destruct (metadata_lookup_outcome "example.org" corrupt_store)
    as (_ & _ & Hcontent & _).
  split; [apply Hempty; left; reflexivity|].
  split; [apply Hunknown; reflexivity|].
  apply (Hcontent "{ not json"); [reflexivity|discriminate].
Defined.

Lemma touch_writes_one_file_only_witness :
  let r := update_scraper_validation "other.net" "2026-02-02T00:00:00" faulty_store in
  fst r = Ret tt
  ∧ local (snd r) !! "metadata/other_net.json" = Some "[]"
  ∧ local (snd r) !! "scrapers/example_org.py" = Some "CODE".
Proof.
  destruct (touch_writes_one_file_only "other.net" "2026-02-02T00:00:00" faulty_store)
    as (Hret & _ & Hother & Hkept).
  split; [exact Hret|]. split.
  - destruct (Hkept "[]") as (_ & Hlocal & _);
      [reflexivity|intros entries; vm_compute; discriminate|].
    exact Hlocal.
  - refine (proj1 (Hother "scrapers/example_org.py" _)). discriminate.
Defined.

Lemma validation_touch_after_save_witness :
  let w1 := snd (save_scraper "CODE" "https://example.org/a"
                   (JDict [("title", JStr "h1")]) None "single"
                   "2026-01-01T00:00:00" "2026-01-01T00:00:01" (local_only ∅)) in
  let w2 := snd (update_scraper_validation "example.org" "2026-02-02T00:00:00" w1) in
  fst (get_scraper_metadata "example.org" w2)
  = Ret (metadata_of "example.org" "https://example.org/a"
           (JDict [("title", JStr "h1")]) None "single"
           "2026-01-01T00:00:00" "2026-02-02T00:00:00").
Proof.
  refine (proj2 (validation_touch_after_save "CODE" "https://example.org/a"
                   (JDict [("title", JStr "h1")]) None
                   "2026-01-01T00:00:00" "2026-01-01T00:00:01" "2026-02-02T00:00:00"
                   "example.org" (local_only ∅) _ _ _ _ _ _ _ _)).
  - reflexivity.
  - repeat split.
  - vm_compute. reflexivity.
  - vm_compute. reflexivity.
  - vm_compute. discriminate.
  - vm_compute. discriminate.
  - vm_compute. reflexivity.
  - vm_compute. reflexivity.
Defined.

Lemma saved_pipeline_loads_witness :
  let w1 := snd (save_scraper list_scraper "https://example.org/news" (JDict []) None
                   "list" "t1" "t2" (local_only ∅)) in
  let w2 := snd (save_scraper content_scraper "https://example.org/news/1" (JDict [])
                   None "content" "t3" "t4" w1) in
  fst (get_scraper_pipeline "example.org" w2)
  = Ret (mkModule "scraper_example.org_list" list_scraper,
         mkModule "scraper_example.org_content" content_scraper)
  ∧ fst (has_scraper_pipeline "example.org" w2) = Ret true.
Proof.
  refine (saved_pipeline_loads list_scraper content_scraper "https://example.org/news"
            "https://example.org/news/1" (JDict []) (JDict []) None None
            "t1" "t2" "t3" "t4" "example.org" (local_only ∅) _ _ _ _ _ _).
  - reflexivity.
  - reflexivity.
  - repeat split.
  - repeat split.
  - repeat split.
  - repeat split.
Defined.

Lemma remote_scraper_loads_through_cache_witness :
  fst (get_scraper "example.org" remote_scraper)
  = Ret (mkModule "scraper_example.org" sample_scraper)
  ∧ local (snd (get_scraper "example.org" remote_scraper)) !! "scrapers/example_org.py"
    = Some sample_scraper.
Proof.
  refine (remote_scraper_loads_through_cache "example.org" sample_scraper
            remote_scraper _ _ _ _).
  - reflexivity.
  - reflexivity.
  - reflexivity.
  - repeat split.
Defined.

Lemma exact_domain_first_witness :
  get_scraper_for_url "https://example.org/a" fallback_store
  = get_scraper "example.org" fallback_store.
Proof.
  refine (exact_domain_first "https://example.org/a" "example.org" fallback_store _ _).
  - reflexivity.
  - intros m. vm_compute. discriminate.
Defined.

Lemma faulty_metadata_stops_resolution_witness :
  classify_entry "https://www.example.org/news/1" faulty_store "metadata/example_org.json"
  = Matched "example.org"
  ∧ ∃ e, fst (get_scraper_for_url "https://www.example.org/news/1" faulty_store)
         = Raise e
         ∧ e ∈ [AttributeError; TypeError; KeyError "domain"; ReError].
Proof.
  split; [vm_compute; reflexivity|].
  refine (faulty_metadata_stops_resolution "https://www.example.org/news/1"
            "www.example.org" "No scraper found for domain: www.example.org"
            faulty_store [] "metadata/other_net.json"
            ["metadata/example_org.json"; "metadata/broken.json"] _ _ _ _ _).
  - reflexivity.
  - vm_compute. reflexivity.
  - vm_compute. reflexivity.
  - constructor.
  - vm_compute. reflexivity.
Defined.

Lemma saved_scraper_is_listed_witness :
  ∃ scrapers,
    fst (list_scrapers
           (snd (save_scraper list_scraper "https://example.org/a" (JDict []) None "list"
                   "t1" "t2" fallback_store)))
      = Ret scrapers
    ∧ metadata_of "example.org" "https://example.org/a" (JDict []) None "list" "t1" "t2"
      ∈ scrapers.
Proof.
  refine (saved_scraper_is_listed list_scraper "https://example.org/a" (JDict []) None "list"
            "t1" "t2" "example.org" fallback_store _ _ _ _ _ _ _).
  - reflexivity.
  - intros X q. apply elem_of_elements.
  - repeat split.
  - intros q _. apply uncaught_local; [reflexivity|].
    intros p c Hp. unfold fallback_store, local_only, store in Hp. simpl local in Hp.
    repeat (apply lookup_insert_Some in Hp as [[_ <-]|[_ Hp]];
            [vm_compute; (by left) || (by right)|]).
    apply lookup_singleton_Some in Hp as [_ <-].
    vm_compute; (by left) || (by right).
  - vm_compute. reflexivity.
  - vm_compute. discriminate.
  - vm_compute. reflexivity.
Defined.

Lemma listed_pipelines_are_distinct_and_complete_witness :
  ∃ ps, fst (list_scraper_pipelines pipeline_store) = Ret ps
        ∧ omap summary_domain ps = ["example.org"]
        ∧ NoDup (omap summary_domain ps).
Proof.
  eexists. split; [vm_compute; reflexivity|]. split; [reflexivity|].
  refine (proj1 (listed_pipelines_are_distinct_and_complete pipeline_store _ _)).
  vm_compute. reflexivity.
Defined.

End Instances.
